(** * cub::DeviceReduce: the reduction dispatcher

    A shallow embedding of [cub/device/device_reduce.cuh]: the tuning policy
    tables, [InitDispatchConfigs], the two [Dispatch] routines, the entry
    points [Reduce] and [Sum], and the two kernel entry points
    [ReduceTilesKernel] and [SingleTileKernel].

    The host code is state passing in a small monad: the state is the in-out
    [temp_storage_bytes] and the kernels submitted so far; a [break] out of
    the [do { } while (0)] block and an early [return] both end the call with
    a status.  The CUDA runtime is a record of primitives ([Platform]), so
    that every query can succeed or fail.  Logging ([CubLog]) is left out.

    The kernels are given in two layers.  [exec_block] is the body of a
    kernel entry point for one block, on the element cells of the device,
    with the positions a block reduces as a parameter.  [exec_kernel] runs a
    whole launch on the device, drain queue descriptors included, and takes
    the positions of each block from the arguments of the launch: the
    even-share plan, or the tiles the block claims from the drain queue. *)

From stdpp Require Import base numbers list gmap.

Open Scope Z_scope.

(** ** Machine integers *)

(** [int] is 32 bits wide.  Signed overflow is undefined in C++; the model
    follows the hardware and wraps in two's complement. *)
Definition INT_MIN : Z := - 2 ^ 31.
Definition INT_MAX : Z := 2 ^ 31 - 1.

Definition int_wrap (z : Z) : Z := (z + 2 ^ 31) `mod` 2 ^ 32 - 2 ^ 31.

Definition int_add (a b : Z) : Z := int_wrap (a + b).
Definition int_sub (a b : Z) : Z := int_wrap (a - b).
Definition int_mul (a b : Z) : Z := int_wrap (a * b).
(** [/] on [int] truncates toward zero. *)
Definition int_div (a b : Z) : Z := int_wrap (a `quot` b).

(** [size_t] is 64 bits wide and unsigned; an [int] converts to it modulo
    [2 ^ 64]. *)
Definition to_size_t (z : Z) : Z := z `mod` 2 ^ 64.
Definition size_t_mul (a b : Z) : Z := to_size_t (a * b).

Definition in_int_range (z : Z) : Prop := INT_MIN <= z <= INT_MAX.

(** ** Enumerations of the tuning parameters *)

Inductive BlockReduceAlgorithm := BLOCK_REDUCE_RAKING | BLOCK_REDUCE_WARP_REDUCTIONS.
Inductive PtxLoadModifier := LOAD_DEFAULT | LOAD_LDG.
Inductive GridMappingStrategy := GRID_MAPPING_EVEN_SHARE | GRID_MAPPING_DYNAMIC.

#[global] Instance BlockReduceAlgorithm_eq_dec : EqDecision BlockReduceAlgorithm.
Proof. solve_decision. Defined.
#[global] Instance PtxLoadModifier_eq_dec : EqDecision PtxLoadModifier.
Proof. solve_decision. Defined.
#[global] Instance GridMappingStrategy_eq_dec : EqDecision GridMappingStrategy.
Proof. solve_decision. Defined.

(** ** Kernel dispatch configuration *)

Record KernelDispatchConfig := {
  block_threads : Z;
  items_per_thread : Z;
  vector_load_length : Z;
  block_algorithm : BlockReduceAlgorithm;
  load_modifier : PtxLoadModifier;
  grid_mapping : GridMappingStrategy
}.

#[global] Instance KernelDispatchConfig_eq_dec : EqDecision KernelDispatchConfig.
Proof. solve_decision. Defined.

(** [BlockReduceTilesPolicy<...>] carries six compile-time constants and
    [KernelDispatchConfig::Init<BlockPolicy>()] copies them field by field:
    a policy is the configuration [Init] builds from it. *)
Definition BlockReduceTilesPolicy
    (BLOCK_THREADS ITEMS_PER_THREAD VECTOR_LOAD_LENGTH : Z)
    (BLOCK_ALGORITHM : BlockReduceAlgorithm) (LOAD_MODIFIER : PtxLoadModifier)
    (GRID_MAPPING : GridMappingStrategy) : KernelDispatchConfig :=
  {| block_threads := BLOCK_THREADS;
     items_per_thread := ITEMS_PER_THREAD;
     vector_load_length := VECTOR_LOAD_LENGTH;
     block_algorithm := BLOCK_ALGORITHM;
     load_modifier := LOAD_MODIFIER;
     grid_mapping := GRID_MAPPING |}.

(** ** Tuning policies

    [sizeof_T] stands for [sizeof(T)], the size of the element type. *)

Module Policy350.
Definition ReduceTilesPolicy1B :=
  BlockReduceTilesPolicy 128 12 1 BLOCK_REDUCE_RAKING LOAD_LDG GRID_MAPPING_DYNAMIC.
Definition ReduceTilesPolicy4B :=
  BlockReduceTilesPolicy 512 20 1 BLOCK_REDUCE_RAKING LOAD_DEFAULT GRID_MAPPING_EVEN_SHARE.
Definition ReduceTilesPolicy (sizeof_T : Z) :=
  if sizeof_T <? 4 then ReduceTilesPolicy1B else ReduceTilesPolicy4B.
Definition SingleTilePolicy :=
  BlockReduceTilesPolicy 256 8 1 BLOCK_REDUCE_WARP_REDUCTIONS LOAD_DEFAULT GRID_MAPPING_EVEN_SHARE.
End Policy350.

Module Policy300.
Definition ReduceTilesPolicy :=
  BlockReduceTilesPolicy 256 2 1 BLOCK_REDUCE_WARP_REDUCTIONS LOAD_DEFAULT GRID_MAPPING_EVEN_SHARE.
Definition SingleTilePolicy :=
  BlockReduceTilesPolicy 256 24 4 BLOCK_REDUCE_WARP_REDUCTIONS LOAD_DEFAULT GRID_MAPPING_EVEN_SHARE.
End Policy300.

Module Policy200.
Definition ReduceTilesPolicy1B :=
  BlockReduceTilesPolicy 192 24 4 BLOCK_REDUCE_RAKING LOAD_DEFAULT GRID_MAPPING_EVEN_SHARE.
Definition ReduceTilesPolicy4B :=
  BlockReduceTilesPolicy 128 8 4 BLOCK_REDUCE_RAKING LOAD_DEFAULT GRID_MAPPING_DYNAMIC.
Definition ReduceTilesPolicy (sizeof_T : Z) :=
  if sizeof_T <? 4 then ReduceTilesPolicy1B else ReduceTilesPolicy4B.
Definition SingleTilePolicy :=
  BlockReduceTilesPolicy 192 7 1 BLOCK_REDUCE_RAKING LOAD_DEFAULT GRID_MAPPING_EVEN_SHARE.
End Policy200.

Module Policy130.
Definition ReduceTilesPolicy :=
  BlockReduceTilesPolicy 128 8 2 BLOCK_REDUCE_RAKING LOAD_DEFAULT GRID_MAPPING_EVEN_SHARE.
Definition SingleTilePolicy :=
  BlockReduceTilesPolicy 32 4 4 BLOCK_REDUCE_RAKING LOAD_DEFAULT GRID_MAPPING_EVEN_SHARE.
End Policy130.

Module Policy100.
Definition ReduceTilesPolicy :=
  BlockReduceTilesPolicy 128 8 2 BLOCK_REDUCE_RAKING LOAD_DEFAULT GRID_MAPPING_EVEN_SHARE.
Definition SingleTilePolicy :=
  BlockReduceTilesPolicy 32 4 4 BLOCK_REDUCE_RAKING LOAD_DEFAULT GRID_MAPPING_EVEN_SHARE.
End Policy100.

(** The policy family of a PTX version, as a pair (reduce-tiles policy,
    single-tile policy). *)
Inductive PolicyFamily := SM35 | SM30 | SM20 | SM13 | SM10.

Definition family_policies (f : PolicyFamily) (sizeof_T : Z)
    : KernelDispatchConfig * KernelDispatchConfig :=
  match f with
  | SM35 => (Policy350.ReduceTilesPolicy sizeof_T, Policy350.SingleTilePolicy)
  | SM30 => (Policy300.ReduceTilesPolicy, Policy300.SingleTilePolicy)
  | SM20 => (Policy200.ReduceTilesPolicy sizeof_T, Policy200.SingleTilePolicy)
  | SM13 => (Policy130.ReduceTilesPolicy, Policy130.SingleTilePolicy)
  | SM10 => (Policy100.ReduceTilesPolicy, Policy100.SingleTilePolicy)
  end.

(** [PtxPolicy]: the [#if (CUB_PTX_VERSION >= 350) ... #else ... #endif]
    chain, for the PTX version of the current compiler pass. *)
Definition PtxPolicy (CUB_PTX_VERSION : Z) : PolicyFamily :=
  if 350 <=? CUB_PTX_VERSION then SM35
  else if 300 <=? CUB_PTX_VERSION then SM30
  else if 200 <=? CUB_PTX_VERSION then SM20
  else if 130 <=? CUB_PTX_VERSION then SM13
  else SM10.

(** [InitDispatchConfigs], host side: the two output references are the
    components of the result. *)
Definition InitDispatchConfigs (ptx_version : Z) (sizeof_T : Z)
    : KernelDispatchConfig * KernelDispatchConfig :=
  if 350 <=? ptx_version then
    (Policy350.ReduceTilesPolicy sizeof_T, Policy350.SingleTilePolicy)
  else if 300 <=? ptx_version then
    (Policy300.ReduceTilesPolicy, Policy300.SingleTilePolicy)
  else if 200 <=? ptx_version then
    (Policy200.ReduceTilesPolicy sizeof_T, Policy200.SingleTilePolicy)
  else if 130 <=? ptx_version then
    (Policy130.ReduceTilesPolicy, Policy130.SingleTilePolicy)
  else
    (Policy100.ReduceTilesPolicy, Policy100.SingleTilePolicy).

(** [InitDispatchConfigs], device side ([__CUDA_ARCH__] defined): the
    opaque [ReduceTilesPolicy] and [SingleTilePolicy] of [PtxPolicy]. *)
Definition InitDispatchConfigs_device (CUB_PTX_VERSION : Z) (sizeof_T : Z)
    : KernelDispatchConfig * KernelDispatchConfig :=
  family_policies (PtxPolicy CUB_PTX_VERSION) sizeof_T.

(** ** The CUDA runtime as seen by the dispatcher *)

Definition ptr := Z.
Definition NULL : ptr := 0.
Definition cudaStream_t := Z.

(** Status codes.  [InvalidScratchSize] is the status of a scratch buffer
    that is too small; [cudaErrorCode] stands for every other code of the
    runtime. *)
Inductive cudaError :=
| cudaSuccess
| cudaErrorNotSupported
| InvalidScratchSize
| cudaErrorCode (code : Z).

#[global] Instance cudaError_eq_dec : EqDecision cudaError.
Proof. solve_decision. Defined.

(** Kernel function pointers.  [Dispatch] receives four of them and compares
    one with [NULL]. *)
Inductive KernelPtr :=
| NULL_kernel
| FillAndResetDrainKernel_ptr
| ReduceTilesKernel_ptr
| SingleTileKernel_ptr.

#[global] Instance KernelPtr_eq_dec : EqDecision KernelPtr.
Proof. solve_decision. Defined.

(** What the dispatcher takes from its surroundings: the compile-time
    switch [CUB_RUNTIME_ENABLED], [sizeof(T)], the alignment of the scratch
    allocator, and the primitives that may fail.  A primitive with an output
    reference returns the status paired with the value.  [SyncStream] is
    given the stream and the number of kernels the call has submitted so
    far. *)
Record Platform := {
  CUB_RUNTIME_ENABLED : bool;
  sizeof_T : Z;
  ALIGN_BYTES : Z;
  PtxVersion : cudaError * Z;
  cudaGetDevice : cudaError * Z;
  cudaDeviceGetAttribute_MultiProcessorCount : Z -> cudaError * Z;
  MaxSmOccupancy : Z -> KernelPtr -> Z -> cudaError * Z;
  SyncStream : cudaStream_t -> nat -> cudaError
}.

(** ** Collaborators whose code is not in this file *)

(** Modelled from the spec: [GridQueue<int>::AllocationSize()]
    (grid/grid_queue.cuh is missing).  The Drain Queue Descriptor of section
    3 is "a single monotonically-increasing counter denoting next unclaimed
    tile index, plus the total tile count": two values of the index type
    [int]. *)
Definition sizeof_int : Z := 4.
Definition GridQueue_AllocationSize : Z := 2 * sizeof_int.

(** [GridQueue<SizeT> queue(allocations[1])]: the descriptor lives in the
    scratch region it is given. *)
Record GridQueue := { d_counters : ptr }.

(** Modelled from the spec: [GridEvenShare] (grid/grid_even_share.cuh is
    missing).  The Even-Share Plan of sections 3 and 4.3: "a computed,
    read-only assignment {tiles_per_group, grid_size} derived once per call
    from (num_items, target_worker_group_count, tile_size)", with
    [grid_size <= target_group_count] and
    [tiles_per_group = ceil(num_tiles / grid_size)]. *)
Record GridEvenShare := {
  es_num_items : Z;
  tiles_per_group : Z;
  grid_size : Z
}.

Definition ceil_div (a b : Z) : Z := (a + b - 1) `div` b.

Definition GridEvenShare_init (num_items max_grid_size schedule_granularity : Z)
    : GridEvenShare :=
  let num_tiles := ceil_div num_items schedule_granularity in
  let g := Z.min num_tiles max_grid_size in
  {| es_num_items := num_items;
     tiles_per_group := ceil_div num_tiles g;
     grid_size := g |}.

(** Modelled from the spec: [AliasTemporaries] (the Scratch Allocator of
    section 4.2; its code is missing).  [plan] "computes an aligned layout;
    pure, never fails"; with a null buffer the call writes [total_bytes] and
    does no work; otherwise [bind] "fails if the caller-provided buffer is
    smaller than total_bytes" and else returns the sub-regions at the planned
    offsets.  The result is the status, the new value of the in-out
    [temp_storage_bytes], and the [allocations] array. *)
Definition align_up (align n : Z) : Z := ((n + align - 1) `div` align) * align.

Fixpoint plan_from (align offset : Z) (extents : list Z) : Z * list Z :=
  match extents with
  | [] => (offset, [])
  | e :: es =>
      let '(total_bytes, offsets) := plan_from align (offset + align_up align e) es in
      (total_bytes, offset :: offsets)
  end.

Definition plan (align : Z) (extents : list Z) : Z * list Z :=
  plan_from align 0 extents.

Definition AliasTemporaries (align : Z) (d_temp_storage : ptr)
    (temp_storage_bytes : Z) (allocation_sizes : list Z)
    : cudaError * Z * list ptr :=
  let '(total_bytes, offsets) := plan align allocation_sizes in
  if decide (d_temp_storage = NULL) then
    (cudaSuccess, total_bytes, [])
  else if temp_storage_bytes <? total_bytes then
    (InvalidScratchSize, temp_storage_bytes, [])
  else
    (cudaSuccess, temp_storage_bytes, (fun o => d_temp_storage + o) <$> offsets).

(** ** Kernel launches *)

(** The argument lists of the three kernels.  [SingleTileKernel] is
    instantiated twice: over the partials ([T*]) and over the input. *)
Inductive KernelArgs (T InputIterator OutputIterator : Type) :=
| FillAndResetDrain_args (queue : GridQueue) (num_items : Z)
| ReduceTiles_args (d_in : InputIterator) (d_out : ptr) (num_items : Z)
    (even_share : GridEvenShare) (queue : GridQueue) (reduction_op : T -> T -> T)
| AggregateTile_args (d_in : ptr) (d_out : OutputIterator) (num_items : Z)
    (reduction_op : T -> T -> T)
| SingleTile_args (d_in : InputIterator) (d_out : OutputIterator) (num_items : Z)
    (reduction_op : T -> T -> T).

Arguments FillAndResetDrain_args {T InputIterator OutputIterator}.
Arguments ReduceTiles_args {T InputIterator OutputIterator}.
Arguments AggregateTile_args {T InputIterator OutputIterator}.
Arguments SingleTile_args {T InputIterator OutputIterator}.

(** [kernel<<<gridDim, blockDim, shared_bytes, stream>>>(args)].  A launch
    written with two configuration arguments gets no shared memory and
    stream [0], the default stream. *)
Record Launch (T InputIterator OutputIterator : Type) := {
  kernel : KernelPtr;
  gridDim : Z;
  blockDim : Z;
  shared_bytes : Z;
  stream_of : cudaStream_t;
  args : KernelArgs T InputIterator OutputIterator
}.

Arguments Build_Launch {T InputIterator OutputIterator}.
Arguments kernel {T InputIterator OutputIterator}.
Arguments gridDim {T InputIterator OutputIterator}.
Arguments blockDim {T InputIterator OutputIterator}.
Arguments shared_bytes {T InputIterator OutputIterator}.
Arguments stream_of {T InputIterator OutputIterator}.
Arguments args {T InputIterator OutputIterator}.

Definition default_stream : cudaStream_t := 0.

(** ** The host monad *)

Record HostState (T InputIterator OutputIterator : Type) := {
  temp_storage_bytes : Z;
  launched : list (Launch T InputIterator OutputIterator)
}.

Arguments Build_HostState {T InputIterator OutputIterator}.
Arguments temp_storage_bytes {T InputIterator OutputIterator}.
Arguments launched {T InputIterator OutputIterator}.

(** A step either ends the call with a status ([return], or [break] followed
    by [return error]) or goes on with a value. *)
Inductive Outcome (A : Type) :=
| Returned (error : cudaError)
| Continue (a : A).

Arguments Returned {A}.
Arguments Continue {A}.

Definition Host (S A : Type) : Type := S -> Outcome A * S.

#[global] Instance Host_ret {S} : MRet (Host S) :=
  fun A a s => (Continue a, s).

#[global] Instance Host_bind {S} : MBind (Host S) :=
  fun A B f m s =>
    match m s with
    | (Returned e, s') => (Returned e, s')
    | (Continue a, s') => f a s'
    end.

(** [return e;] *)
Definition returns {S A} (e : cudaError) : Host S A :=
  fun s => (Returned e, s).

(** [if (CubDebug(error = f(&x))) break;] *)
Definition or_break {S A} (r : cudaError * A) : Host S A :=
  fun s =>
    match r with
    | (cudaSuccess, x) => (Continue x, s)
    | (e, _) => (Returned e, s)
    end.

(** At the end of the [do { } while (0)] block [error] still holds
    [cudaSuccess], and [return error] returns it. *)
Definition run_host {S} (m : Host S unit) (s : S) : cudaError * S :=
  match m s with
  | (Returned e, s') => (e, s')
  | (Continue _, s') => (cudaSuccess, s')
  end.

(** ** Dispatch *)

Section Dispatch.
Context {T InputIterator OutputIterator : Type}.

Abbreviation State := (HostState T InputIterator OutputIterator).

(** [kernel<<<...>>>(...)]: the submission is appended to the call's
    submissions.  The dispatcher does not look at the status of a launch. *)
Definition launch (l : Launch T InputIterator OutputIterator) : Host State unit :=
  fun s =>
    (Continue tt,
     {| temp_storage_bytes := temp_storage_bytes s; launched := launched s ++ [l] |}).

(** [temp_storage_bytes = n;] *)
Definition set_temp_storage_bytes (n : Z) : Host State unit :=
  fun s => (Continue tt, {| temp_storage_bytes := n; launched := launched s |}).

(** [if (debug_synchronous && (CubDebug(error = SyncStream(stream)))) break;] *)
Definition sync_if (pf : Platform) (debug_synchronous : bool) (stream : cudaStream_t)
    : Host State unit :=
  fun s =>
    if debug_synchronous
    then or_break (SyncStream pf stream (length (launched s)), tt) s
    else (Continue tt, s).

(** [if (CubDebug(error = AliasTemporaries(d_temp_storage, temp_storage_bytes,
    allocations, allocation_sizes))) break;] *)
Definition alias_temporaries (pf : Platform) (d_temp_storage : ptr)
    (allocation_sizes : list Z) : Host State (list ptr) :=
  fun s =>
    let '(e, bytes, allocations) :=
      AliasTemporaries (ALIGN_BYTES pf) d_temp_storage (temp_storage_bytes s)
        allocation_sizes in
    or_break (e, allocations) {| temp_storage_bytes := bytes; launched := launched s |}.

(** [int tile_size = reduce_tiles_config.block_threads *
    reduce_tiles_config.items_per_thread;] *)
Definition tile_size_of (reduce_tiles_config : KernelDispatchConfig) : Z :=
  int_mul (block_threads reduce_tiles_config) (items_per_thread reduce_tiles_config).

(** The [switch (reduce_tiles_config.grid_mapping)] that sets
    [reduce_tiles_grid_size]. *)
Definition reduce_tiles_grid_size (mapping : GridMappingStrategy)
    (num_items tile_size reduce_tiles_occupancy : Z) (even_share : GridEvenShare) : Z :=
  match mapping with
  | GRID_MAPPING_EVEN_SHARE => grid_size even_share
  | GRID_MAPPING_DYNAMIC =>
      let num_tiles := int_div (int_sub (int_add num_items tile_size) 1) tile_size in
      if num_tiles <? reduce_tiles_occupancy then num_tiles else reduce_tiles_occupancy
  end.

(** [size_t allocation_sizes[2]] *)
Definition allocation_sizes_of (pf : Platform) (reduce_tiles_grid_size : Z) : list Z :=
  [ size_t_mul (to_size_t reduce_tiles_grid_size) (sizeof_T pf);
    GridQueue_AllocationSize ].

(** The four kernel launches of the routine.  [single_kernel<<<1,
    single_tile_config.block_threads>>>] names no stream. *)
Definition single_kernel_launch (single_kernel : KernelPtr)
    (single_tile_config : KernelDispatchConfig)
    (d_in : InputIterator) (d_out : OutputIterator) (num_items : Z)
    (reduction_op : T -> T -> T) : Launch T InputIterator OutputIterator :=
  {| kernel := single_kernel;
     gridDim := 1;
     blockDim := block_threads single_tile_config;
     shared_bytes := 0;
     stream_of := default_stream;
     args := SingleTile_args d_in d_out num_items reduction_op |}.

Definition prepare_drain_kernel_launch (prepare_drain_kernel : KernelPtr)
    (stream : cudaStream_t) (queue : GridQueue) (num_items : Z)
    : Launch T InputIterator OutputIterator :=
  {| kernel := prepare_drain_kernel;
     gridDim := 1;
     blockDim := 1;
     shared_bytes := 0;
     stream_of := stream;
     args := FillAndResetDrain_args queue num_items |}.

Definition reduce_tiles_kernel_launch (reduce_tiles_kernel : KernelPtr)
    (reduce_tiles_grid_size : Z) (reduce_tiles_config : KernelDispatchConfig)
    (stream : cudaStream_t) (d_in : InputIterator) (d_block_reductions : ptr)
    (num_items : Z) (even_share : GridEvenShare) (queue : GridQueue)
    (reduction_op : T -> T -> T) : Launch T InputIterator OutputIterator :=
  {| kernel := reduce_tiles_kernel;
     gridDim := reduce_tiles_grid_size;
     blockDim := block_threads reduce_tiles_config;
     shared_bytes := 0;
     stream_of := stream;
     args := ReduceTiles_args d_in d_block_reductions num_items even_share queue
               reduction_op |}.

Definition aggregate_kernel_launch (aggregate_kernel : KernelPtr)
    (single_tile_config : KernelDispatchConfig) (stream : cudaStream_t)
    (d_block_reductions : ptr) (d_out : OutputIterator)
    (reduce_tiles_grid_size : Z) (reduction_op : T -> T -> T)
    : Launch T InputIterator OutputIterator :=
  {| kernel := aggregate_kernel;
     gridDim := 1;
     blockDim := block_threads single_tile_config;
     shared_bytes := 0;
     stream_of := stream;
     args := AggregateTile_args d_block_reductions d_out reduce_tiles_grid_size
               reduction_op |}.

(** The body of the internal dispatch routine that takes the kernel function
    pointers.  [SizeT] is [int], as the entry points instantiate it. *)
Definition Dispatch_body (pf : Platform) (d_temp_storage : ptr)
    (d_in : InputIterator) (d_out : OutputIterator) (num_items : Z)
    (reduction_op : T -> T -> T) (stream : cudaStream_t) (debug_synchronous : bool)
    (sm_version : Z)
    (prepare_drain_kernel reduce_tiles_kernel aggregate_kernel single_kernel : KernelPtr)
    (reduce_tiles_config single_tile_config : KernelDispatchConfig)
    : Host State unit :=
  if negb (CUB_RUNTIME_ENABLED pf) then
    returns cudaErrorNotSupported
  else
    let tile_size := tile_size_of reduce_tiles_config in
    if bool_decide (reduce_tiles_kernel = NULL_kernel) || (num_items <=? tile_size) then
      if decide (d_temp_storage = NULL) then
        set_temp_storage_bytes 1;;
        returns cudaSuccess
      else
        launch (single_kernel_launch single_kernel single_tile_config
                  d_in d_out num_items reduction_op);;
        sync_if pf debug_synchronous stream
    else
      device_ordinal ← or_break (cudaGetDevice pf);
      sm_count ← or_break (cudaDeviceGetAttribute_MultiProcessorCount pf device_ordinal);
      reduce_tiles_sm_occupancy ←
        or_break (MaxSmOccupancy pf sm_version reduce_tiles_kernel
                    (block_threads reduce_tiles_config));
      let reduce_tiles_occupancy := int_mul reduce_tiles_sm_occupancy sm_count in
      let subscription_factor := reduce_tiles_sm_occupancy in
      let even_share :=
        GridEvenShare_init num_items
          (int_mul reduce_tiles_occupancy subscription_factor) tile_size in
      let grid :=
        reduce_tiles_grid_size (grid_mapping reduce_tiles_config)
          num_items tile_size reduce_tiles_occupancy even_share in
      allocations ← alias_temporaries pf d_temp_storage (allocation_sizes_of pf grid);
      if decide (d_temp_storage = NULL) then
        returns cudaSuccess
      else
        let d_block_reductions : ptr := allocations !!! 0%nat in
        let queue := {| d_counters := allocations !!! 1%nat |} in
        (if decide (grid_mapping reduce_tiles_config = GRID_MAPPING_DYNAMIC) then
           launch (prepare_drain_kernel_launch prepare_drain_kernel stream queue
                     num_items);;
           sync_if pf debug_synchronous stream
         else mret tt);;
        launch (reduce_tiles_kernel_launch reduce_tiles_kernel grid
                  reduce_tiles_config stream d_in d_block_reductions num_items
                  even_share queue reduction_op);;
        sync_if pf debug_synchronous stream;;
        launch (aggregate_kernel_launch aggregate_kernel single_tile_config stream
                  d_block_reductions d_out grid reduction_op);;
        sync_if pf debug_synchronous stream.

(** A call starts with the caller's [temp_storage_bytes] and nothing
    submitted; it ends with a status, the final [temp_storage_bytes] and the
    submissions in order. *)
Definition Dispatch (pf : Platform) (d_temp_storage : ptr) (temp_storage_bytes : Z)
    (d_in : InputIterator) (d_out : OutputIterator) (num_items : Z)
    (reduction_op : T -> T -> T) (stream : cudaStream_t) (debug_synchronous : bool)
    (sm_version : Z)
    (prepare_drain_kernel reduce_tiles_kernel aggregate_kernel single_kernel : KernelPtr)
    (reduce_tiles_config single_tile_config : KernelDispatchConfig)
    : cudaError * State :=
  run_host
    (Dispatch_body pf d_temp_storage d_in d_out num_items reduction_op stream
       debug_synchronous sm_version prepare_drain_kernel reduce_tiles_kernel
       aggregate_kernel single_kernel reduce_tiles_config single_tile_config)
    {| temp_storage_bytes := temp_storage_bytes; launched := [] |}.

(** The internal dispatch routine without kernel arguments, on the host: it
    asks for the PTX version, looks the configurations up and passes the
    kernels of this file. *)
Definition Dispatch_tuned (pf : Platform) (d_temp_storage : ptr) (temp_storage_bytes : Z)
    (d_in : InputIterator) (d_out : OutputIterator) (num_items : Z)
    (reduction_op : T -> T -> T) (stream : cudaStream_t) (debug_synchronous : bool)
    : cudaError * State :=
  run_host
    (ptx_version ← or_break (PtxVersion pf);
     let '(reduce_tiles_config, single_tile_config) :=
       InitDispatchConfigs ptx_version (sizeof_T pf) in
     Dispatch_body pf d_temp_storage d_in d_out num_items reduction_op stream
       debug_synchronous ptx_version
       FillAndResetDrainKernel_ptr ReduceTilesKernel_ptr
       SingleTileKernel_ptr SingleTileKernel_ptr
       reduce_tiles_config single_tile_config)
    {| temp_storage_bytes := temp_storage_bytes; launched := [] |}.

(** [DeviceReduce::Reduce] *)
Definition Reduce (pf : Platform) (d_temp_storage : ptr) (temp_storage_bytes : Z)
    (d_in : InputIterator) (d_out : OutputIterator) (num_items : Z)
    (reduction_op : T -> T -> T) (stream : cudaStream_t) (debug_synchronous : bool)
    : cudaError * State :=
  Dispatch_tuned pf d_temp_storage temp_storage_bytes d_in d_out num_items
    reduction_op stream debug_synchronous.

End Dispatch.

(** [cub::Sum] on [int] elements, and [DeviceReduce::Sum]. *)
Definition cub_Sum (a b : Z) : Z := int_add a b.

Definition Sum {InputIterator OutputIterator : Type}
    (pf : Platform) (d_temp_storage : ptr) (temp_storage_bytes : Z)
    (d_in : InputIterator) (d_out : OutputIterator) (num_items : Z)
    (stream : cudaStream_t) (debug_synchronous : bool)
    : cudaError * HostState Z InputIterator OutputIterator :=
  Dispatch_tuned pf d_temp_storage temp_storage_bytes d_in d_out num_items
    cub_Sum stream debug_synchronous.

(** ** The kernels

    Device memory holds the scratch region, addressed by byte, and the
    caller's output range, addressed by position.  An input iterator is the
    sequence it enumerates; an output iterator is a position of the output
    range.  A cell that was never written has no value. *)

Section Kernels.
Context {T : Type}.

Record DeviceMemory := {
  scratch : gmap Z T;
  output : gmap Z T
}.

Definition empty_memory : DeviceMemory := {| scratch := ∅; output := ∅ |}.

(** [d_in[i]] for an input iterator, [p[i]] for a [T*] into the scratch
    region, where [T] takes [sizeof_T] bytes. *)
Definition read_input (d_in : list T) (i : Z) : option T :=
  if decide (0 <= i) then d_in !! Z.to_nat i else None.

(** The item at a position of the input, with a default for positions out of
    range. *)
Definition item_at (x0 : T) (d_in : list T) (i : Z) : T :=
  default x0 (d_in !! Z.to_nat i).

Definition elem_addr (sizeof_T : Z) (p : ptr) (i : Z) : Z := p + i * sizeof_T.

Definition read_scratch (sizeof_T : Z) (p : ptr) (m : DeviceMemory) (i : Z) : option T :=
  scratch m !! elem_addr sizeof_T p i.

(** [p[i] = v] and [d_out[i] = v] *)
Definition write_scratch (sizeof_T : Z) (p : ptr) (i : Z) (v : T) (m : DeviceMemory)
    : DeviceMemory :=
  {| scratch := <[elem_addr sizeof_T p i := v]> (scratch m); output := output m |}.

Definition write_output (d_out : Z) (i : Z) (v : T) (m : DeviceMemory) : DeviceMemory :=
  {| scratch := scratch m; output := <[d_out + i := v]> (output m) |}.

(** The fold of a non-empty sequence, from the left.  There is no identity
    element: over no items the aggregate is not defined. *)
Definition fold1 (reduction_op : T -> T -> T) (items : list T) : option T :=
  match items with
  | [] => None
  | x :: rest => Some (foldl reduction_op x rest)
  end.

(** Modelled from the spec: [BlockReduceTiles::ConsumeTiles]
    (block/block_reduce_tiles.cuh is missing), the intra-group reduction
    capability of section 1: "given a contiguous or strided tile of N items
    and a combining operator, produce one aggregate".  The block is handed
    the positions [offsets] of its source and [block_aggregate] is the fold
    of the items there. *)
Definition ConsumeTiles (reduction_op : T -> T -> T) (read : Z -> option T)
    (offsets : list Z) : option T :=
  items ← mapM read offsets;
  fold1 reduction_op items.

(** [ReduceTilesKernel], for the block [blockIdx].  Which positions the
    block is handed under the grid mapping of its policy is decided inside
    [ConsumeTiles] from [num_items], [even_share] and [queue]: here it is the
    argument [consumed], and [exec_kernel] below computes it from these three
    arguments of the launch.  Thread 0 writes [d_out[blockIdx.x]]. *)
Definition ReduceTilesKernel (read : Z -> option T)
    (write : Z -> T -> DeviceMemory -> DeviceMemory) (consumed : list Z)
    (reduction_op : T -> T -> T) (blockIdx : Z) (m : DeviceMemory)
    : option DeviceMemory :=
  block_aggregate ← ConsumeTiles reduction_op read consumed;
  Some (write blockIdx block_aggregate m).

(** [SingleTileKernel], for the block [blockIdx]: [ConsumeTiles(SizeT(0),
    SizeT(num_items), block_aggregate)] is handed the range from [0] to
    [num_items]. *)
Definition SingleTileKernel (read : Z -> option T)
    (write : Z -> T -> DeviceMemory -> DeviceMemory) (num_items : Z)
    (reduction_op : T -> T -> T) (blockIdx : Z) (m : DeviceMemory)
    : option DeviceMemory :=
  block_aggregate ← ConsumeTiles reduction_op read (seqZ 0 num_items);
  Some (write blockIdx block_aggregate m).

Abbreviation DeviceLaunch := (Launch T (list T) Z).

(** One block of a launch, on the element cells, given the positions
    [consumed] each block of the partial-reduction kernel is handed.
    [FillAndResetDrainKernel] (grid/grid_queue.cuh is missing) resets the
    queue descriptor and touches neither the partials nor the output; the
    descriptor itself is part of [Device] below.  A launch whose kernel does
    not take the arguments it is given has no defined effect. *)
Definition exec_block (sizeof_T : Z) (consumed : Z -> list Z) (l : DeviceLaunch)
    (blockIdx : Z) (m : DeviceMemory) : option DeviceMemory :=
  match kernel l, args l with
  | FillAndResetDrainKernel_ptr, FillAndResetDrain_args _ _ => Some m
  | ReduceTilesKernel_ptr, ReduceTiles_args d_in d_out _ _ _ reduction_op =>
      ReduceTilesKernel (read_input d_in) (write_scratch sizeof_T d_out)
        (consumed blockIdx) reduction_op blockIdx m
  | SingleTileKernel_ptr, AggregateTile_args d_in d_out num_items reduction_op =>
      SingleTileKernel (read_scratch sizeof_T d_in m) (write_output d_out)
        num_items reduction_op blockIdx m
  | SingleTileKernel_ptr, SingleTile_args d_in d_out num_items reduction_op =>
      SingleTileKernel (read_input d_in) (write_output d_out)
        num_items reduction_op blockIdx m
  | _, _ => None
  end.

(** The blocks of a grid; a grid size below one launches nothing. *)
Definition blocks_of (l : DeviceLaunch) : list Z := seqZ 0 (gridDim l).

Definition exec_blocks (sizeof_T : Z) (consumed : Z -> list Z) (l : DeviceLaunch)
    (bs : list Z) (m : DeviceMemory) : option DeviceMemory :=
  foldl (fun om b => m' ← om; exec_block sizeof_T consumed l b m') (Some m) bs.

Definition exec_launch (sizeof_T : Z) (consumed : Z -> list Z) (l : DeviceLaunch)
    (m : DeviceMemory) : option DeviceMemory :=
  exec_blocks sizeof_T consumed l (blocks_of l) m.

(** Kernels of one stream run in the order of their submission. *)
Definition run_launches (sizeof_T : Z) (consumed : Z -> list Z)
    (ls : list DeviceLaunch) (m : DeviceMemory) : option DeviceMemory :=
  foldl (fun om l => m' ← om; exec_launch sizeof_T consumed l m') (Some m) ls.

(** The scratch addresses a block writes and reads. *)
Definition block_scratch_writes (sizeof_T : Z) (l : DeviceLaunch) (blockIdx : Z)
    : list Z :=
  match kernel l, args l with
  | ReduceTilesKernel_ptr, ReduceTiles_args _ d_out _ _ _ _ =>
      [elem_addr sizeof_T d_out blockIdx]
  | _, _ => []
  end.

Definition block_scratch_reads (sizeof_T : Z) (l : DeviceLaunch) (blockIdx : Z)
    : list Z :=
  match kernel l, args l with
  | SingleTileKernel_ptr, AggregateTile_args d_in _ num_items _ =>
      elem_addr sizeof_T d_in <$> seqZ 0 num_items
  | _, _ => []
  end.

(** The blocks of the partial-reduction grid together consume every input
    position exactly once, and each block consumes at least one. *)
Definition exact_cover (consumed : Z -> list Z) (grid num_items : Z) : Prop :=
  concat (consumed <$> seqZ 0 grid) ≡ₚ seqZ 0 num_items
  ∧ ∀ b, 0 <= b < grid → consumed b ≠ [].

End Kernels.

Arguments DeviceMemory : clear implicits.

(** ** Vocabulary of the statements *)

Section Vocabulary.
Context {T InputIterator OutputIterator : Type}.

Abbreviation State := (HostState T InputIterator OutputIterator).

(** The three device queries of the two-stage branch succeed and report
    [sm_count] multiprocessors and [sm_occupancy] resident blocks per
    multiprocessor. *)
Definition queries_succeed (pf : Platform) (sm_version : Z)
    (reduce_tiles_kernel : KernelPtr) (reduce_tiles_config : KernelDispatchConfig)
    (sm_count sm_occupancy : Z) : Prop :=
  ∃ device_ordinal,
    cudaGetDevice pf = (cudaSuccess, device_ordinal)
    ∧ cudaDeviceGetAttribute_MultiProcessorCount pf device_ordinal
      = (cudaSuccess, sm_count)
    ∧ MaxSmOccupancy pf sm_version reduce_tiles_kernel
        (block_threads reduce_tiles_config) = (cudaSuccess, sm_occupancy).

(** One of the three queries fails with status [e], those before it having
    succeeded. *)
Definition query_fails (pf : Platform) (sm_version : Z)
    (reduce_tiles_kernel : KernelPtr) (reduce_tiles_config : KernelDispatchConfig)
    (e : cudaError) : Prop :=
  fst (cudaGetDevice pf) = e
  ∨ ∃ device_ordinal,
      cudaGetDevice pf = (cudaSuccess, device_ordinal)
      ∧ (fst (cudaDeviceGetAttribute_MultiProcessorCount pf device_ordinal) = e
         ∨ ∃ sm_count,
             cudaDeviceGetAttribute_MultiProcessorCount pf device_ordinal
               = (cudaSuccess, sm_count)
             ∧ fst (MaxSmOccupancy pf sm_version reduce_tiles_kernel
                      (block_threads reduce_tiles_config)) = e).

(** The values the two-stage branch computes from the answers of the
    queries: [even_share], [reduce_tiles_grid_size], and the layout of the
    scratch region. *)
Definition planned_even_share (reduce_tiles_config : KernelDispatchConfig)
    (num_items sm_count sm_occupancy : Z) : GridEvenShare :=
  GridEvenShare_init num_items
    (int_mul (int_mul sm_occupancy sm_count) sm_occupancy)
    (tile_size_of reduce_tiles_config).

Definition planned_grid_size (reduce_tiles_config : KernelDispatchConfig)
    (num_items sm_count sm_occupancy : Z) : Z :=
  reduce_tiles_grid_size (grid_mapping reduce_tiles_config) num_items
    (tile_size_of reduce_tiles_config) (int_mul sm_occupancy sm_count)
    (planned_even_share reduce_tiles_config num_items sm_count sm_occupancy).

Definition required_bytes (pf : Platform) (grid : Z) : Z :=
  fst (plan (ALIGN_BYTES pf) (allocation_sizes_of pf grid)).

Definition planned_allocations (pf : Platform) (d_temp_storage : ptr) (grid : Z)
    : list ptr :=
  (fun o => d_temp_storage + o) <$> snd (plan (ALIGN_BYTES pf) (allocation_sizes_of pf grid)).

(** The launches of the two-stage branch, in the order of the text. *)
Definition two_stage_launches
    (prepare_drain_kernel reduce_tiles_kernel aggregate_kernel : KernelPtr)
    (reduce_tiles_config single_tile_config : KernelDispatchConfig)
    (stream : cudaStream_t) (d_in : InputIterator) (d_out : OutputIterator)
    (num_items : Z) (reduction_op : T -> T -> T)
    (grid : Z) (even_share : GridEvenShare) (allocations : list ptr)
    : list (Launch T InputIterator OutputIterator) :=
  let d_block_reductions : ptr := allocations !!! 0%nat in
  let queue := {| d_counters := allocations !!! 1%nat |} in
  (if decide (grid_mapping reduce_tiles_config = GRID_MAPPING_DYNAMIC)
   then [prepare_drain_kernel_launch prepare_drain_kernel stream queue num_items]
   else [])
  ++ [ reduce_tiles_kernel_launch reduce_tiles_kernel grid reduce_tiles_config
         stream d_in d_block_reductions num_items even_share queue reduction_op;
       aggregate_kernel_launch aggregate_kernel single_tile_config stream
         d_block_reductions d_out grid reduction_op ].

(** Launch, then synchronise if asked to, one kernel after the other. *)
Fixpoint submit (pf : Platform) (debug_synchronous : bool) (stream : cudaStream_t)
    (ls : list (Launch T InputIterator OutputIterator)) : Host State unit :=
  match ls with
  | [] => mret tt
  | l :: ls' =>
      launch l;;
      sync_if pf debug_synchronous stream;;
      submit pf debug_synchronous stream ls'
  end.

(** The first [k] synchronisations of a call succeed, where the [i]-th one
    follows the [i]-th launch. *)
Definition syncs_succeed (pf : Platform) (stream : cudaStream_t) (k : nat) : Prop :=
  ∀ i : nat, (1 <= i <= k)%nat → SyncStream pf stream i = cudaSuccess.

(** The kernel writes the caller's output range. *)
Definition writes_output (l : Launch T InputIterator OutputIterator) : bool :=
  match args l with
  | AggregateTile_args _ _ _ _ | SingleTile_args _ _ _ _ => true
  | _ => false
  end.

End Vocabulary.

(** ** The positions a block of the partial-reduction kernel is handed

    [ReduceTilesKernel] passes [num_items], [even_share] and [queue] on to
    [ConsumeTiles], which decides from them, and from the grid mapping and
    the tile size of the policy the kernel is instantiated with, which input
    positions the block reduces. *)

(** Modelled from the spec: the Tile of section 3
    (block/block_reduce_tiles.cuh is missing): "a maximal contiguous run of
    tile_size = group_size x items_per_member input items processed as a unit
    by one worker group.  The last tile of an input may be partial (fewer
    items)."  Tile [t] holds the positions from [t * tile_size] on, as far as
    there are items. *)
Definition tile_positions (tile_size num_items t : Z) : list Z :=
  seqZ (t * tile_size) (Z.min tile_size (num_items - t * tile_size)).

(** Modelled from the spec: the runs of the Even-Share Plan
    (grid/grid_even_share.cuh is missing).  Section 4.3, step 4: "partition
    num_items into grid_size groups such that each group is assigned a
    contiguous run of whole tiles, with at most one group receiving the short
    remainder", a "static, input-order-preserving partition", in which no
    group holds more than [tiles_per_group = ceil(num_tiles / grid_size)]
    tiles.  The runs are those of the balanced partition: group [b] holds the
    tiles from [b * num_tiles / grid_size] up to, and without,
    [(b + 1) * num_tiles / grid_size]. *)
Definition even_share_first_tile (even_share : GridEvenShare) (tile_size b : Z) : Z :=
  (b * ceil_div (es_num_items even_share) tile_size) `div` grid_size even_share.

Definition even_share_tiles (even_share : GridEvenShare) (tile_size b : Z) : list Z :=
  seqZ (even_share_first_tile even_share tile_size b)
       (even_share_first_tile even_share tile_size (b + 1)
        - even_share_first_tile even_share tile_size b).

(** Where the run of group [b] ends: the end of its last tile, or of the
    input. *)
Definition even_share_end (even_share : GridEvenShare) (tile_size num_items b : Z) : Z :=
  Z.min (even_share_first_tile even_share tile_size b * tile_size) num_items.

(** Modelled from the spec: the Drain Queue of sections 3 and 4.4
    (grid/grid_queue.cuh is missing).  The descriptor lives in the scratch
    region and holds what [reset] was given and "a single
    monotonically-increasing counter denoting next unclaimed tile index".
    [FillAndResetDrainKernel] is handed [num_items] (the launch of
    [prepare_drain_kernel]) and is not instantiated with a policy, so the
    descriptor keeps the number of items to drain; its tiles are those of the
    kernel that drains it. *)
Record DrainQueue := {
  fill_size : Z;
  next_tile : Z
}.

(** Modelled from the spec: [claim] (section 4.4).  "No two concurrent
    claims may return the same index; no tile index is ever skipped or issued
    twice", and "no ordering exists between which group claims which tile"
    (section 5): an execution gives every tile index below the total to
    exactly one group, [claims t].  These are the tiles group [b] claims. *)
Definition claimed_tiles (claims : Z -> Z) (total_tiles b : Z) : list Z :=
  filter (fun t => claims t = b) (seqZ 0 total_tiles).

(** Every claim is made by a group of the grid, and every group of the grid
    claims at least one tile. *)
Definition fair_claims (claims : Z -> Z) (grid total_tiles : Z) : Prop :=
  (∀ t, 0 <= t < total_tiles → 0 <= claims t < grid)
  ∧ (∀ b, 0 <= b < grid → ∃ t, 0 <= t < total_tiles ∧ claims t = b).

Section Device.
Context {T : Type}.

(** The device as the kernels of one call see it: the element cells of the
    scratch region and the output range, and the descriptors of the drain
    queues in the scratch region, by address. *)
Record Device := {
  memory : DeviceMemory T;
  queues : gmap Z DrainQueue
}.

Definition empty_device : Device := {| memory := empty_memory; queues := ∅ |}.

(** Modelled from the spec: the positions [ConsumeTiles] reduces in block
    [blockIdx] of the partial-reduction kernel (section 4.5).  "Under
    EVEN_SHARE: the group reduces its statically assigned contiguous run of
    tiles (no Drain Queue access).  Under DYNAMIC: the group loops claiming
    tiles from the Drain Queue ... until exhaustion."  [policy] is the policy
    the kernel is instantiated with; no position reaches [num_items]. *)
Definition even_share_positions (policy : KernelDispatchConfig)
    (num_items : Z) (even_share : GridEvenShare) (blockIdx : Z) : list Z :=
  concat (tile_positions (tile_size_of policy) num_items
            <$> even_share_tiles even_share (tile_size_of policy) blockIdx).

Definition dynamic_positions (policy : KernelDispatchConfig) (claims : Z -> Z)
    (num_items : Z) (queue : DrainQueue) (blockIdx : Z) : list Z :=
  concat (tile_positions (tile_size_of policy) num_items
            <$> claimed_tiles claims
                  (ceil_div (fill_size queue) (tile_size_of policy)) blockIdx).

(** One kernel of a call on the device.  [FillAndResetDrainKernel] resets
    the descriptor it is given.  The blocks of [ReduceTilesKernel] are run
    with the positions their arguments give them; under DYNAMIC mapping the
    descriptor must be there and freshly reset, and is left exhausted.  The
    single-tile kernel is handed its range by [SingleTileKernel]. *)
Definition exec_kernel (sizeof_T : Z) (policy : KernelDispatchConfig)
    (claims : Z -> Z) (l : Launch T (list T) Z) (d : Device) : option Device :=
  match kernel l, args l with
  | FillAndResetDrainKernel_ptr, FillAndResetDrain_args queue num_items =>
      Some {| memory := memory d;
              queues := <[d_counters queue :=
                            {| fill_size := num_items; next_tile := 0 |}]> (queues d) |}
  | ReduceTilesKernel_ptr, ReduceTiles_args _ _ num_items even_share queue _ =>
      match grid_mapping policy with
      | GRID_MAPPING_EVEN_SHARE =>
          m ← exec_launch sizeof_T (even_share_positions policy num_items even_share)
                l (memory d);
          Some {| memory := m; queues := queues d |}
      | GRID_MAPPING_DYNAMIC =>
          q ← queues d !! d_counters queue;
          if decide (next_tile q = 0) then
            m ← exec_launch sizeof_T (dynamic_positions policy claims num_items q)
                  l (memory d);
            Some {| memory := m;
                    queues :=
                      <[d_counters queue :=
                          {| fill_size := fill_size q;
                             next_tile := ceil_div (fill_size q) (tile_size_of policy) |}]>
                        (queues d) |}
          else None
      end
  | SingleTileKernel_ptr, AggregateTile_args _ _ _ _
  | SingleTileKernel_ptr, SingleTile_args _ _ _ _ =>
      m ← exec_launch sizeof_T (fun _ => []) l (memory d);
      Some {| memory := m; queues := queues d |}
  | _, _ => None
  end.

(** The kernels of a call, in the order of their submission. *)
Definition run_kernels (sizeof_T : Z) (policy : KernelDispatchConfig)
    (claims : Z -> Z) (ls : list (Launch T (list T) Z)) (d : Device)
    : option Device :=
  foldl (fun od l => d' ← od; exec_kernel sizeof_T policy claims l d') (Some d) ls.

End Device.

Arguments Device : clear implicits.

Arguments int_wrap : simpl never.
Arguments to_size_t : simpl never.
Arguments tile_size_of : simpl never.
Arguments reduce_tiles_grid_size : simpl never.
Arguments allocation_sizes_of : simpl never.
Arguments GridEvenShare_init : simpl never.
Arguments plan : simpl never.
Arguments sync_if : simpl never.
Arguments alias_temporaries : simpl never.

(** ** Example platforms

    A device of compute capability 3.5 with 14 multiprocessors, each able to
    hold two blocks of the partial-reduction kernel, and 4-byte elements.
    Every primitive succeeds. *)
Definition example_platform : Platform :=
  {| CUB_RUNTIME_ENABLED := true;
     sizeof_T := 4;
     ALIGN_BYTES := 256;
     PtxVersion := (cudaSuccess, 350);
     cudaGetDevice := (cudaSuccess, 0);
     cudaDeviceGetAttribute_MultiProcessorCount := fun _ => (cudaSuccess, 14);
     MaxSmOccupancy := fun _ _ _ => (cudaSuccess, 2);
     SyncStream := fun _ _ => cudaSuccess |}.

(** The same device when no current device can be found. *)
Definition no_device_platform : Platform :=
  {| CUB_RUNTIME_ENABLED := true;
     sizeof_T := 4;
     ALIGN_BYTES := 256;
     PtxVersion := (cudaSuccess, 350);
     cudaGetDevice := (cudaErrorCode 38, 0);
     cudaDeviceGetAttribute_MultiProcessorCount := fun _ => (cudaSuccess, 14);
     MaxSmOccupancy := fun _ _ _ => (cudaSuccess, 2);
     SyncStream := fun _ _ => cudaSuccess |}.

(** The same device when the synchronisation after the second kernel of a
    call reports a failure. *)
Definition failing_sync_platform : Platform :=
  {| CUB_RUNTIME_ENABLED := true;
     sizeof_T := 4;
     ALIGN_BYTES := 256;
     PtxVersion := (cudaSuccess, 350);
     cudaGetDevice := (cudaSuccess, 0);
     cudaDeviceGetAttribute_MultiProcessorCount := fun _ => (cudaSuccess, 14);
     MaxSmOccupancy := fun _ _ _ => (cudaSuccess, 2);
     SyncStream := fun _ n => if decide (n = 2%nat) then cudaErrorCode 4 else cudaSuccess |}.

(** A small device (two multiprocessors, one resident block each) and a
    policy with tiles of two items, for runs that can be followed by hand. *)
Definition small_platform : Platform :=
  {| CUB_RUNTIME_ENABLED := true;
     sizeof_T := 4;
     ALIGN_BYTES := 256;
     PtxVersion := (cudaSuccess, 350);
     cudaGetDevice := (cudaSuccess, 0);
     cudaDeviceGetAttribute_MultiProcessorCount := fun _ => (cudaSuccess, 2);
     MaxSmOccupancy := fun _ _ _ => (cudaSuccess, 1);
     SyncStream := fun _ _ => cudaSuccess |}.

Definition small_dynamic_policy : KernelDispatchConfig :=
  BlockReduceTilesPolicy 2 1 1 BLOCK_REDUCE_RAKING LOAD_DEFAULT GRID_MAPPING_DYNAMIC.

Definition small_even_share_policy : KernelDispatchConfig :=
  BlockReduceTilesPolicy 2 1 1 BLOCK_REDUCE_RAKING LOAD_DEFAULT GRID_MAPPING_EVEN_SHARE.

(** The positions two blocks consume out of five when block 0 takes the
    first and the last tile and block 1 the middle one. *)
Definition small_consumed (blockIdx : Z) : list Z :=
  if decide (blockIdx = 0) then [0; 1; 4] else [2; 3].

(** A device of compute capability 2.0 (4-byte elements map dynamically
    there, in tiles of 1024 items) on which no block of the
    partial-reduction kernel can be resident: the occupancy query succeeds
    and answers 0. *)
Definition zero_occupancy_platform : Platform :=
  {| CUB_RUNTIME_ENABLED := true;
     sizeof_T := 4;
     ALIGN_BYTES := 256;
     PtxVersion := (cudaSuccess, 200);
     cudaGetDevice := (cudaSuccess, 0);
     cudaDeviceGetAttribute_MultiProcessorCount := fun _ => (cudaSuccess, 14);
     MaxSmOccupancy := fun _ _ _ => (cudaSuccess, 0);
     SyncStream := fun _ _ => cudaSuccess |}.

(** The example device when the PTX version of the kernels cannot be
    found, and a build without [CUB_RUNTIME_ENABLED]. *)
Definition no_ptx_platform : Platform :=
  {| CUB_RUNTIME_ENABLED := true;
     sizeof_T := 4;
     ALIGN_BYTES := 256;
     PtxVersion := (cudaErrorCode 8, 0);
     cudaGetDevice := (cudaSuccess, 0);
     cudaDeviceGetAttribute_MultiProcessorCount := fun _ => (cudaSuccess, 14);
     MaxSmOccupancy := fun _ _ _ => (cudaSuccess, 2);
     SyncStream := fun _ _ => cudaSuccess |}.

Definition runtime_disabled_platform : Platform :=
  {| CUB_RUNTIME_ENABLED := false;
     sizeof_T := 4;
     ALIGN_BYTES := 256;
     PtxVersion := (cudaSuccess, 350);
     cudaGetDevice := (cudaSuccess, 0);
     cudaDeviceGetAttribute_MultiProcessorCount := fun _ => (cudaSuccess, 14);
     MaxSmOccupancy := fun _ _ _ => (cudaSuccess, 2);
     SyncStream := fun _ _ => cudaSuccess |}.

(** A platform with another [SyncStream]. *)
Definition with_SyncStream (pf : Platform) (sync : cudaStream_t -> nat -> cudaError)
    : Platform :=
  {| CUB_RUNTIME_ENABLED := CUB_RUNTIME_ENABLED pf;
     sizeof_T := sizeof_T pf;
     ALIGN_BYTES := ALIGN_BYTES pf;
     PtxVersion := PtxVersion pf;
     cudaGetDevice := cudaGetDevice pf;
     cudaDeviceGetAttribute_MultiProcessorCount :=
       cudaDeviceGetAttribute_MultiProcessorCount pf;
     MaxSmOccupancy := MaxSmOccupancy pf;
     SyncStream := sync |}.

(** The sum of a sequence of integers, without wrap-around. *)
Definition sum_Z (items : list Z) : Z := foldr Z.add 0 items.

(** * Properties *)

(** ** Machine arithmetic *)

Lemma int_wrap_id (z : Z) : in_int_range z → int_wrap z = z.
Proof.
  unfold in_int_range, INT_MIN, INT_MAX, int_wrap. intros H.
  rewrite Z.mod_small by lia. lia.
Qed.

Lemma int_wrap_range (z : Z) : in_int_range (int_wrap z).
Proof.
  unfold in_int_range, INT_MIN, INT_MAX, int_wrap.
  pose proof (Z.mod_pos_bound (z + 2 ^ 31) (2 ^ 32)). lia.
Qed.

Lemma int_wrap_add_l (a b : Z) : int_wrap (int_wrap a + b) = int_wrap (a + b).
Proof.
  unfold int_wrap.
  replace ((a + 2 ^ 31) `mod` 2 ^ 32 - 2 ^ 31 + b + 2 ^ 31)
    with ((a + 2 ^ 31) `mod` 2 ^ 32 + b) by lia.
  rewrite Zplus_mod_idemp_l. f_equal. f_equal. lia.
Qed.

Lemma int_add_comm (a b : Z) : int_add a b = int_add b a.
Proof. unfold int_add. f_equal. lia. Qed.

Lemma int_add_assoc (a b c : Z) : int_add a (int_add b c) = int_add (int_add a b) c.
Proof.
  unfold int_add.
  rewrite (Z.add_comm a (int_wrap _)), !int_wrap_add_l. f_equal. lia.
Qed.

Lemma to_size_t_id (z : Z) : 0 <= z < 2 ^ 64 → to_size_t z = z.
Proof. intros H. unfold to_size_t. by rewrite Z.mod_small. Qed.

Lemma to_size_t_nonneg (z : Z) : 0 <= to_size_t z.
Proof. unfold to_size_t. pose proof (Z.mod_pos_bound z (2 ^ 64)). lia. Qed.

Lemma ceil_div_quot (a b : Z) :
  0 < b → 0 <= a → (a + b - 1) `quot` b = ceil_div a b.
Proof. intros Hb Ha. unfold ceil_div. apply Z.quot_div_nonneg; lia. Qed.

Lemma ceil_div_bounds (a b : Z) :
  0 < b → (ceil_div a b - 1) * b < a <= ceil_div a b * b.
Proof.
  intros Hb. unfold ceil_div.
  pose proof (Z.div_mod (a + b - 1) b) as Hdm.
  pose proof (Z.mod_pos_bound (a + b - 1) b Hb). nia.
Qed.

(** ** The host monad and the launch sequences *)

Section HostFacts.
Context {T InputIterator OutputIterator : Type}.

Abbreviation State := (HostState T InputIterator OutputIterator).
Abbreviation launch_t := (Launch T InputIterator OutputIterator).

Implicit Types (pf : Platform) (s : State) (ls : list launch_t) (l : launch_t).

Lemma or_break_success {S A} (x : A) (s : S) :
  or_break (cudaSuccess, x) s = (Continue x, s).
Proof. reflexivity. Qed.

Lemma or_break_error {S A} (e : cudaError) (x : A) (s : S) :
  e ≠ cudaSuccess → or_break (e, x) s = (Returned e, s).
Proof. by destruct e. Qed.

Lemma host_bind_eval {S A B} (m : Host S A) (f : A → Host S B) (s : S) :
  (m ≫= f) s =
    match m s with
    | (Returned e, s') => (Returned e, s')
    | (Continue a, s') => f a s'
    end.
Proof. reflexivity. Qed.

Lemma host_bind_or_break_success {S A B} (x : A) (f : A → Host S B) (s : S) :
  (or_break (cudaSuccess, x) ≫= f) s = f x s.
Proof. reflexivity. Qed.

Lemma host_bind_or_break_error {S A B} (e : cudaError) (x : A) (f : A → Host S B)
    (s : S) :
  e ≠ cudaSuccess → (or_break (e, x) ≫= f) s = (Returned e, s).
Proof. intros He. by rewrite host_bind_eval, or_break_error. Qed.

Lemma host_bind_ext {S A B} (m : Host S A) (f g : A → Host S B) (s : S) :
  (∀ a (t : S), f a t = g a t) → (m ≫= f) s = (m ≫= g) s.
Proof. intros H. rewrite !host_bind_eval. destruct (m s) as [[e|a] t]; auto. Qed.

Lemma sync_if_off pf stream s :
  sync_if pf false stream s = (Continue tt, s).
Proof. reflexivity. Qed.

Lemma sync_if_success pf debug stream s :
  (debug = true → SyncStream pf stream (length (launched s)) = cudaSuccess) →
  sync_if pf debug stream s = (Continue tt, s).
Proof.
  intros H. unfold sync_if. destruct debug; [|done].
  by rewrite H.
Qed.

Lemma sync_if_error pf stream s e :
  SyncStream pf stream (length (launched s)) = e → e ≠ cudaSuccess →
  sync_if pf true stream s = (Returned e, s).
Proof. intros <- He. by apply or_break_error. Qed.

Lemma submit_cons pf debug stream l ls s :
  submit pf debug stream (l :: ls) s =
    let s1 := {| temp_storage_bytes := temp_storage_bytes s;
                 launched := launched s ++ [l] |} in
    match sync_if pf debug stream s1 with
    | (Returned e, s2) => (Returned e, s2)
    | (Continue _, s2) => submit pf debug stream ls s2
    end.
Proof. reflexivity. Qed.

(** With every synchronisation succeeding, or none asked for, all the
    kernels are submitted. *)
Lemma submit_ok pf debug stream ls s :
  (debug = true →
   ∀ i : nat, (length (launched s) < i <= length (launched s) + length ls)%nat →
              SyncStream pf stream i = cudaSuccess) →
  submit pf debug stream ls s =
    (Continue tt,
     {| temp_storage_bytes := temp_storage_bytes s; launched := launched s ++ ls |}).
Proof.
  revert s. induction ls as [|l ls IH]; intros s H.
  - destruct s. simpl. by rewrite app_nil_r.
  - rewrite submit_cons. cbv zeta.
    rewrite sync_if_success.
    + rewrite IH; simpl.
      * by rewrite <- app_assoc.
      * intros Hd i Hi. apply H; [done|]. rewrite length_app in Hi. simpl in *. lia.
    + intros Hd. simpl. apply H; [done|]. rewrite length_app. simpl. lia.
Qed.

(** The first failing synchronisation ends the call: its status is
    returned, and no kernel after the one it follows is submitted. *)
Lemma submit_fail pf stream ls s (k : nat) e :
  (1 <= k <= length ls)%nat →
  (∀ i : nat, (length (launched s) < i < length (launched s) + k)%nat →
              SyncStream pf stream i = cudaSuccess) →
  SyncStream pf stream (length (launched s) + k) = e →
  e ≠ cudaSuccess →
  submit pf true stream ls s =
    (Returned e,
     {| temp_storage_bytes := temp_storage_bytes s;
        launched := launched s ++ take k ls |}).
Proof.
  revert s k. induction ls as [|l ls IH]; intros s k Hk Hbefore Hat He.
  - simpl in Hk. lia.
  - rewrite submit_cons. cbv zeta.
    destruct (decide (k = 1%nat)) as [->|Hne].
    + erewrite sync_if_error; [| |exact He].
      * by destruct ls.
      * simpl. rewrite length_app. simpl. done.
    + rewrite sync_if_success.
      * destruct k as [|k]; [lia|].
        rewrite (IH _ k); simpl.
        -- by rewrite <- app_assoc.
        -- simpl in Hk. lia.
        -- intros i Hi. apply Hbefore. rewrite length_app in Hi. simpl in Hi. lia.
        -- rewrite length_app. simpl. rewrite <- Hat. f_equal. lia.
        -- done.
      * intros _. simpl. apply Hbefore. rewrite length_app. simpl. lia.
Qed.

(** Whatever the synchronisations answer, what is submitted is an initial
    part of the sequence, and [temp_storage_bytes] is not touched. *)
Lemma submit_prefix pf debug stream ls s :
  ∃ k : nat,
    (k <= length ls)%nat
    ∧ snd (submit pf debug stream ls s) =
        {| temp_storage_bytes := temp_storage_bytes s;
           launched := launched s ++ take k ls |}.
Proof.
  revert s. induction ls as [|l ls IH]; intros s.
  - exists 0%nat. destruct s. simpl. by rewrite app_nil_r.
  - rewrite submit_cons. cbv zeta.
    destruct (sync_if _ _ _ _) as [[e|[]] s2] eqn:Hs.
    + exists 1%nat. split; [simpl; lia|].
      unfold sync_if in Hs. destruct debug; [|done].
      unfold or_break in Hs. destruct (SyncStream _ _ _); simplify_eq; simpl;
        by destruct ls.
    + assert (s2 = {| temp_storage_bytes := temp_storage_bytes s;
                      launched := launched s ++ [l] |}) as ->.
      { unfold sync_if in Hs. destruct debug; [|by simplify_eq].
        unfold or_break in Hs. destruct (SyncStream _ _ _); by simplify_eq. }
      destruct (IH {| temp_storage_bytes := temp_storage_bytes s;
                      launched := launched s ++ [l] |}) as (k & Hk & ->).
      exists (S k). split; [simpl; lia|]. simpl. by rewrite <- app_assoc.
Qed.

End HostFacts.

(** ** The branches of [Dispatch] *)

Section DispatchFacts.
Context {T InputIterator OutputIterator : Type}.

Variables (pf : Platform) (d_temp_storage : ptr) (bytes : Z).
Variables (d_in : InputIterator) (d_out : OutputIterator) (num_items : Z).
Variables (reduction_op : T -> T -> T) (stream : cudaStream_t) (debug : bool).
Variables (sm_version : Z) (pk rk ak sk : KernelPtr).
Variables (rcfg scfg : KernelDispatchConfig).

Abbreviation call :=
  (Dispatch pf d_temp_storage bytes d_in d_out num_items reduction_op stream debug
     sm_version pk rk ak sk rcfg scfg).

Abbreviation initial :=
  ({| temp_storage_bytes := bytes; launched := [] |}
   : HostState T InputIterator OutputIterator).

Lemma single_stage_condition :
  rk = NULL_kernel ∨ num_items <= tile_size_of rcfg →
  bool_decide (rk = NULL_kernel) || (num_items <=? tile_size_of rcfg) = true.
Proof.
  intros [->|H].
  - done.
  - apply orb_true_iff. right. by apply Z.leb_le.
Qed.

Lemma two_stage_condition :
  rk ≠ NULL_kernel → tile_size_of rcfg < num_items →
  bool_decide (rk = NULL_kernel) || (num_items <=? tile_size_of rcfg) = false.
Proof.
  intros Hk Hn. apply orb_false_iff. split.
  - by apply bool_decide_eq_false.
  - by apply Z.leb_gt.
Qed.

Lemma Dispatch_not_supported :
  CUB_RUNTIME_ENABLED pf = false → call = (cudaErrorNotSupported, initial).
Proof. intros H. unfold Dispatch, Dispatch_body. by rewrite H. Qed.

Lemma Dispatch_single_stage_sizing :
  CUB_RUNTIME_ENABLED pf = true →
  rk = NULL_kernel ∨ num_items <= tile_size_of rcfg →
  d_temp_storage = NULL →
  call = (cudaSuccess, {| temp_storage_bytes := 1; launched := [] |}).
Proof.
  intros Hen Hc Hnull. unfold Dispatch, Dispatch_body.
  rewrite Hen. cbv zeta. simpl negb. cbv iota.
  rewrite (single_stage_condition Hc).
  by rewrite decide_True.
Qed.

Lemma Dispatch_single_stage_run :
  CUB_RUNTIME_ENABLED pf = true →
  rk = NULL_kernel ∨ num_items <= tile_size_of rcfg →
  d_temp_storage ≠ NULL →
  call =
    run_host
      (submit pf debug stream
         [single_kernel_launch sk scfg d_in d_out num_items reduction_op])
      initial.
Proof.
  intros Hen Hc Hnull. unfold Dispatch, Dispatch_body.
  rewrite Hen. cbv zeta. simpl negb. cbv iota.
  rewrite (single_stage_condition Hc).
  rewrite decide_False by done.
  unfold run_host. simpl submit.
  unfold mbind, Host_bind, mret, Host_ret, launch.
  by destruct (sync_if _ _ _ _) as [[e|[]] s1].
Qed.

Lemma two_stage_submit (allocations : list ptr) (grid : Z) (es : GridEvenShare)
    (s : HostState T InputIterator OutputIterator) :
  ((if decide (grid_mapping rcfg = GRID_MAPPING_DYNAMIC) then
      launch (prepare_drain_kernel_launch pk stream
                {| d_counters := allocations !!! 1%nat |} num_items);;
      sync_if pf debug stream
    else mret tt);;
   launch (reduce_tiles_kernel_launch rk grid rcfg stream d_in
             (allocations !!! 0%nat) num_items es
             {| d_counters := allocations !!! 1%nat |} reduction_op);;
   sync_if pf debug stream;;
   launch (aggregate_kernel_launch ak scfg stream (allocations !!! 0%nat) d_out
             grid reduction_op);;
   sync_if pf debug stream) s
  = submit pf debug stream
      (two_stage_launches pk rk ak rcfg scfg stream d_in d_out num_items
         reduction_op grid es allocations) s.
Proof.
  unfold two_stage_launches. cbv zeta.
  destruct (decide _); simpl app; simpl submit;
    unfold mbind, Host_bind, mret, Host_ret, launch;
    repeat (destruct (sync_if _ _ _ _) as [[?|[]] ?]; try done).
Qed.

Lemma Dispatch_two_stage (sm_count sm_occupancy : Z) :
  CUB_RUNTIME_ENABLED pf = true →
  rk ≠ NULL_kernel → tile_size_of rcfg < num_items →
  queries_succeed pf sm_version rk rcfg sm_count sm_occupancy →
  call =
    run_host
      (allocations ← alias_temporaries pf d_temp_storage
         (allocation_sizes_of pf (planned_grid_size rcfg num_items sm_count sm_occupancy));
       if decide (d_temp_storage = NULL) then returns cudaSuccess
       else submit pf debug stream
              (two_stage_launches pk rk ak rcfg scfg stream d_in d_out num_items
                 reduction_op
                 (planned_grid_size rcfg num_items sm_count sm_occupancy)
                 (planned_even_share rcfg num_items sm_count sm_occupancy)
                 allocations))
      initial.
Proof.
  intros Hen Hk Hn (dev & Hdev & Hsm & Hocc).
  unfold Dispatch, Dispatch_body.
  rewrite Hen. cbv zeta. simpl negb. cbv iota.
  rewrite (two_stage_condition Hk Hn).
  unfold run_host.
  rewrite Hdev, host_bind_or_break_success, Hsm, host_bind_or_break_success,
    Hocc, host_bind_or_break_success.
  erewrite host_bind_ext; [reflexivity|].
  intros allocations s'. cbv beta.
  destruct (decide (d_temp_storage = NULL)); [done|].
  apply two_stage_submit.
Qed.

Lemma Dispatch_query_failure (e : cudaError) :
  CUB_RUNTIME_ENABLED pf = true →
  rk ≠ NULL_kernel → tile_size_of rcfg < num_items →
  e ≠ cudaSuccess →
  query_fails pf sm_version rk rcfg e →
  call = (e, initial).
Proof.
  intros Hen Hk Hn He Hq. unfold query_fails in Hq.
  unfold Dispatch, Dispatch_body.
  rewrite Hen. cbv zeta. simpl negb. cbv iota.
  rewrite (two_stage_condition Hk Hn).
  unfold run_host.
  destruct (cudaGetDevice pf) as [e1 dev1] eqn:Hdev.
  destruct Hq as [H1|(dev & Hd & Hq)].
  { simpl in H1. subst e1. by rewrite host_bind_or_break_error. }
  simplify_eq. rewrite host_bind_or_break_success.
  destruct (cudaDeviceGetAttribute_MultiProcessorCount pf dev) as [e2 c2] eqn:Hsm.
  destruct Hq as [H2|(sm_count & Hs & H3)].
  { simpl in H2. subst e2. by rewrite host_bind_or_break_error. }
  simplify_eq. rewrite host_bind_or_break_success.
  destruct (MaxSmOccupancy _ _ _ _) as [e3 o3] eqn:Hocc.
  simpl in *. subst. by rewrite host_bind_or_break_error.
Qed.

Lemma alias_temporaries_sizing (sizes : list Z)
    (s : HostState T InputIterator OutputIterator) :
  alias_temporaries pf NULL sizes s =
    (Continue [],
     {| temp_storage_bytes := fst (plan (ALIGN_BYTES pf) sizes);
        launched := launched s |}).
Proof.
  unfold alias_temporaries, AliasTemporaries.
  destruct (plan _ _) as [total offsets]. by rewrite decide_True.
Qed.

Lemma alias_temporaries_too_small (sizes : list Z)
    (s : HostState T InputIterator OutputIterator) :
  d_temp_storage ≠ NULL →
  temp_storage_bytes s < fst (plan (ALIGN_BYTES pf) sizes) →
  alias_temporaries pf d_temp_storage sizes s = (Returned InvalidScratchSize, s).
Proof.
  intros Hp Hlt. unfold alias_temporaries, AliasTemporaries.
  destruct (plan _ _) as [total offsets]. simpl in Hlt.
  rewrite decide_False by done.
  destruct (Z.ltb_spec (temp_storage_bytes s) total); [|lia].
  by destruct s.
Qed.

Lemma alias_temporaries_bound (sizes : list Z)
    (s : HostState T InputIterator OutputIterator) :
  d_temp_storage ≠ NULL →
  fst (plan (ALIGN_BYTES pf) sizes) <= temp_storage_bytes s →
  alias_temporaries pf d_temp_storage sizes s =
    (Continue ((fun o => d_temp_storage + o) <$> snd (plan (ALIGN_BYTES pf) sizes)), s).
Proof.
  intros Hp Hle. unfold alias_temporaries, AliasTemporaries.
  destruct (plan _ _) as [total offsets]. simpl in Hle.
  rewrite decide_False by done.
  destruct (Z.ltb_spec (temp_storage_bytes s) total); [lia|].
  by destruct s.
Qed.

Lemma Dispatch_two_stage_sizing (sm_count sm_occupancy : Z) :
  CUB_RUNTIME_ENABLED pf = true →
  rk ≠ NULL_kernel → tile_size_of rcfg < num_items →
  queries_succeed pf sm_version rk rcfg sm_count sm_occupancy →
  d_temp_storage = NULL →
  call =
    (cudaSuccess,
     {| temp_storage_bytes :=
          required_bytes pf (planned_grid_size rcfg num_items sm_count sm_occupancy);
        launched := [] |}).
Proof.
  intros Hen Hk Hn Hq Hnull.
  rewrite (Dispatch_two_stage _ _ Hen Hk Hn Hq).
  unfold run_host. rewrite host_bind_eval, Hnull.
  rewrite alias_temporaries_sizing. by rewrite decide_True.
Qed.

Lemma Dispatch_two_stage_too_small (sm_count sm_occupancy : Z) :
  CUB_RUNTIME_ENABLED pf = true →
  rk ≠ NULL_kernel → tile_size_of rcfg < num_items →
  queries_succeed pf sm_version rk rcfg sm_count sm_occupancy →
  d_temp_storage ≠ NULL →
  bytes < required_bytes pf (planned_grid_size rcfg num_items sm_count sm_occupancy) →
  call = (InvalidScratchSize, initial).
Proof.
  intros Hen Hk Hn Hq Hp Hlt.
  rewrite (Dispatch_two_stage _ _ Hen Hk Hn Hq).
  unfold run_host. rewrite host_bind_eval.
  by rewrite alias_temporaries_too_small.
Qed.

Lemma Dispatch_two_stage_run (sm_count sm_occupancy : Z) :
  CUB_RUNTIME_ENABLED pf = true →
  rk ≠ NULL_kernel → tile_size_of rcfg < num_items →
  queries_succeed pf sm_version rk rcfg sm_count sm_occupancy →
  d_temp_storage ≠ NULL →
  required_bytes pf (planned_grid_size rcfg num_items sm_count sm_occupancy) <= bytes →
  call =
    run_host
      (submit pf debug stream
         (two_stage_launches pk rk ak rcfg scfg stream d_in d_out num_items
            reduction_op
            (planned_grid_size rcfg num_items sm_count sm_occupancy)
            (planned_even_share rcfg num_items sm_count sm_occupancy)
            (planned_allocations pf d_temp_storage
               (planned_grid_size rcfg num_items sm_count sm_occupancy))))
      initial.
Proof.
  intros Hen Hk Hn Hq Hp Hle.
  rewrite (Dispatch_two_stage _ _ Hen Hk Hn Hq).
  unfold run_host. rewrite host_bind_eval.
  rewrite alias_temporaries_bound by done.
  by rewrite decide_False.
Qed.

(** The single-stage branch submits its kernel whatever happens next; the
    status is that of the synchronisation, if one is asked for. *)
Lemma Dispatch_single_stage_result :
  CUB_RUNTIME_ENABLED pf = true →
  rk = NULL_kernel ∨ num_items <= tile_size_of rcfg →
  d_temp_storage ≠ NULL →
  call =
    (if debug then SyncStream pf stream 1 else cudaSuccess,
     {| temp_storage_bytes := bytes;
        launched := [single_kernel_launch sk scfg d_in d_out num_items reduction_op] |}).
Proof.
  intros Hen Hc Hp. rewrite (Dispatch_single_stage_run Hen Hc Hp).
  unfold run_host. rewrite submit_cons. cbv zeta. simpl.
  unfold sync_if. destruct debug; [|done]. simpl.
  unfold or_break. by destruct (SyncStream pf stream 1).
Qed.

(** The queries either all succeed or one of them fails. *)
Lemma queries_cases :
  (∃ sm_count sm_occupancy,
      queries_succeed pf sm_version rk rcfg sm_count sm_occupancy)
  ∨ (∃ e, e ≠ cudaSuccess ∧ query_fails pf sm_version rk rcfg e).
Proof.
  unfold queries_succeed, query_fails.
  destruct (cudaGetDevice pf) as [e1 dev] eqn:H1.
  destruct (decide (e1 = cudaSuccess)) as [->|He1]; [|right; eauto].
  destruct (cudaDeviceGetAttribute_MultiProcessorCount pf dev) as [e2 c] eqn:H2.
  destruct (decide (e2 = cudaSuccess)) as [->|He2].
  2: { right. exists e2. split; [done|]. right. exists dev. rewrite H2. eauto. }
  destruct (MaxSmOccupancy pf sm_version rk (block_threads rcfg)) as [e3 o] eqn:H3.
  destruct (decide (e3 = cudaSuccess)) as [->|He3].
  - left. exists c, o, dev. by rewrite H2.
  - right. exists e3. split; [done|]. right. exists dev. split; [done|].
    right. exists c. by rewrite H2.
Qed.

(** A sizing query submits nothing, whichever way it ends. *)
Lemma Dispatch_sizing_no_launch :
  d_temp_storage = NULL → launched (snd call) = [].
Proof.
  intros Hnull.
  destruct (CUB_RUNTIME_ENABLED pf) eqn:Hen; [|by rewrite Dispatch_not_supported].
  destruct (decide (rk = NULL_kernel ∨ num_items <= tile_size_of rcfg)) as [Hc|Hc].
  { by rewrite Dispatch_single_stage_sizing. }
  assert (rk ≠ NULL_kernel ∧ tile_size_of rcfg < num_items) as [Hk Hn].
  { split; [tauto|]. destruct (Z.lt_ge_cases (tile_size_of rcfg) num_items); [done|].
    exfalso. apply Hc. right. lia. }
  destruct queries_cases as [(c & o & Hq)|(e & He & Hq)].
  - by rewrite (Dispatch_two_stage_sizing _ _ Hen Hk Hn Hq Hnull).
  - by rewrite (Dispatch_query_failure _ Hen Hk Hn He Hq).
Qed.

(** A sizing query of the two-stage branch that ends with [cudaSuccess] had
    its queries answered and reports the planned size. *)
Lemma Dispatch_two_stage_sizing_inv (queried : HostState T InputIterator OutputIterator) :
  CUB_RUNTIME_ENABLED pf = true →
  rk ≠ NULL_kernel → tile_size_of rcfg < num_items →
  d_temp_storage = NULL →
  call = (cudaSuccess, queried) →
  ∃ sm_count sm_occupancy,
    queries_succeed pf sm_version rk rcfg sm_count sm_occupancy
    ∧ queried =
        {| temp_storage_bytes :=
             required_bytes pf (planned_grid_size rcfg num_items sm_count sm_occupancy);
           launched := [] |}.
Proof.
  intros Hen Hk Hn Hnull Hcall.
  destruct queries_cases as [(c & o & Hq)|(e & He & Hq)].
  - exists c, o. split; [done|].
    rewrite (Dispatch_two_stage_sizing _ _ Hen Hk Hn Hq Hnull) in Hcall.
    by simplify_eq.
  - rewrite (Dispatch_query_failure _ Hen Hk Hn He Hq) in Hcall. by simplify_eq.
Qed.

End DispatchFacts.

(** ** Selection of the tuning configuration *)

(** C8.  For every PTX version the selection of the tuning configuration is
    defined (it is a total function and has no error result): a version of
    350 or more selects the SM35 policies, each known range selects its own
    family, and a version below 130 falls back to the SM10 policies.  The
    host-side chain of comparisons and the preprocessor chain that defines
    [PtxPolicy] select the same family. *)
Theorem InitDispatchConfigs_selects_family (ptx_version sizeof_T : Z) :
  InitDispatchConfigs ptx_version sizeof_T
    = InitDispatchConfigs_device ptx_version sizeof_T
  ∧ (350 <= ptx_version →
       InitDispatchConfigs ptx_version sizeof_T
         = (Policy350.ReduceTilesPolicy sizeof_T, Policy350.SingleTilePolicy))
  ∧ (300 <= ptx_version < 350 →
       InitDispatchConfigs ptx_version sizeof_T
         = (Policy300.ReduceTilesPolicy, Policy300.SingleTilePolicy))
  ∧ (200 <= ptx_version < 300 →
       InitDispatchConfigs ptx_version sizeof_T
         = (Policy200.ReduceTilesPolicy sizeof_T, Policy200.SingleTilePolicy))
  ∧ (130 <= ptx_version < 200 →
       InitDispatchConfigs ptx_version sizeof_T
         = (Policy130.ReduceTilesPolicy, Policy130.SingleTilePolicy))
  ∧ (ptx_version < 130 →
       InitDispatchConfigs ptx_version sizeof_T
         = (Policy100.ReduceTilesPolicy, Policy100.SingleTilePolicy)).
Proof.
  unfold InitDispatchConfigs_device, PtxPolicy, InitDispatchConfigs.
  destruct (Z.leb_spec 350 ptx_version);
    [|destruct (Z.leb_spec 300 ptx_version);
      [|destruct (Z.leb_spec 200 ptx_version);
        [|destruct (Z.leb_spec 130 ptx_version)]]];
    simpl; repeat split; intros; first [reflexivity | lia].
Qed.

(** ** Path selection *)

(** C4.  With [tile_size] the product of the block size and the items per
    thread of the partial-reduction configuration: when [num_items <=
    tile_size], or when the partial-reduction kernel is [NULL], a call with a
    scratch buffer submits exactly one kernel, the single-tile kernel over
    the raw input with a grid of one block; when [num_items > tile_size] and
    the kernel is there, the call runs the two-stage launches (given that
    the device queries succeed and the buffer is large enough).  Both
    boundary cases, [num_items = tile_size] and [num_items = tile_size + 1],
    end with [cudaSuccess] when no synchronisation fails. *)
Theorem Dispatch_path_selection {T InputIterator OutputIterator : Type}
    (pf : Platform) (d_temp_storage : ptr) (bytes : Z)
    (d_in : InputIterator) (d_out : OutputIterator)
    (reduction_op : T → T → T) (stream : cudaStream_t) (debug : bool)
    (sm_version : Z) (pk rk ak sk : KernelPtr) (rcfg scfg : KernelDispatchConfig) :
  CUB_RUNTIME_ENABLED pf = true →
  d_temp_storage ≠ NULL →
  let tile_size := tile_size_of rcfg in
  let call num_items :=
    Dispatch pf d_temp_storage bytes d_in d_out num_items reduction_op stream debug
      sm_version pk rk ak sk rcfg scfg in
  let single_stage num_items :=
    launched (snd (call num_items))
      = [single_kernel_launch sk scfg d_in d_out num_items reduction_op]
    ∧ gridDim (single_kernel_launch sk scfg d_in d_out num_items reduction_op) = 1
    ∧ args (single_kernel_launch sk scfg d_in d_out num_items reduction_op)
        = SingleTile_args d_in d_out num_items reduction_op
    ∧ ((debug = true → SyncStream pf stream 1 = cudaSuccess) →
       fst (call num_items) = cudaSuccess) in
  let two_stage num_items :=
    ∀ sm_count sm_occupancy,
      queries_succeed pf sm_version rk rcfg sm_count sm_occupancy →
      required_bytes pf (planned_grid_size rcfg num_items sm_count sm_occupancy)
        <= bytes →
      (debug = true → syncs_succeed pf stream 3) →
      call num_items =
        (cudaSuccess,
         {| temp_storage_bytes := bytes;
            launched :=
              two_stage_launches pk rk ak rcfg scfg stream d_in d_out num_items
                reduction_op
                (planned_grid_size rcfg num_items sm_count sm_occupancy)
                (planned_even_share rcfg num_items sm_count sm_occupancy)
                (planned_allocations pf d_temp_storage
                   (planned_grid_size rcfg num_items sm_count sm_occupancy)) |}) in
  (∀ num_items, rk = NULL_kernel ∨ num_items <= tile_size → single_stage num_items)
  ∧ (∀ num_items, rk ≠ NULL_kernel → tile_size < num_items → two_stage num_items)
  ∧ single_stage tile_size
  ∧ (rk ≠ NULL_kernel → two_stage (tile_size + 1)).
Proof.
  intros Hen Hp tile_size call single_stage two_stage.
  assert (Hsingle : ∀ num_items,
             rk = NULL_kernel ∨ num_items <= tile_size → single_stage num_items).
  { intros num_items Hc. unfold single_stage, call.
    rewrite (Dispatch_single_stage_result _ _ _ _ _ _ _ _ _ _ _ _ _ _ _ _ Hen Hc Hp).
    simpl. repeat split.
    destruct debug; [|done]. intros H. by apply H. }
  assert (Htwo : ∀ num_items,
             rk ≠ NULL_kernel → tile_size < num_items → two_stage num_items).
  { intros num_items Hk Hn sm_count sm_occupancy Hq Hbytes Hsync. unfold call.
    rewrite (Dispatch_two_stage_run _ _ _ _ _ _ _ _ _ _ _ _ _ _ _ _ _ _
               Hen Hk Hn Hq Hp Hbytes).
    unfold run_host. rewrite submit_ok; [done|].
    intros Hd i Hi. apply (Hsync Hd). simpl in Hi.
    unfold two_stage_launches in Hi. destruct (decide _); simpl in Hi; lia. }
  split; [exact Hsingle|]. split; [exact Htwo|]. split.
  - apply Hsingle. right. lia.
  - intros Hk. apply Htwo; [done|lia].
Qed.

Lemma Dispatch_path_selection_witness :
  (kernel <$> launched (snd (Dispatch example_platform 4096 1024 (100 : ptr) (200 : ptr)
                               1024 Z.add 7 false 350
                               FillAndResetDrainKernel_ptr ReduceTilesKernel_ptr
                               SingleTileKernel_ptr SingleTileKernel_ptr
                               Policy200.ReduceTilesPolicy4B Policy200.SingleTilePolicy)))
    = [SingleTileKernel_ptr]
  ∧ (kernel <$> launched (snd (Dispatch example_platform 4096 1024 (100 : ptr) (200 : ptr)
                                 1025 Z.add 7 false 350
                                 FillAndResetDrainKernel_ptr ReduceTilesKernel_ptr
                                 SingleTileKernel_ptr SingleTileKernel_ptr
                                 Policy200.ReduceTilesPolicy4B Policy200.SingleTilePolicy)))
    = [FillAndResetDrainKernel_ptr; ReduceTilesKernel_ptr; SingleTileKernel_ptr].
Proof.
  destruct (Dispatch_path_selection (T := Z) example_platform 4096 1024
              (100 : ptr) (200 : ptr) Z.add 7 false 350
              FillAndResetDrainKernel_ptr ReduceTilesKernel_ptr
              SingleTileKernel_ptr SingleTileKernel_ptr
              Policy200.ReduceTilesPolicy4B Policy200.SingleTilePolicy
              eq_refl ltac:(discriminate)) as (_ & _ & Hsingle & Htwo).
  split.
  - destruct Hsingle as (H & _). exact (f_equal (fmap kernel) H).
  - assert (queries_succeed example_platform 350 ReduceTilesKernel_ptr
              Policy200.ReduceTilesPolicy4B 14 2) as Hq by (by exists 0).
    pose proof (Htwo ltac:(discriminate) 14 2 Hq ltac:(by vm_compute)
                  ltac:(discriminate)) as H.
    exact (f_equal (λ r, kernel <$> launched (snd r)) H).
Defined.

(** ** Order of the two-stage submissions *)

Lemma two_stage_launches_sequence {T InputIterator OutputIterator : Type}
    (pk rk ak : KernelPtr) (rcfg scfg : KernelDispatchConfig) (stream : cudaStream_t)
    (d_in : InputIterator) (d_out : OutputIterator) (num_items : Z)
    (reduction_op : T → T → T) (grid : Z) (es : GridEvenShare)
    (allocations : list ptr) :
  two_stage_launches pk rk ak rcfg scfg stream d_in d_out num_items reduction_op
    grid es allocations
  = (if decide (grid_mapping rcfg = GRID_MAPPING_DYNAMIC)
     then [ prepare_drain_kernel_launch pk stream
              {| d_counters := allocations !!! 1%nat |} num_items;
            reduce_tiles_kernel_launch rk grid rcfg stream d_in
              (allocations !!! 0%nat) num_items es
              {| d_counters := allocations !!! 1%nat |} reduction_op;
            aggregate_kernel_launch ak scfg stream (allocations !!! 0%nat) d_out
              grid reduction_op ]
     else [ reduce_tiles_kernel_launch rk grid rcfg stream d_in
              (allocations !!! 0%nat) num_items es
              {| d_counters := allocations !!! 1%nat |} reduction_op;
            aggregate_kernel_launch ak scfg stream (allocations !!! 0%nat) d_out
              grid reduction_op ]).
Proof. unfold two_stage_launches. by destruct (decide _). Qed.

(** C7.  On the two-stage path (scratch buffer given and large enough,
    device queries answered) the submissions are, in this order: the reset of
    the drain queue, present exactly when the mapping is DYNAMIC; the
    partial-reduction kernel; the combine kernel over the partials.  What a
    call submits is always an initial part of this sequence, it is the whole
    sequence when no synchronisation fails, all of it goes to the caller's
    stream, and under EVEN_SHARE no reset is submitted. *)
Theorem Dispatch_two_stage_order {T InputIterator OutputIterator : Type}
    (pf : Platform) (d_temp_storage : ptr) (bytes : Z)
    (d_in : InputIterator) (d_out : OutputIterator) (num_items : Z)
    (reduction_op : T → T → T) (stream : cudaStream_t) (debug : bool)
    (sm_version : Z) (pk rk ak sk : KernelPtr) (rcfg scfg : KernelDispatchConfig)
    (sm_count sm_occupancy : Z) :
  CUB_RUNTIME_ENABLED pf = true →
  rk ≠ NULL_kernel → tile_size_of rcfg < num_items →
  queries_succeed pf sm_version rk rcfg sm_count sm_occupancy →
  d_temp_storage ≠ NULL →
  required_bytes pf (planned_grid_size rcfg num_items sm_count sm_occupancy) <= bytes →
  let grid := planned_grid_size rcfg num_items sm_count sm_occupancy in
  let even_share := planned_even_share rcfg num_items sm_count sm_occupancy in
  let allocations := planned_allocations pf d_temp_storage grid in
  let d_block_reductions : ptr := allocations !!! 0%nat in
  let queue := {| d_counters := allocations !!! 1%nat |} in
  let reset := prepare_drain_kernel_launch pk stream queue num_items in
  let partial :=
    reduce_tiles_kernel_launch rk grid rcfg stream d_in d_block_reductions
      num_items even_share queue reduction_op in
  let combine :=
    aggregate_kernel_launch ak scfg stream d_block_reductions d_out grid
      reduction_op in
  let sequence :=
    if decide (grid_mapping rcfg = GRID_MAPPING_DYNAMIC)
    then [reset; partial; combine] else [partial; combine] in
  let result :=
    Dispatch pf d_temp_storage bytes d_in d_out num_items reduction_op stream debug
      sm_version pk rk ak sk rcfg scfg in
  launched (snd result) `prefix_of` sequence
  ∧ ((debug = true → syncs_succeed pf stream (length sequence)) →
     result = (cudaSuccess, {| temp_storage_bytes := bytes; launched := sequence |}))
  ∧ (∀ l, l ∈ sequence → stream_of l = stream)
  ∧ (grid_mapping rcfg = GRID_MAPPING_EVEN_SHARE → reset ∉ launched (snd result)).
Proof.
  intros Hen Hk Hn Hq Hp Hbytes grid even_share allocations d_block_reductions
    queue reset partial combine sequence result.
  assert (Hrun : result = run_host (submit pf debug stream sequence)
                            {| temp_storage_bytes := bytes; launched := [] |}).
  { unfold result.
    rewrite (Dispatch_two_stage_run _ _ _ _ _ _ _ _ _ _ _ _ _ _ _ _ _ _
               Hen Hk Hn Hq Hp Hbytes).
    by rewrite two_stage_launches_sequence. }
  assert (Hprefix : launched (snd result) `prefix_of` sequence).
  { rewrite Hrun. unfold run_host.
    destruct (submit_prefix pf debug stream sequence
                {| temp_storage_bytes := bytes; launched := [] |}) as (k & _ & Hk').
    destruct (submit _ _ _ _ _) as [[e|[]] s']; simpl in *; subst s'; simpl;
      exists (drop k sequence); by rewrite take_drop. }
  split; [exact Hprefix|]. split; [|split].
  - intros Hsync. rewrite Hrun. unfold run_host.
    rewrite submit_ok; [done|].
    intros Hd i Hi. apply (Hsync Hd). simpl in Hi. lia.
  - intros l Hl. unfold sequence in Hl.
    destruct (decide _); set_unfold; by destruct_or!; subst.
  - intros Hes [i Hi]%list_elem_of_lookup_1.
    destruct Hprefix as [rest Hrest].
    assert (sequence !! i = Some reset) as Hseq.
    { rewrite Hrest. by apply lookup_app_l_Some. }
    unfold sequence in Hseq. rewrite decide_False in Hseq by congruence.
    destruct i as [|[|i]]; simpl in Hseq; [| |done]; by simplify_eq.
Qed.

Lemma Dispatch_two_stage_order_witness :
  (kernel <$> launched (snd (Dispatch example_platform 4096 1024 (100 : ptr) (200 : ptr)
                               10000000 Z.add 7 true 350
                               FillAndResetDrainKernel_ptr ReduceTilesKernel_ptr
                               SingleTileKernel_ptr SingleTileKernel_ptr
                               Policy200.ReduceTilesPolicy4B Policy200.SingleTilePolicy)))
    = [FillAndResetDrainKernel_ptr; ReduceTilesKernel_ptr; SingleTileKernel_ptr].
Proof.
  assert (queries_succeed example_platform 350 ReduceTilesKernel_ptr
            Policy200.ReduceTilesPolicy4B 14 2) as Hq by (by exists 0).
  destruct (Dispatch_two_stage_order (T := Z) example_platform 4096 1024
              (100 : ptr) (200 : ptr) 10000000 Z.add 7 true 350
              FillAndResetDrainKernel_ptr ReduceTilesKernel_ptr
              SingleTileKernel_ptr SingleTileKernel_ptr
              Policy200.ReduceTilesPolicy4B Policy200.SingleTilePolicy 14 2
              eq_refl ltac:(discriminate) ltac:(by vm_compute) Hq
              ltac:(discriminate) ltac:(by vm_compute)) as (_ & H & _).
  exact (f_equal (λ r, kernel <$> launched (snd r)) (H (λ _ _ _, eq_refl))).
Defined.

(** ** Streams *)

(** Every kernel of the two-stage branch is submitted to the stream of the
    call. *)
Lemma two_stage_launches_stream {T InputIterator OutputIterator : Type}
    (pk rk ak : KernelPtr) (rcfg scfg : KernelDispatchConfig) (stream : cudaStream_t)
    (d_in : InputIterator) (d_out : OutputIterator) (num_items : Z)
    (reduction_op : T → T → T) (grid : Z) (es : GridEvenShare)
    (allocations : list ptr) :
  Forall (λ l, stream_of l = stream)
    (two_stage_launches pk rk ak rcfg scfg stream d_in d_out num_items reduction_op
       grid es allocations).
Proof.
  rewrite two_stage_launches_sequence.
  destruct (decide _); repeat constructor.
Qed.

(** The kernel of the single-stage branch goes to the default stream,
    whatever stream the call names. *)
Lemma single_stage_launch_stream {T InputIterator OutputIterator : Type}
    (pf : Platform) (d_temp_storage : ptr) (bytes : Z)
    (d_in : InputIterator) (d_out : OutputIterator) (num_items : Z)
    (reduction_op : T → T → T) (stream : cudaStream_t) (debug : bool)
    (sm_version : Z) (pk rk ak sk : KernelPtr) (rcfg scfg : KernelDispatchConfig) :
  CUB_RUNTIME_ENABLED pf = true →
  rk = NULL_kernel ∨ num_items <= tile_size_of rcfg →
  d_temp_storage ≠ NULL →
  stream_of <$> launched (snd (Dispatch pf d_temp_storage bytes d_in d_out num_items
                                 reduction_op stream debug sm_version pk rk ak sk
                                 rcfg scfg))
    = [default_stream].
Proof.
  intros Hen Hc Hp.
  by rewrite (Dispatch_single_stage_result _ _ _ _ _ _ _ _ _ _ _ _ _ _ _ _ Hen Hc Hp).
Qed.

(** C2, at a failing input.  [Sum] over the five items [1; 2; 3; 4; 5] with
    a scratch buffer and stream 7 takes the single-stage branch and submits
    its one kernel to stream 0, the default stream, not to stream 7; the same
    call over 10000000 items submits its two kernels to stream 7. *)
Theorem Sum_single_stage_launch_not_on_stream :
  stream_of <$> launched (snd (Sum example_platform 4096 1024 [1; 2; 3; 4; 5]
                                 (200 : ptr) 5 7 false))
    = [0]
  ∧ stream_of <$> launched (snd (Sum example_platform 4096 1024 (100 : ptr)
                                   (200 : ptr) 10000000 7 false))
    = [7; 7].
Proof. split; reflexivity. Qed.

(** ** Grid size under dynamic mapping *)

Lemma dynamic_num_tiles (num_items tile_size : Z) :
  0 < tile_size → 0 <= num_items → num_items + tile_size <= INT_MAX →
  int_div (int_sub (int_add num_items tile_size) 1) tile_size
    = ceil_div num_items tile_size.
Proof.
  intros Hts Hn Hmax. unfold int_div, int_sub, int_add, INT_MAX in *.
  rewrite (int_wrap_id (num_items + tile_size))
    by (unfold in_int_range, INT_MIN, INT_MAX; lia).
  rewrite (int_wrap_id (num_items + tile_size - 1))
    by (unfold in_int_range, INT_MIN, INT_MAX; lia).
  rewrite ceil_div_quot by lia.
  apply int_wrap_id. unfold in_int_range, INT_MIN, INT_MAX.
  pose proof (ceil_div_bounds num_items tile_size Hts). nia.
Qed.

Lemma dynamic_grid_size_min (num_items tile_size sm_count sm_occupancy : Z)
    (even_share : GridEvenShare) :
  0 < tile_size → 0 <= num_items → num_items + tile_size <= INT_MAX →
  in_int_range (sm_occupancy * sm_count) →
  reduce_tiles_grid_size GRID_MAPPING_DYNAMIC num_items tile_size
    (int_mul sm_occupancy sm_count) even_share
  = Z.min (ceil_div num_items tile_size) (sm_occupancy * sm_count).
Proof.
  intros Hts Hn Hmax Hocc. unfold reduce_tiles_grid_size. cbv zeta.
  rewrite dynamic_num_tiles by done.
  unfold int_mul. rewrite int_wrap_id by done.
  destruct (Z.ltb_spec (ceil_div num_items tile_size) (sm_occupancy * sm_count)); lia.
Qed.

(** Under DYNAMIC mapping on a device that holds at least one block, the
    grid has at least one block and at most one block per tile, so that
    every block can be handed a tile. *)
Lemma dynamic_grid_size_within_tiles (num_items tile_size sm_count sm_occupancy : Z)
    (even_share : GridEvenShare) :
  0 < tile_size → tile_size < num_items → num_items + tile_size <= INT_MAX →
  in_int_range (sm_occupancy * sm_count) → 1 <= sm_occupancy * sm_count →
  1 <= reduce_tiles_grid_size GRID_MAPPING_DYNAMIC num_items tile_size
         (int_mul sm_occupancy sm_count) even_share
    <= ceil_div num_items tile_size.
Proof.
  intros Hts Hn Hmax Hocc Hpos.
  rewrite dynamic_grid_size_min by (done || lia).
  pose proof (ceil_div_bounds num_items tile_size Hts). nia.
Qed.

(** C3, a counterexample to the claim as stated.  With two resident blocks
    on each of 14 multiprocessors the occupancy is 28 and the target of the
    even-share plan is 28 * 2 = 56; over 102400 items in tiles of 1024 the
    dynamic grid is 28 blocks, not min(100, 56) = 56. *)
Lemma dynamic_grid_size_is_not_oversubscribed :
  ∃ partial,
    partial ∈ launched (snd (Dispatch example_platform 4096 1024 (100 : ptr)
                               (200 : ptr) 102400 Z.add 7 false 350
                               FillAndResetDrainKernel_ptr ReduceTilesKernel_ptr
                               SingleTileKernel_ptr SingleTileKernel_ptr
                               Policy200.ReduceTilesPolicy4B
                               Policy200.SingleTilePolicy))
    ∧ kernel partial = ReduceTilesKernel_ptr
    ∧ gridDim partial = 28
    ∧ gridDim partial
        ≠ Z.min (ceil_div 102400 (tile_size_of Policy200.ReduceTilesPolicy4B))
            ((2 * 14) * 2).
Proof.
  eexists. split.
  - apply list_elem_of_lookup_2 with (i := 1%nat). reflexivity.
  - by vm_compute.
Qed.

(** C3, as amended.  On the two-stage path with mapping DYNAMIC, when the
    integer arithmetic does not overflow, the grid of the partial-reduction
    kernel is [min(num_tiles, occupancy)], with [num_tiles = ceil(num_items /
    tile_size)] and [occupancy] the blocks resident per multiprocessor times
    the number of multiprocessors; the oversubscription factor enters only
    the even-share plan.  A sizing query plans its partials for that many
    blocks, and an executing call launches that many. *)
Theorem dynamic_grid_size {T InputIterator OutputIterator : Type}
    (pf : Platform) (d_temp_storage : ptr) (bytes : Z)
    (d_in : InputIterator) (d_out : OutputIterator) (num_items : Z)
    (reduction_op : T → T → T) (stream : cudaStream_t) (debug : bool)
    (sm_version : Z) (pk rk ak sk : KernelPtr) (rcfg scfg : KernelDispatchConfig)
    (sm_count sm_occupancy : Z) :
  CUB_RUNTIME_ENABLED pf = true →
  rk ≠ NULL_kernel → tile_size_of rcfg < num_items →
  grid_mapping rcfg = GRID_MAPPING_DYNAMIC →
  queries_succeed pf sm_version rk rcfg sm_count sm_occupancy →
  0 < tile_size_of rcfg →
  num_items + tile_size_of rcfg <= INT_MAX →
  in_int_range (sm_occupancy * sm_count) →
  let grid := Z.min (ceil_div num_items (tile_size_of rcfg)) (sm_occupancy * sm_count) in
  let result :=
    Dispatch pf d_temp_storage bytes d_in d_out num_items reduction_op stream debug
      sm_version pk rk ak sk rcfg scfg in
  planned_grid_size rcfg num_items sm_count sm_occupancy = grid
  ∧ (d_temp_storage = NULL →
     result = (cudaSuccess,
               {| temp_storage_bytes := required_bytes pf grid; launched := [] |}))
  ∧ (d_temp_storage ≠ NULL → required_bytes pf grid <= bytes →
     (debug = true → syncs_succeed pf stream 3) →
     ∃ reset partial combine,
       launched (snd result) = [reset; partial; combine]
       ∧ kernel partial = rk
       ∧ gridDim partial = grid).
Proof.
  intros Hen Hk Hn Hdyn Hq Hts Hmax Hocc grid result.
  assert (Hgrid : planned_grid_size rcfg num_items sm_count sm_occupancy = grid).
  { unfold planned_grid_size. rewrite Hdyn.
    apply dynamic_grid_size_min; [done|lia|done|done]. }
  split; [exact Hgrid|]. split.
  - intros Hnull. unfold result.
    rewrite (Dispatch_two_stage_sizing _ _ _ _ _ _ _ _ _ _ _ _ _ _ _ _ _ _
               Hen Hk Hn Hq Hnull).
    by rewrite Hgrid.
  - intros Hp Hbytes Hsync. rewrite <- Hgrid in Hbytes. unfold result.
    rewrite (Dispatch_two_stage_run _ _ _ _ _ _ _ _ _ _ _ _ _ _ _ _ _ _
               Hen Hk Hn Hq Hp Hbytes).
    rewrite two_stage_launches_sequence, decide_True by done.
    unfold run_host. rewrite submit_ok.
    + simpl. eexists _, _, _. split; [reflexivity|]. by split.
    + intros Hd i Hi. apply (Hsync Hd). simpl in Hi. lia.
Qed.

Lemma dynamic_grid_size_witness :
  ∃ reset partial combine,
    launched (snd (Dispatch example_platform 4096 1024 (100 : ptr)
                     (200 : ptr) 102400 Z.add 7 false 350
                     FillAndResetDrainKernel_ptr ReduceTilesKernel_ptr
                     SingleTileKernel_ptr SingleTileKernel_ptr
                     Policy200.ReduceTilesPolicy4B
                     Policy200.SingleTilePolicy))
      = [reset; partial; combine]
    ∧ kernel partial = ReduceTilesKernel_ptr
    ∧ gridDim partial = 28.
Proof.
  assert (queries_succeed example_platform 350 ReduceTilesKernel_ptr
            Policy200.ReduceTilesPolicy4B 14 2) as Hq by (by exists 0).
  destruct (dynamic_grid_size (T := Z) example_platform 4096 1024
              (100 : ptr) (200 : ptr) 102400 Z.add 7 false 350
              FillAndResetDrainKernel_ptr ReduceTilesKernel_ptr
              SingleTileKernel_ptr SingleTileKernel_ptr
              Policy200.ReduceTilesPolicy4B Policy200.SingleTilePolicy 14 2
              eq_refl ltac:(discriminate) ltac:(by vm_compute) eq_refl Hq
              ltac:(by vm_compute) ltac:(by vm_compute) ltac:(by vm_compute))
    as (_ & _ & H).
  exact (H ltac:(discriminate) ltac:(by vm_compute) ltac:(discriminate)).
Defined.

(** ** The sizing query *)

Lemma align_up_ge (align n : Z) : 0 < align → n <= align_up align n.
Proof.
  intros Ha. unfold align_up.
  pose proof (Z.div_mod (n + align - 1) align) as Hdm.
  pose proof (Z.mod_pos_bound (n + align - 1) align Ha). nia.
Qed.

Lemma required_bytes_eq (pf : Platform) (grid : Z) :
  required_bytes pf grid
  = align_up (ALIGN_BYTES pf) (size_t_mul (to_size_t grid) (sizeof_T pf))
    + align_up (ALIGN_BYTES pf) GridQueue_AllocationSize.
Proof. unfold required_bytes, plan, allocation_sizes_of. simpl. lia. Qed.

Lemma required_bytes_pos (pf : Platform) (grid : Z) :
  0 < ALIGN_BYTES pf → 0 < required_bytes pf grid.
Proof.
  intros Ha. rewrite required_bytes_eq.
  pose proof (align_up_ge (ALIGN_BYTES pf)
                (size_t_mul (to_size_t grid) (sizeof_T pf)) Ha).
  pose proof (align_up_ge (ALIGN_BYTES pf) GridQueue_AllocationSize Ha).
  pose proof (to_size_t_nonneg (to_size_t grid * sizeof_T pf)).
  unfold size_t_mul, GridQueue_AllocationSize, sizeof_int in *. lia.
Qed.

(** C5, a counterexample to the claim as stated.  A sizing query over
    10000000 items takes the two-stage branch, which asks the device first:
    when no current device is found the query returns that error and leaves
    [temp_storage_bytes] as it was (0 here). *)
Lemma sizing_query_needs_the_device :
  Sum no_device_platform NULL 0 (100 : ptr) (200 : ptr) 10000000 7 false
    = (cudaErrorCode 38, {| temp_storage_bytes := 0; launched := [] |})
  ∧ ¬ (fst (Sum no_device_platform NULL 0 (100 : ptr) (200 : ptr) 10000000 7 false)
         = cudaSuccess
       ∧ 0 < temp_storage_bytes
               (snd (Sum no_device_platform NULL 0 (100 : ptr) (200 : ptr)
                       10000000 7 false))).
Proof.
  split; [reflexivity|]. intros [H _]. discriminate H.
Qed.

(** C5, as amended.  A call with a null scratch pointer submits no kernel,
    so nothing writes the output.  On the single-stage branch it stores 1 in
    [temp_storage_bytes] and returns [cudaSuccess].  On the two-stage branch,
    once the three device queries have succeeded, it returns [cudaSuccess]
    and stores the size the scratch allocator plans for the partials and the
    queue descriptor, which is greater than zero; when one of the queries
    fails, it returns that status and leaves [temp_storage_bytes] as it
    was. *)
Theorem sizing_query {T InputIterator OutputIterator : Type}
    (pf : Platform) (bytes : Z)
    (d_in : InputIterator) (d_out : OutputIterator) (num_items : Z)
    (reduction_op : T → T → T) (stream : cudaStream_t) (debug : bool)
    (sm_version : Z) (pk rk ak sk : KernelPtr) (rcfg scfg : KernelDispatchConfig) :
  CUB_RUNTIME_ENABLED pf = true →
  0 < ALIGN_BYTES pf →
  let result :=
    Dispatch pf NULL bytes d_in d_out num_items reduction_op stream debug
      sm_version pk rk ak sk rcfg scfg in
  launched (snd result) = []
  ∧ (rk = NULL_kernel ∨ num_items <= tile_size_of rcfg →
     result = (cudaSuccess, {| temp_storage_bytes := 1; launched := [] |}))
  ∧ (rk ≠ NULL_kernel → tile_size_of rcfg < num_items →
     ∀ sm_count sm_occupancy,
       queries_succeed pf sm_version rk rcfg sm_count sm_occupancy →
       result =
         (cudaSuccess,
          {| temp_storage_bytes :=
               required_bytes pf (planned_grid_size rcfg num_items sm_count sm_occupancy);
             launched := [] |})
       ∧ 0 < temp_storage_bytes (snd result))
  ∧ (rk ≠ NULL_kernel → tile_size_of rcfg < num_items →
     ∀ e, e ≠ cudaSuccess → query_fails pf sm_version rk rcfg e →
          result = (e, {| temp_storage_bytes := bytes; launched := [] |})).
Proof.
  intros Hen Halign result. split; [|split; [|split]].
  - by apply Dispatch_sizing_no_launch.
  - intros Hc. by apply Dispatch_single_stage_sizing.
  - intros Hk Hn sm_count sm_occupancy Hq. unfold result.
    rewrite (Dispatch_two_stage_sizing _ _ _ _ _ _ _ _ _ _ _ _ _ _ _ _ _ _
               Hen Hk Hn Hq eq_refl).
    split; [done|]. simpl. by apply required_bytes_pos.
  - intros Hk Hn e He Hq. by apply Dispatch_query_failure.
Qed.

Lemma sizing_query_witness :
  Sum example_platform NULL 0 (100 : ptr) (200 : ptr) 10000000 7 false
    = (cudaSuccess, {| temp_storage_bytes := 512; launched := [] |})
  ∧ 0 < temp_storage_bytes
          (snd (Sum example_platform NULL 0 (100 : ptr) (200 : ptr) 10000000 7 false)).
Proof.
  assert (queries_succeed example_platform 350 ReduceTilesKernel_ptr
            (Policy350.ReduceTilesPolicy 4) 14 2) as Hq by (by exists 0).
  destruct (sizing_query example_platform 0 (100 : ptr) (200 : ptr) 10000000
              cub_Sum 7 false 350
              FillAndResetDrainKernel_ptr ReduceTilesKernel_ptr
              SingleTileKernel_ptr SingleTileKernel_ptr
              (Policy350.ReduceTilesPolicy 4) Policy350.SingleTilePolicy
              eq_refl ltac:(by vm_compute)) as (_ & _ & H & _).
  exact (H ltac:(discriminate) ltac:(by vm_compute) 14 2 Hq).
Defined.

(** ** A scratch buffer that is too small *)

(** C6, a counterexample to the claim as stated.  Over five items the
    sizing query answers 1; the call with a buffer of 1 - 1 = 0 bytes does
    not return [InvalidScratchSize]: the single-stage branch never looks at
    the size, submits its kernel and returns [cudaSuccess]. *)
Lemma single_stage_ignores_scratch_size :
  Sum example_platform NULL 0 [1; 2; 3; 4; 5] (200 : ptr) 5 7 false
    = (cudaSuccess, {| temp_storage_bytes := 1; launched := [] |})
  ∧ fst (Sum example_platform 4096 (1 - 1) [1; 2; 3; 4; 5] (200 : ptr) 5 7 false)
    = cudaSuccess
  ∧ length (launched (snd (Sum example_platform 4096 (1 - 1) [1; 2; 3; 4; 5]
                             (200 : ptr) 5 7 false))) = 1%nat
  ∧ ¬ (fst (Sum example_platform 4096 (1 - 1) [1; 2; 3; 4; 5] (200 : ptr) 5 7 false)
         = InvalidScratchSize
       ∧ launched (snd (Sum example_platform 4096 (1 - 1) [1; 2; 3; 4; 5]
                          (200 : ptr) 5 7 false)) = []).
Proof.
  split; [reflexivity|]. split; [reflexivity|]. split; [reflexivity|].
  intros [H _]. discriminate H.
Qed.

(** C6, as amended.  On the two-stage branch ([num_items > tile_size], the
    partial-reduction kernel there), a call with a scratch buffer whose
    reported size is one byte less than the size a successful sizing query
    returned for the same arguments returns [InvalidScratchSize] and submits
    no kernel.  On the single-stage branch the size is not looked at: whatever
    it is, the call submits its kernel, and returns [cudaSuccess] unless a
    synchronisation was asked for and fails. *)
Theorem undersized_scratch {T InputIterator OutputIterator : Type}
    (pf : Platform) (d_temp_storage : ptr) (bytes0 : Z)
    (d_in : InputIterator) (d_out : OutputIterator) (num_items : Z)
    (reduction_op : T → T → T) (stream : cudaStream_t) (debug : bool)
    (sm_version : Z) (pk rk ak sk : KernelPtr) (rcfg scfg : KernelDispatchConfig) :
  CUB_RUNTIME_ENABLED pf = true →
  d_temp_storage ≠ NULL →
  let call p bytes :=
    Dispatch pf p bytes d_in d_out num_items reduction_op stream debug
      sm_version pk rk ak sk rcfg scfg in
  (rk ≠ NULL_kernel → tile_size_of rcfg < num_items →
   ∀ queried,
     call NULL bytes0 = (cudaSuccess, queried) →
     call d_temp_storage (temp_storage_bytes queried - 1)
     = (InvalidScratchSize,
        {| temp_storage_bytes := temp_storage_bytes queried - 1; launched := [] |}))
  ∧ (rk = NULL_kernel ∨ num_items <= tile_size_of rcfg →
     ∀ bytes,
       call d_temp_storage bytes
       = (if debug then SyncStream pf stream 1 else cudaSuccess,
          {| temp_storage_bytes := bytes;
             launched := [single_kernel_launch sk scfg d_in d_out num_items
                            reduction_op] |})).
Proof.
  intros Hen Hp call. split.
  - intros Hk Hn queried Hquery.
    destruct (Dispatch_two_stage_sizing_inv _ _ _ _ _ _ _ _ _ _ _ _ _ _ _ _ _
                Hen Hk Hn eq_refl Hquery) as (sm_count & sm_occupancy & Hq & ->).
    apply (Dispatch_two_stage_too_small _ _ _ _ _ _ _ _ _ _ _ _ _ _ _ _ _ _
             Hen Hk Hn Hq Hp).
    simpl. lia.
  - intros Hc bytes. by apply Dispatch_single_stage_result.
Qed.

Lemma undersized_scratch_witness :
  Dispatch example_platform 4096 (512 - 1) (100 : ptr) (200 : ptr) 10000000 cub_Sum
    7 false 350 FillAndResetDrainKernel_ptr ReduceTilesKernel_ptr
    SingleTileKernel_ptr SingleTileKernel_ptr
    (Policy350.ReduceTilesPolicy 4) Policy350.SingleTilePolicy
  = (InvalidScratchSize, {| temp_storage_bytes := 512 - 1; launched := [] |}).
Proof.
  exact (proj1 (undersized_scratch example_platform 4096 0
                  (100 : ptr) (200 : ptr) 10000000 cub_Sum 7 false 350
                  FillAndResetDrainKernel_ptr ReduceTilesKernel_ptr
                  SingleTileKernel_ptr SingleTileKernel_ptr
                  (Policy350.ReduceTilesPolicy 4) Policy350.SingleTilePolicy
                  eq_refl ltac:(discriminate))
           ltac:(discriminate) ltac:(by vm_compute)
           {| temp_storage_bytes := 512; launched := [] |} eq_refl).
Defined.

(** ** Failures end the call *)

Lemma two_stage_launches_before_combine {T InputIterator OutputIterator : Type}
    (pk rk ak : KernelPtr) (rcfg scfg : KernelDispatchConfig) (stream : cudaStream_t)
    (d_in : InputIterator) (d_out : OutputIterator) (num_items : Z)
    (reduction_op : T → T → T) (grid : Z) (es : GridEvenShare)
    (allocations : list ptr) (k : nat) :
  let sequence :=
    two_stage_launches pk rk ak rcfg scfg stream d_in d_out num_items reduction_op
      grid es allocations in
  (k < length sequence)%nat →
  ∀ l, l ∈ take k sequence → writes_output l = false.
Proof.
  intros sequence Hk l Hl. unfold sequence in *.
  rewrite two_stage_launches_sequence in *.
  destruct (decide _); simpl in Hk.
  - destruct k as [|[|[|k]]]; simpl in Hl; [| | |lia];
      set_unfold; by destruct_or!; subst.
  - destruct k as [|[|k]]; simpl in Hl; [| |lia];
      set_unfold; by destruct_or!; subst.
Qed.

(** C9.  The dispatcher tries nothing twice and stops at the first failure.
    When a device query of the two-stage branch fails, the call returns that
    status with nothing submitted and [temp_storage_bytes] untouched; when
    the scratch allocator refuses the buffer, the call returns that status
    with nothing submitted; when, in a debug-synchronous call, the
    synchronisation after the [k]-th kernel is the first to fail, the call
    returns that status having submitted exactly the first [k] kernels.  The
    host code itself never writes the output: unless the failure is that of
    the synchronisation after the last kernel, no submitted kernel is one
    that writes the output range. *)
Theorem Dispatch_failure_propagation {T InputIterator OutputIterator : Type}
    (pf : Platform) (d_temp_storage : ptr) (bytes : Z)
    (d_in : InputIterator) (d_out : OutputIterator) (num_items : Z)
    (reduction_op : T → T → T) (stream : cudaStream_t) (debug : bool)
    (sm_version : Z) (pk rk ak sk : KernelPtr) (rcfg scfg : KernelDispatchConfig)
    (e : cudaError) :
  CUB_RUNTIME_ENABLED pf = true →
  e ≠ cudaSuccess →
  let result :=
    Dispatch pf d_temp_storage bytes d_in d_out num_items reduction_op stream debug
      sm_version pk rk ak sk rcfg scfg in
  let two_stage := rk ≠ NULL_kernel ∧ tile_size_of rcfg < num_items in
  let sequence sm_count sm_occupancy :=
    two_stage_launches pk rk ak rcfg scfg stream d_in d_out num_items reduction_op
      (planned_grid_size rcfg num_items sm_count sm_occupancy)
      (planned_even_share rcfg num_items sm_count sm_occupancy)
      (planned_allocations pf d_temp_storage
         (planned_grid_size rcfg num_items sm_count sm_occupancy)) in
  (two_stage → query_fails pf sm_version rk rcfg e →
   result = (e, {| temp_storage_bytes := bytes; launched := [] |}))
  ∧ (two_stage →
     ∀ sm_count sm_occupancy,
       queries_succeed pf sm_version rk rcfg sm_count sm_occupancy →
       fst (fst (AliasTemporaries (ALIGN_BYTES pf) d_temp_storage bytes
                   (allocation_sizes_of pf
                      (planned_grid_size rcfg num_items sm_count sm_occupancy)))) = e →
       fst result = e ∧ launched (snd result) = [])
  ∧ (¬ two_stage → d_temp_storage ≠ NULL → debug = true →
     SyncStream pf stream 1 = e →
     result =
       (e, {| temp_storage_bytes := bytes;
              launched := [single_kernel_launch sk scfg d_in d_out num_items
                             reduction_op] |}))
  ∧ (two_stage →
     ∀ sm_count sm_occupancy (k : nat),
       queries_succeed pf sm_version rk rcfg sm_count sm_occupancy →
       d_temp_storage ≠ NULL →
       required_bytes pf (planned_grid_size rcfg num_items sm_count sm_occupancy)
         <= bytes →
       debug = true →
       (1 <= k <= length (sequence sm_count sm_occupancy))%nat →
       syncs_succeed pf stream (k - 1) →
       SyncStream pf stream k = e →
       result =
         (e, {| temp_storage_bytes := bytes;
                launched := take k (sequence sm_count sm_occupancy) |})
       ∧ ((k < length (sequence sm_count sm_occupancy))%nat →
          ∀ l, l ∈ take k (sequence sm_count sm_occupancy) → writes_output l = false)).
Proof.
  intros Hen He result two_stage sequence. split; [|split; [|split]].
  - intros [Hk Hn] Hq. by apply Dispatch_query_failure.
  - intros [Hk Hn] sm_count sm_occupancy Hq Halias. unfold result.
    rewrite (Dispatch_two_stage _ _ _ _ _ _ _ _ _ _ _ _ _ _ _ _ _ _ Hen Hk Hn Hq).
    unfold run_host. rewrite host_bind_eval.
    unfold alias_temporaries. simpl.
    destruct (AliasTemporaries _ _ _ _) as [[e' bytes'] allocations].
    simpl in Halias. subst e'. by destruct e.
  - intros Hsingle Hp -> Hsync. unfold result.
    rewrite Dispatch_single_stage_result; [by rewrite Hsync|done| |done].
    destruct (decide (rk = NULL_kernel)); [by left|right].
    destruct (Z.le_gt_cases num_items (tile_size_of rcfg)); [done|].
    exfalso. apply Hsingle. split; [done|lia].
  - intros [Hk Hn] sm_count sm_occupancy k Hq Hp Hbytes -> Hrange Hbefore Hat.
    split; [|by apply two_stage_launches_before_combine].
    unfold result.
    rewrite (Dispatch_two_stage_run _ _ _ _ _ _ _ _ _ _ _ _ _ _ _ _ _ _
               Hen Hk Hn Hq Hp Hbytes).
    unfold run_host. fold (sequence sm_count sm_occupancy).
    rewrite (submit_fail pf stream (sequence sm_count sm_occupancy) _ k e);
      [done|done| |done|done].
    intros i Hi. apply Hbefore. simpl in Hi. lia.
Qed.

Lemma Dispatch_failure_propagation_witness :
  fst (Dispatch failing_sync_platform 4096 1024 (100 : ptr) (200 : ptr) 102400
         Z.add 7 true 350 FillAndResetDrainKernel_ptr ReduceTilesKernel_ptr
         SingleTileKernel_ptr SingleTileKernel_ptr
         Policy200.ReduceTilesPolicy4B Policy200.SingleTilePolicy)
    = cudaErrorCode 4
  ∧ kernel <$> launched
                 (snd (Dispatch failing_sync_platform 4096 1024 (100 : ptr)
                         (200 : ptr) 102400 Z.add 7 true 350
                         FillAndResetDrainKernel_ptr ReduceTilesKernel_ptr
                         SingleTileKernel_ptr SingleTileKernel_ptr
                         Policy200.ReduceTilesPolicy4B Policy200.SingleTilePolicy))
    = [FillAndResetDrainKernel_ptr; ReduceTilesKernel_ptr].
Proof.
  assert (queries_succeed failing_sync_platform 350 ReduceTilesKernel_ptr
            Policy200.ReduceTilesPolicy4B 14 2) as Hq by (by exists 0).
  destruct (Dispatch_failure_propagation (T := Z) failing_sync_platform 4096 1024
              (100 : ptr) (200 : ptr) 102400 Z.add 7 true 350
              FillAndResetDrainKernel_ptr ReduceTilesKernel_ptr
              SingleTileKernel_ptr SingleTileKernel_ptr
              Policy200.ReduceTilesPolicy4B Policy200.SingleTilePolicy
              (cudaErrorCode 4) eq_refl ltac:(discriminate)) as (_ & _ & _ & H).
  destruct (H ltac:(split; [discriminate|by vm_compute]) 14 2 2%nat Hq
              ltac:(discriminate) ltac:(by vm_compute) eq_refl
              ltac:(vm_compute; lia)) as [Hresult _].
  - intros i Hi. assert (i = 1%nat) as -> by (simpl in Hi; lia). reflexivity.
  - reflexivity.
  - exact (conj (f_equal fst Hresult)
                (f_equal (λ r, kernel <$> launched (snd r)) Hresult)).
Defined.

(** ** Folds without an identity *)

Section Fold.
Context {T : Type} (reduction_op : T → T → T).
Context `{!Assoc (=) reduction_op, !Comm (=) reduction_op}.

Lemma foldl_reduction_op (a b : T) (items : list T) :
  foldl reduction_op (reduction_op a b) items
  = reduction_op a (foldl reduction_op b items).
Proof.
  revert b. induction items as [|y items IH]; intros b; [done|].
  simpl. by rewrite <- IH, (assoc reduction_op).
Qed.

Lemma fold1_cons (x : T) (items : list T) :
  fold1 reduction_op (x :: items)
  = Some (from_option (reduction_op x) x (fold1 reduction_op items)).
Proof.
  destruct items as [|y items]; [done|].
  simpl. by rewrite foldl_reduction_op.
Qed.

Lemma fold1_is_Some (items : list T) :
  items ≠ [] → is_Some (fold1 reduction_op items).
Proof. destruct items; [done|]. intros _. by eexists. Qed.

Lemma fold1_app (xs ys : list T) (a b : T) :
  fold1 reduction_op xs = Some a → fold1 reduction_op ys = Some b →
  fold1 reduction_op (xs ++ ys) = Some (reduction_op a b).
Proof.
  revert a. induction xs as [|x xs IH]; intros a Ha Hb; [done|].
  rewrite <- app_comm_cons, fold1_cons. rewrite fold1_cons in Ha.
  destruct (fold1 reduction_op xs) as [a'|] eqn:Hxs.
  - rewrite (IH a' eq_refl Hb). simpl in *. simplify_eq.
    by rewrite (assoc reduction_op).
  - destruct xs; [|done]. simpl in *. simplify_eq. by rewrite Hb.
Qed.

Lemma fold1_Permutation (xs ys : list T) :
  xs ≡ₚ ys → fold1 reduction_op xs = fold1 reduction_op ys.
Proof.
  induction 1 as [|x xs ys _ IH|x y xs|xs ys zs _ IH1 _ IH2].
  - done.
  - by rewrite !fold1_cons, IH.
  - rewrite !fold1_cons. simpl. f_equal.
    destruct (fold1 reduction_op xs) as [a|]; simpl.
    + by rewrite !(assoc reduction_op), (comm reduction_op x y).
    + by rewrite (comm reduction_op).
  - by rewrite IH1.
Qed.

(** The fold of the folds of non-empty parts is the fold of the whole. *)
Lemma fold1_concat (parts : list (list T)) (aggregates : list T) :
  Forall2 (λ part a, fold1 reduction_op part = Some a) parts aggregates →
  fold1 reduction_op aggregates = fold1 reduction_op (concat parts).
Proof.
  induction 1 as [|part a parts aggregates Ha _ IH]; [done|].
  rewrite fold1_cons, IH. simpl.
  destruct (fold1 reduction_op (concat parts)) as [b|] eqn:Hb; simpl.
  - symmetry. by apply fold1_app.
  - destruct (concat parts) as [|] eqn:Hc; [|done]. by rewrite app_nil_r.
Qed.

End Fold.

(** ** Running the kernels *)

Section KernelFacts.
Context {T : Type}.

Implicit Types (m : DeviceMemory T) (l : Launch T (list T) Z) (d_in : list T).

Lemma mapM_total {A B} (f : A → option B) (g : A → B) (xs : list A) :
  Forall (λ x, f x = Some (g x)) xs → mapM f xs = Some (g <$> xs).
Proof.
  induction 1 as [|x xs Hx _ IH]; [done|].
  simpl. by rewrite Hx, IH.
Qed.

Lemma read_input_in_range (x0 : T) d_in (i : Z) :
  0 <= i < Z.of_nat (length d_in) → read_input d_in i = Some (item_at x0 d_in i).
Proof.
  intros Hi. unfold read_input, item_at. rewrite decide_True by lia.
  destruct (lookup_lt_is_Some_2 d_in (Z.to_nat i)) as [x Hx]; [lia|].
  by rewrite Hx.
Qed.

Lemma item_at_seqZ (x0 : T) d_in (n : Z) :
  0 <= n <= Z.of_nat (length d_in) →
  item_at x0 d_in <$> seqZ 0 n = take (Z.to_nat n) d_in.
Proof.
  intros Hn. apply list_eq. intros j.
  rewrite list_lookup_fmap.
  destruct (decide (j < Z.to_nat n)%nat) as [Hj|Hj].
  - rewrite lookup_take_lt by done.
    rewrite (lookup_seqZ_lt 0 n j) by lia. simpl.
    unfold item_at. rewrite Z.add_0_l, Nat2Z.id.
    destruct (lookup_lt_is_Some_2 d_in j) as [x Hx]; [lia|]. by rewrite Hx.
  - rewrite lookup_take_ge by lia.
    rewrite (lookup_seqZ_ge 0 n j) by lia. done.
Qed.

Lemma elem_of_concat_2 {A} (x : A) (part : list A) (parts : list (list A)) :
  x ∈ part → part ∈ parts → x ∈ concat parts.
Proof.
  intros Hx. induction parts as [|part' parts IH].
  - by intros ?%elem_of_nil.
  - intros [->|Hpart]%elem_of_cons; simpl; apply elem_of_app; [by left|].
    right. by apply IH.
Qed.

Lemma foldl_option_None {A B} (f : B → A → option B) (xs : list A) :
  foldl (λ om x, m' ← om; f m' x) None xs = None.
Proof. by induction xs. Qed.

Lemma exec_blocks_cons sizeof_T consumed l (b : Z) (bs : list Z) m :
  exec_blocks sizeof_T consumed l (b :: bs) m
  = exec_block sizeof_T consumed l b m ≫= exec_blocks sizeof_T consumed l bs.
Proof.
  unfold exec_blocks. simpl.
  destruct (exec_block _ _ _ _ _); [done|]. simpl. apply foldl_option_None.
Qed.

Lemma run_launches_cons sizeof_T consumed l (ls : list (Launch T (list T) Z)) m :
  run_launches sizeof_T consumed (l :: ls) m
  = exec_launch sizeof_T consumed l m ≫= run_launches sizeof_T consumed ls.
Proof.
  unfold run_launches. simpl.
  destruct (exec_launch _ _ _ _); [done|]. simpl. apply foldl_option_None.
Qed.

Lemma elem_addr_inj (sizeof_T : Z) (p : ptr) (i j : Z) :
  sizeof_T ≠ 0 → elem_addr sizeof_T p i = elem_addr sizeof_T p j → i = j.
Proof. unfold elem_addr. intros Hs H. nia. Qed.

(** The blocks of the partial-reduction kernel: block [b] stores its
    aggregate in cell [b] of the partials and touches nothing else. *)
Lemma exec_blocks_reduce_tiles (sizeof_T : Z) (consumed : Z → list Z)
    d_in (p : ptr) (n grid : Z)
    (es : GridEvenShare) (q : GridQueue) (reduction_op : T → T → T)
    (blockDim sh : Z) (stream : cudaStream_t) (aggregate : Z → T) (bs : list Z) m :
  sizeof_T ≠ 0 → NoDup bs →
  Forall (λ b, ConsumeTiles reduction_op (read_input d_in) (consumed b)
               = Some (aggregate b)) bs →
  ∃ m',
    exec_blocks sizeof_T consumed
      {| kernel := ReduceTilesKernel_ptr; gridDim := grid; blockDim := blockDim;
         shared_bytes := sh; stream_of := stream;
         args := ReduceTiles_args d_in p n es q reduction_op |} bs m = Some m'
    ∧ output m' = output m
    ∧ (∀ b, b ∈ bs → scratch m' !! elem_addr sizeof_T p b = Some (aggregate b))
    ∧ (∀ a, (∀ b, b ∈ bs → a ≠ elem_addr sizeof_T p b) →
            scratch m' !! a = scratch m !! a).
Proof.
  intros Hsz Hnd Hagg. revert m.
  induction bs as [|b bs IH]; intros m.
  - exists m. split; [done|]. split; [done|]. split; [|done].
    intros b Hb. by apply elem_of_nil in Hb.
  - apply NoDup_cons in Hnd as [Hb Hnd]. apply Forall_cons in Hagg as [Hab Hagg].
    rewrite exec_blocks_cons. unfold exec_block at 1. simpl.
    unfold ReduceTilesKernel. rewrite Hab. simpl.
    destruct (IH Hnd Hagg (write_scratch sizeof_T p b (aggregate b) m))
      as (m' & Hrun & Hout & Hcells & Hframe).
    exists m'. split; [done|]. split; [done|]. split.
    + intros b' [->|Hb']%elem_of_cons; [|by apply Hcells].
      rewrite Hframe.
      * simpl. by rewrite lookup_insert_eq.
      * intros b' Hb' Heq. apply elem_addr_inj in Heq; [|done]. by subst.
    + intros a Ha. rewrite Hframe.
      * simpl. rewrite lookup_insert_ne; [done|].
        intros Heq. apply (Ha b); [by left|done].
      * intros b' Hb'. apply Ha. by right.
Qed.

(** The reset of the drain queue changes neither the partials nor the
    output. *)
Lemma exec_launch_prepare_drain sizeof_T consumed (stream : cudaStream_t)
    (q : GridQueue) (n : Z) m :
  exec_launch sizeof_T consumed
    (prepare_drain_kernel_launch FillAndResetDrainKernel_ptr stream q n) m = Some m.
Proof. reflexivity. Qed.

(** The single-tile kernel over the input stores the fold of the first
    [num_items] items in the output position. *)
Lemma exec_launch_single_tile sizeof_T consumed (scfg : KernelDispatchConfig)
    d_in (d_out : Z) (num_items : Z) (reduction_op : T → T → T) m :
  1 <= num_items <= Z.of_nat (length d_in) →
  ∃ v,
    fold1 reduction_op (take (Z.to_nat num_items) d_in) = Some v
    ∧ exec_launch sizeof_T consumed
        (single_kernel_launch SingleTileKernel_ptr scfg d_in d_out num_items
           reduction_op) m
      = Some (write_output d_out 0 v m).
Proof.
  intros Hn. destruct d_in as [|x0 rest] eqn:Hd; [simpl in Hn; lia|]. rewrite <- Hd in *.
  destruct (fold1_is_Some reduction_op (take (Z.to_nat num_items) d_in)) as [v Hv].
  { rewrite Hd. destruct (Z.to_nat num_items) eqn:Hz; [lia|done]. }
  exists v. split; [done|].
  unfold exec_launch, blocks_of, single_kernel_launch. simpl gridDim.
  change (seqZ 0 1) with [0]. rewrite exec_blocks_cons.
  unfold exec_block. simpl. unfold SingleTileKernel, ConsumeTiles.
  rewrite (mapM_total _ (item_at x0 d_in)).
  - simpl. rewrite item_at_seqZ by lia. by rewrite Hv.
  - apply Forall_forall. intros i Hi%elem_of_seqZ.
    apply read_input_in_range. lia.
Qed.

(** The single-tile kernel over [grid] partials that are all there stores
    their fold in the output position. *)
Lemma exec_launch_aggregate sizeof_T consumed (scfg : KernelDispatchConfig)
    (stream : cudaStream_t) (p : ptr) (d_out : Z) (grid : Z)
    (reduction_op : T → T → T) (aggregate : Z → T) m :
  1 <= grid →
  (∀ b, 0 <= b < grid → scratch m !! elem_addr sizeof_T p b = Some (aggregate b)) →
  ∃ v,
    fold1 reduction_op (aggregate <$> seqZ 0 grid) = Some v
    ∧ exec_launch sizeof_T consumed
        (aggregate_kernel_launch SingleTileKernel_ptr scfg stream p d_out grid
           reduction_op) m
      = Some (write_output d_out 0 v m).
Proof.
  intros Hg Hcells.
  destruct (fold1_is_Some reduction_op (aggregate <$> seqZ 0 grid)) as [v Hv].
  { intros Hnil%fmap_nil_inv. apply (f_equal length) in Hnil.
    rewrite length_seqZ in Hnil. simpl in Hnil. lia. }
  exists v. split; [done|].
  unfold exec_launch, blocks_of, aggregate_kernel_launch. simpl gridDim.
  change (seqZ 0 1) with [0]. rewrite exec_blocks_cons.
  unfold exec_block. simpl. unfold SingleTileKernel, ConsumeTiles.
  rewrite (mapM_total _ aggregate).
  - simpl. by rewrite Hv.
  - apply Forall_forall. intros i Hi%elem_of_seqZ.
    unfold read_scratch. apply Hcells. lia.
Qed.

(** What the blocks of the partial-reduction grid hand on, when together
    they consume every position once: each block has an aggregate, and the
    fold of the aggregates is the fold of the input. *)
Lemma exact_cover_aggregates `{!Assoc (=) reduction_op, !Comm (=) reduction_op}
    (consumed : Z → list Z) d_in (grid num_items : Z) (x0 : T) :
  0 <= num_items <= Z.of_nat (length d_in) →
  exact_cover consumed grid num_items →
  let aggregate b :=
    default x0 (fold1 reduction_op (item_at x0 d_in <$> consumed b)) in
  Forall (λ b, ConsumeTiles reduction_op (read_input d_in) (consumed b)
               = Some (aggregate b)) (seqZ 0 grid)
  ∧ fold1 reduction_op (aggregate <$> seqZ 0 grid)
    = fold1 reduction_op (take (Z.to_nat num_items) d_in).
Proof.
  intros Hn [Hperm Hne] aggregate.
  assert (Hpart : ∀ b, b ∈ seqZ 0 grid →
            fold1 reduction_op (item_at x0 d_in <$> consumed b) = Some (aggregate b)).
  { intros b Hb%elem_of_seqZ. unfold aggregate.
    destruct (fold1_is_Some reduction_op (item_at x0 d_in <$> consumed b)) as [a ->];
      [|done].
    intros Hnil%fmap_nil_inv. apply (Hne b); [lia|done]. }
  split.
  - apply Forall_forall. intros b Hb. unfold ConsumeTiles.
    rewrite (mapM_total _ (item_at x0 d_in)).
    + simpl. by apply Hpart.
    + apply Forall_forall. intros i Hi. apply read_input_in_range.
      assert (i ∈ seqZ 0 num_items) as Hin%elem_of_seqZ; [|lia].
      rewrite <- Hperm. apply (elem_of_concat_2 _ (consumed b)); [done|].
      by apply list_elem_of_fmap_2.
  - rewrite (fold1_concat reduction_op
               ((λ b, item_at x0 d_in <$> consumed b) <$> seqZ 0 grid)).
    + rewrite <- item_at_seqZ with (x0 := x0) by done.
      apply fold1_Permutation; [done..|].
      rewrite <- Hperm. clear.
      induction (seqZ 0 grid) as [|b bs IH]; [done|].
      simpl. by rewrite fmap_app, IH.
    + apply Forall2_fmap, Forall_Forall2_diag, Forall_forall.
      intros b Hb. by apply Hpart.
Qed.

End KernelFacts.

(** ** Calls that end with [cudaSuccess] *)

Section SuccessfulCalls.
Context {T InputIterator OutputIterator : Type}.

Lemma sync_if_returned (pf : Platform) (debug : bool) (stream : cudaStream_t)
    (s s' : HostState T InputIterator OutputIterator) (e : cudaError) :
  sync_if pf debug stream s = (Returned e, s') → e ≠ cudaSuccess.
Proof.
  unfold sync_if. destruct debug; [|done].
  unfold or_break. destruct (SyncStream _ _ _); intros; by simplify_eq.
Qed.

Lemma sync_if_state (pf : Platform) (debug : bool) (stream : cudaStream_t)
    (s : HostState T InputIterator OutputIterator) :
  snd (sync_if pf debug stream s) = s.
Proof.
  unfold sync_if. destruct debug; [|done].
  unfold or_break. by destruct (SyncStream _ _ _).
Qed.

(** A sequence of launches that ends with [cudaSuccess] was submitted in
    full. *)
Lemma submit_success (pf : Platform) (debug : bool) (stream : cudaStream_t)
    (ls : list (Launch T InputIterator OutputIterator))
    (s s' : HostState T InputIterator OutputIterator) :
  run_host (submit pf debug stream ls) s = (cudaSuccess, s') →
  s' = {| temp_storage_bytes := temp_storage_bytes s; launched := launched s ++ ls |}.
Proof.
  revert s. induction ls as [|l ls IH]; intros s.
  - unfold run_host. simpl. intros [= <-]. destruct s. simpl.
    by rewrite app_nil_r.
  - unfold run_host. rewrite submit_cons. cbv zeta.
    destruct (sync_if _ _ _ _) as [[e|[]] s2] eqn:Hs.
    + intros; simplify_eq. by apply sync_if_returned in Hs.
    + pose proof (sync_if_state pf debug stream
                    {| temp_storage_bytes := temp_storage_bytes s;
                       launched := launched s ++ [l] |}) as Hst.
      rewrite Hs in Hst. simpl in Hst. subst s2.
      intros H. apply IH in H. subst s'. simpl. by rewrite <- app_assoc.
Qed.

Variables (pf : Platform) (d_temp_storage : ptr) (bytes : Z).
Variables (d_in : InputIterator) (d_out : OutputIterator) (num_items : Z).
Variables (reduction_op : T -> T -> T) (stream : cudaStream_t) (debug : bool).
Variables (sm_version : Z) (pk rk ak sk : KernelPtr).
Variables (rcfg scfg : KernelDispatchConfig).

(** What is known of a call with a scratch buffer that returned
    [cudaSuccess]: which branch it took and everything it submitted. *)
Lemma Dispatch_success_inv (st : HostState T InputIterator OutputIterator) :
  d_temp_storage ≠ NULL →
  Dispatch pf d_temp_storage bytes d_in d_out num_items reduction_op stream debug
    sm_version pk rk ak sk rcfg scfg = (cudaSuccess, st) →
  ((rk = NULL_kernel ∨ num_items <= tile_size_of rcfg)
   ∧ st = {| temp_storage_bytes := bytes;
             launched := [single_kernel_launch sk scfg d_in d_out num_items
                            reduction_op] |})
  ∨ (rk ≠ NULL_kernel ∧ tile_size_of rcfg < num_items
     ∧ ∃ sm_count sm_occupancy,
         queries_succeed pf sm_version rk rcfg sm_count sm_occupancy
         ∧ required_bytes pf (planned_grid_size rcfg num_items sm_count sm_occupancy)
             <= bytes
         ∧ st = {| temp_storage_bytes := bytes;
                   launched :=
                     two_stage_launches pk rk ak rcfg scfg stream d_in d_out
                       num_items reduction_op
                       (planned_grid_size rcfg num_items sm_count sm_occupancy)
                       (planned_even_share rcfg num_items sm_count sm_occupancy)
                       (planned_allocations pf d_temp_storage
                          (planned_grid_size rcfg num_items sm_count sm_occupancy)) |}).
Proof.
  intros Hp Hcall.
  destruct (CUB_RUNTIME_ENABLED pf) eqn:Hen;
    [|by rewrite Dispatch_not_supported in Hcall].
  destruct (decide (rk = NULL_kernel ∨ num_items <= tile_size_of rcfg)) as [Hc|Hc].
  { left. split; [done|].
    rewrite (Dispatch_single_stage_result _ _ _ _ _ _ _ _ _ _ _ _ _ _ _ _ Hen Hc Hp)
      in Hcall. by simplify_eq. }
  right.
  assert (rk ≠ NULL_kernel ∧ tile_size_of rcfg < num_items) as [Hk Hn].
  { split; [tauto|]. destruct (Z.lt_ge_cases (tile_size_of rcfg) num_items); [done|].
    exfalso. apply Hc. right. lia. }
  split; [done|]. split; [done|].
  destruct (queries_cases pf sm_version rk rcfg)
    as [(c & o & Hq)|(e & He & Hq)].
  2: { rewrite (Dispatch_query_failure _ _ _ _ _ _ _ _ _ _ _ _ _ _ _ _ _
                  Hen Hk Hn He Hq) in Hcall. by simplify_eq. }
  exists c, o. split; [done|].
  destruct (Z.lt_ge_cases bytes
              (required_bytes pf (planned_grid_size rcfg num_items c o)))
    as [Hlt|Hge].
  { rewrite (Dispatch_two_stage_too_small _ _ _ _ _ _ _ _ _ _ _ _ _ _ _ _ _ _
               Hen Hk Hn Hq Hp Hlt) in Hcall. by simplify_eq. }
  split; [done|].
  rewrite (Dispatch_two_stage_run _ _ _ _ _ _ _ _ _ _ _ _ _ _ _ _ _ _
             Hen Hk Hn Hq Hp Hge) in Hcall.
  by apply submit_success in Hcall.
Qed.

(** The routine without kernel arguments is the routine with them, at the
    PTX version the platform reports and the configurations looked up for
    it. *)
Lemma Dispatch_tuned_eq :
  Dispatch_tuned pf d_temp_storage bytes d_in d_out num_items reduction_op
    stream debug
  = match PtxVersion pf with
    | (cudaSuccess, ptx_version) =>
        Dispatch pf d_temp_storage bytes d_in d_out num_items reduction_op stream
          debug ptx_version FillAndResetDrainKernel_ptr ReduceTilesKernel_ptr
          SingleTileKernel_ptr SingleTileKernel_ptr
          (fst (InitDispatchConfigs ptx_version (sizeof_T pf)))
          (snd (InitDispatchConfigs ptx_version (sizeof_T pf)))
    | (e, _) => (e, {| temp_storage_bytes := bytes; launched := [] |})
    end.
Proof.
  unfold Dispatch_tuned, Dispatch, run_host. rewrite host_bind_eval.
  destruct (PtxVersion pf) as [[] v]; try done.
  rewrite or_break_success. by destruct (InitDispatchConfigs _ _).
Qed.

End SuccessfulCalls.

(** Every tile of every tuning policy holds at least 512 items. *)
Lemma InitDispatchConfigs_tile_size (ptx_version sizeof_T : Z) :
  512 <= tile_size_of (fst (InitDispatchConfigs ptx_version sizeof_T)).
Proof.
  unfold InitDispatchConfigs, Policy350.ReduceTilesPolicy, Policy200.ReduceTilesPolicy.
  repeat case_match; by vm_compute.
Qed.

(** ** The value a successful call computes *)

Lemma exact_cover_grid_pos (consumed : Z → list Z) (grid num_items : Z) :
  exact_cover consumed grid num_items → 1 <= num_items → 1 <= grid.
Proof.
  intros [Hperm _] Hn. destruct (Z.le_gt_cases 1 grid) as [|Hg]; [done|].
  exfalso. apply Permutation_length in Hperm.
  rewrite length_seqZ in Hperm.
  replace (seqZ 0 grid) with (@nil Z) in Hperm; [simpl in Hperm; lia|].
  symmetry. apply length_zero_iff_nil. rewrite length_seqZ. lia.
Qed.

Lemma int_add_Assoc : Assoc (=) cub_Sum.
Proof. intros a b c. apply int_add_assoc. Qed.

Lemma int_add_Comm : Comm (=) cub_Sum.
Proof. intros a b. apply int_add_comm. Qed.

(** ** The positions the blocks are handed *)

Lemma concat_runs (f : Z → Z) (a : Z) (k : nat) :
  (∀ t, a <= t < a + Z.of_nat k → f t <= f (t + 1)) →
  concat ((λ t, seqZ (f t) (f (t + 1) - f t)) <$> seqZ a (Z.of_nat k))
  = seqZ (f a) (f (a + Z.of_nat k) - f a).
Proof.
  induction k as [|k IH]; intros Hmono.
  - simpl. rewrite Z.add_0_r, Z.sub_diag. done.
  - rewrite Nat2Z.inj_succ, <- Z.add_1_r.
    rewrite seqZ_app by lia. rewrite fmap_app, concat_app, IH.
    2: { intros t Ht. apply Hmono. lia. }
    change (seqZ (a + Z.of_nat k) 1) with [a + Z.of_nat k].
    simpl. rewrite app_nil_r.
    assert (f a <= f (a + Z.of_nat k)) as Hle.
    { clear IH. induction k as [|k IHk]; [rewrite Z.add_0_r; lia|].
      etrans; [apply IHk; intros t Ht; apply Hmono; lia|].
      replace (a + Z.of_nat (S k)) with (a + Z.of_nat k + 1) by lia.
      apply Hmono. lia. }
    pose proof (Hmono (a + Z.of_nat k) ltac:(lia)) as Hlast.
    replace (a + (Z.of_nat k + 1)) with (a + Z.of_nat k + 1) by lia.
    replace (f (a + Z.of_nat k + 1) - f a)
      with ((f (a + Z.of_nat k) - f a) + (f (a + Z.of_nat k + 1) - f (a + Z.of_nat k)))
      by lia.
    rewrite seqZ_app by lia. do 2 f_equal. lia.
Qed.

Lemma tile_positions_run (tile_size num_items t : Z) :
  0 < tile_size → 0 <= t →
  tile_positions tile_size num_items t
  = seqZ (Z.min (t * tile_size) num_items)
         (Z.min ((t + 1) * tile_size) num_items - Z.min (t * tile_size) num_items).
Proof.
  intros Hts Ht. unfold tile_positions.
  destruct (Z.le_gt_cases num_items (t * tile_size)) as [Hle|Hlt].
  - rewrite !(seqZ_nil) by lia. done.
  - f_equal; lia.
Qed.

(** The positions of the tiles from [a] on, [k] of them, are the positions
    between the ends of the first and the last. *)
Lemma tile_positions_concat (tile_size num_items a : Z) (k : Z) :
  0 < tile_size → 0 <= a → 0 <= k →
  concat (tile_positions tile_size num_items <$> seqZ a k)
  = seqZ (Z.min (a * tile_size) num_items)
         (Z.min ((a + k) * tile_size) num_items - Z.min (a * tile_size) num_items).
Proof.
  intros Hts Ha Hk.
  rewrite <- (Z2Nat.id k) by done.
  rewrite <- (concat_runs (λ t, Z.min (t * tile_size) num_items)).
  - f_equal. apply list_fmap_ext. intros i t Hin.
    apply lookup_seqZ in Hin as [-> _]. apply tile_positions_run; lia.
  - intros t Ht. cbv beta. nia.
Qed.


Lemma seqZ_nonempty (m n : Z) : 0 < n → seqZ m n ≠ [].
Proof.
  intros Hn Hnil. apply (f_equal length) in Hnil.
  rewrite length_seqZ in Hnil. simpl in Hnil. lia.
Qed.

Section EvenShare.
Variables (policy : KernelDispatchConfig) (num_items : Z) (even_share : GridEvenShare).

Abbreviation tile_size := (tile_size_of policy).
Abbreviation num_tiles := (ceil_div (es_num_items even_share) tile_size).
Abbreviation first_tile := (even_share_first_tile even_share tile_size).
Abbreviation end_of := (even_share_end even_share tile_size num_items).

Hypothesis Hts : 0 < tile_size.
Hypothesis Hitems : es_num_items even_share = num_items.
Hypothesis Hn : 1 <= num_items.
Hypothesis Hgrid : 1 <= grid_size even_share <= num_tiles.

Lemma even_share_first_tile_0 : first_tile 0 = 0.
Proof. unfold even_share_first_tile. by rewrite Z.mul_0_l, Z.div_0_l by lia. Qed.

Lemma even_share_first_tile_grid : first_tile (grid_size even_share) = num_tiles.
Proof.
  unfold even_share_first_tile.
  rewrite Z.mul_comm. apply Z.div_mul. lia.
Qed.

Lemma even_share_first_tile_step (b : Z) : first_tile b + 1 <= first_tile (b + 1).
Proof.
  unfold even_share_first_tile.
  rewrite <- (Z.div_add (b * num_tiles) 1 (grid_size even_share)) by lia.
  apply Z.div_le_mono; nia.
Qed.

Lemma even_share_first_tile_mono (b b' : Z) : b <= b' → first_tile b <= first_tile b'.
Proof.
  intros Hb. unfold even_share_first_tile.
  assert (0 <= num_tiles) by lia.
  apply Z.div_le_mono; nia.
Qed.

(** The positions of a group are one run. *)
Lemma even_share_positions_run (b : Z) :
  0 <= b →
  even_share_positions policy num_items even_share b
  = seqZ (end_of b) (end_of (b + 1) - end_of b).
Proof.
  intros Hb. unfold even_share_positions, even_share_tiles.
  pose proof (even_share_first_tile_step b).
  pose proof (even_share_first_tile_mono 0 b Hb) as H0.
  rewrite even_share_first_tile_0 in H0.
  rewrite tile_positions_concat by lia.
  unfold even_share_end. do 3 f_equal. lia.
Qed.

(** The runs of the even-share plan are consecutive, none is empty, and
    together they are the whole input, when there are at most as many groups
    as tiles. *)
Lemma even_share_exact_cover :
  exact_cover (even_share_positions policy num_items even_share)
    (grid_size even_share) num_items.
Proof.
  pose proof (ceil_div_bounds (es_num_items even_share) tile_size Hts) as Hnt.
  rewrite Hitems in Hnt.
  split.
  - replace (concat (even_share_positions policy num_items even_share
                       <$> seqZ 0 (grid_size even_share)))
      with (seqZ (end_of 0) (end_of (0 + grid_size even_share) - end_of 0)).
    + unfold even_share_end. rewrite Z.add_0_l, even_share_first_tile_0,
        even_share_first_tile_grid, Hitems.
      replace (Z.min (0 * tile_size) num_items) with 0 by lia.
      replace (Z.min (ceil_div num_items tile_size * tile_size) num_items - 0)
        with num_items by lia.
      done.
    + pose proof (concat_runs end_of 0 (Z.to_nat (grid_size even_share))) as Hruns.
      rewrite !Z2Nat.id in Hruns by lia. rewrite <- Hruns.
      * f_equal. apply list_fmap_ext. intros i b Hin.
        apply lookup_seqZ in Hin as [-> _]. symmetry.
        apply even_share_positions_run. lia.
      * intros b Hb. unfold even_share_end.
        pose proof (even_share_first_tile_step b). nia.
  - intros b Hb. rewrite even_share_positions_run by lia.
    apply seqZ_nonempty. unfold even_share_end.
    pose proof (even_share_first_tile_step b).
    pose proof (even_share_first_tile_mono (b + 1) (grid_size even_share) ltac:(lia))
      as Hle.
    rewrite even_share_first_tile_grid, Hitems in Hle. nia.
Qed.

(** No group is given more tiles than the largest share of the plan,
    [ceil(num_tiles / grid_size)]. *)
Lemma even_share_tiles_length (b : Z) :
  0 <= b →
  Z.of_nat (length (even_share_tiles even_share tile_size b))
  <= ceil_div num_tiles (grid_size even_share).
Proof.
  intros Hb. unfold even_share_tiles. rewrite length_seqZ.
  pose proof (even_share_first_tile_step b).
  rewrite Z2Nat.id by lia.
  unfold even_share_first_tile.
  change (ceil_div num_tiles (grid_size even_share))
    with ((num_tiles + grid_size even_share - 1) `div` grid_size even_share).
  assert (0 < grid_size even_share) as Hg by lia.
  pose proof (Z.div_mod (b * num_tiles) (grid_size even_share) ltac:(lia)) as H1.
  pose proof (Z.mod_pos_bound (b * num_tiles) (grid_size even_share) Hg) as H2.
  pose proof (Z.div_mod ((b + 1) * num_tiles) (grid_size even_share) ltac:(lia)) as H3.
  pose proof (Z.mod_pos_bound ((b + 1) * num_tiles) (grid_size even_share) Hg) as H4.
  pose proof (Z.div_mod (num_tiles + grid_size even_share - 1) (grid_size even_share)
                ltac:(lia)) as H5.
  pose proof (Z.mod_pos_bound (num_tiles + grid_size even_share - 1)
                (grid_size even_share) Hg) as H6.
  set (q1 := (b * num_tiles) `div` grid_size even_share) in *.
  set (q3 := ((b + 1) * num_tiles) `div` grid_size even_share) in *.
  set (q5 := (num_tiles + grid_size even_share - 1) `div` grid_size even_share) in *.
  assert (grid_size even_share * (q3 - q1) < grid_size even_share * (q5 + 1)) as Hlt
    by lia.
  apply Z.mul_lt_mono_pos_l in Hlt; lia.
Qed.

End EvenShare.

Lemma concat_nil_fmap {A B} (bs : list B) :
  concat ((λ _ : B, @nil A) <$> bs) = [].
Proof. by induction bs. Qed.

Lemma concat_nonempty {A B} (f : B → list A) (x : B) (l : list B) :
  x ∈ l → f x ≠ [] → concat (f <$> l) ≠ [].
Proof.
  intros Hx Hf. induction l as [|y l IH]; [by apply elem_of_nil in Hx|].
  simpl. apply elem_of_cons in Hx as [<-|Hx].
  - by destruct (f x).
  - intros [_ Hnil]%app_eq_nil. by apply IH.
Qed.

(** Splitting a list of tiles among the groups that claim them loses and
    repeats nothing. *)
Lemma concat_claimed {A} (claims : Z → Z) (F : Z → list A) (ts bs : list Z) :
  NoDup bs → (∀ t, t ∈ ts → claims t ∈ bs) →
  concat ((λ b, concat (F <$> filter (λ t, claims t = b) ts)) <$> bs)
  ≡ₚ concat (F <$> ts).
Proof.
  intros Hnd. induction ts as [|t ts IH]; intros Hin.
  - simpl. by rewrite concat_nil_fmap.
  - assert (Hstep : ∀ bs', NoDup bs' →
      concat ((λ b, concat (F <$> filter (λ t, claims t = b) (t :: ts))) <$> bs')
      ≡ₚ (if decide (claims t ∈ bs') then F t else [])
         ++ concat ((λ b, concat (F <$> filter (λ t, claims t = b) ts)) <$> bs')).
    { clear. induction bs' as [|b bs' IHb]; intros Hnd.
      - simpl. destruct (decide (claims t ∈ [])) as [Hx|]; [by apply elem_of_nil in Hx|done].
      - apply NoDup_cons in Hnd as [Hb Hnd]. simpl.
        rewrite (IHb Hnd). rewrite filter_cons.
        destruct (decide (claims t = b)) as [Heq|Hne];
          destruct (decide (claims t ∈ b :: bs')) as [Hx|Hx];
          destruct (decide (claims t ∈ bs')) as [Hy|Hy].
        + exfalso. apply Hb. by rewrite <- Heq.
        + simpl. by rewrite <- app_assoc.
        + exfalso. apply Hx. by right.
        + exfalso. apply Hx. rewrite Heq. by left.
        + rewrite !app_assoc. apply Permutation_app_tail, Permutation_app_comm.
        + apply elem_of_cons in Hx as [?|?]; done.
        + exfalso. apply Hx. by right.
        + done. }
    rewrite (Hstep bs Hnd). rewrite decide_True by (apply Hin; by left).
    simpl. apply Permutation_app_head, IH. intros t' Ht'. apply Hin. by right.
Qed.

Lemma dynamic_exact_cover (policy : KernelDispatchConfig) (claims : Z → Z)
    (num_items grid : Z) (queue : DrainQueue) :
  0 < tile_size_of policy → 1 <= num_items →
  fill_size queue = num_items →
  fair_claims claims grid (ceil_div num_items (tile_size_of policy)) →
  exact_cover (dynamic_positions policy claims num_items queue) grid num_items.
Proof.
  intros Hts Hn Hfill [Hrange Hfair].
  pose proof (ceil_div_bounds num_items (tile_size_of policy) Hts) as Hnt.
  unfold dynamic_positions, claimed_tiles. rewrite Hfill.
  split.
  - rewrite (concat_claimed claims (tile_positions (tile_size_of policy) num_items)).
    + rewrite tile_positions_concat by lia.
      replace (Z.min (0 * tile_size_of policy) num_items) with 0 by lia.
      rewrite Z.add_0_l.
      replace (Z.min (ceil_div num_items (tile_size_of policy) * tile_size_of policy)
                 num_items - 0) with num_items by lia.
      done.
    + apply NoDup_seqZ.
    + intros t Ht%elem_of_seqZ. apply elem_of_seqZ.
      pose proof (Hrange t ltac:(lia)). lia.
  - intros b Hb. destruct (Hfair b Hb) as (t & Ht & Hbt).
    apply (concat_nonempty _ t).
    + apply list_elem_of_filter. split; [done|]. apply elem_of_seqZ. lia.
    + unfold tile_positions. apply seqZ_nonempty. nia.
Qed.

(** On a device that holds at least one block, the even-share plan has at
    least one group and at most one group per tile. *)
Lemma even_share_grid_size_within_tiles (rcfg : KernelDispatchConfig)
    (num_items sm_count sm_occupancy : Z) :
  0 < tile_size_of rcfg → 1 <= num_items →
  1 <= sm_count → 1 <= sm_occupancy →
  sm_occupancy * sm_count * sm_occupancy <= INT_MAX →
  es_num_items (planned_even_share rcfg num_items sm_count sm_occupancy) = num_items
  ∧ 1 <= grid_size (planned_even_share rcfg num_items sm_count sm_occupancy)
      <= ceil_div num_items (tile_size_of rcfg).
Proof.
  intros Hts Hn Hc Ho Hmax. unfold planned_even_share, GridEvenShare_init, INT_MAX in *.
  simpl. split; [done|].
  unfold int_mul.
  rewrite (int_wrap_id (sm_occupancy * sm_count))
    by (unfold in_int_range, INT_MIN, INT_MAX; nia).
  rewrite int_wrap_id by (unfold in_int_range, INT_MIN, INT_MAX; nia).
  pose proof (ceil_div_bounds num_items (tile_size_of rcfg) Hts). nia.
Qed.

Section DeviceFacts.
Context {T : Type}.

Implicit Types (d : Device T) (l : Launch T (list T) Z).

Lemma run_kernels_cons sizeof_T policy claims l (ls : list (Launch T (list T) Z)) d :
  run_kernels sizeof_T policy claims (l :: ls) d
  = exec_kernel sizeof_T policy claims l d ≫= run_kernels sizeof_T policy claims ls.
Proof.
  unfold run_kernels. simpl.
  destruct (exec_kernel _ _ _ _ _); [done|]. simpl. apply foldl_option_None.
Qed.

(** The scratch cells and queue descriptors the kernels of the two-stage
    branch leave behind, when the blocks of the partial-reduction grid are
    handed every position exactly once. *)
Lemma run_kernels_two_stage `{!Assoc (=) reduction_op, !Comm (=) reduction_op}
    (sizeof_T : Z) (rcfg scfg : KernelDispatchConfig) (claims : Z → Z)
    (stream : cudaStream_t) (d_in : list T) (d_out : Z) (num_items grid : Z)
    (even_share : GridEvenShare) (allocations : list ptr) d0 :
  sizeof_T ≠ 0 →
  1 <= num_items <= Z.of_nat (length d_in) →
  exact_cover
    (match grid_mapping rcfg with
     | GRID_MAPPING_EVEN_SHARE => even_share_positions rcfg num_items even_share
     | GRID_MAPPING_DYNAMIC =>
         dynamic_positions rcfg claims num_items
           {| fill_size := num_items; next_tile := 0 |}
     end) grid num_items →
  ∃ d v,
    run_kernels sizeof_T rcfg claims
      (two_stage_launches FillAndResetDrainKernel_ptr ReduceTilesKernel_ptr
         SingleTileKernel_ptr rcfg scfg stream d_in d_out num_items reduction_op
         grid even_share allocations) d0 = Some d
    ∧ fold1 reduction_op (take (Z.to_nat num_items) d_in) = Some v
    ∧ output (memory d) = <[d_out := v]> (output (memory d0))
    ∧ (∀ a, (∀ b, 0 <= b < grid → a ≠ elem_addr sizeof_T (allocations !!! 0%nat) b) →
            scratch (memory d) !! a = scratch (memory d0) !! a)
    ∧ (∀ q, q ≠ allocations !!! 1%nat → queues d !! q = queues d0 !! q)
    ∧ (grid_mapping rcfg = GRID_MAPPING_EVEN_SHARE → queues d = queues d0).
Proof.
  intros Hsz Hn Hcov.
  assert (Hgrid : 1 <= grid) by (apply (exact_cover_grid_pos _ _ _ Hcov); lia).
  destruct d_in as [|x0 rest] eqn:Hd; [simpl in Hn; lia|]. rewrite <- Hd in *.
  set (consumed := match grid_mapping rcfg with
                   | GRID_MAPPING_EVEN_SHARE =>
                       even_share_positions rcfg num_items even_share
                   | GRID_MAPPING_DYNAMIC =>
                       dynamic_positions rcfg claims num_items
                         {| fill_size := num_items; next_tile := 0 |}
                   end) in *.
  destruct (exact_cover_aggregates (reduction_op := reduction_op) consumed d_in
              grid num_items x0 ltac:(lia) Hcov) as [Hall Hfold].
  set (aggregate :=
         λ b, default x0 (fold1 reduction_op (item_at x0 d_in <$> consumed b))) in *.
  destruct (exec_blocks_reduce_tiles sizeof_T consumed d_in
              (allocations !!! 0%nat) num_items grid even_share
              {| d_counters := allocations !!! 1%nat |} reduction_op
              (block_threads rcfg) 0 stream aggregate (seqZ 0 grid) (memory d0)
              Hsz (NoDup_seqZ 0 grid) Hall)
    as (m1 & Hrun1 & Hout1 & Hcells & Hframe).
  destruct (exec_launch_aggregate sizeof_T (λ _, []) scfg stream
              (allocations !!! 0%nat) d_out grid reduction_op aggregate m1 Hgrid)
    as (v & Hv & Hrun2).
  { intros b Hb. apply Hcells. apply elem_of_seqZ. lia. }
  assert (Hpartial :
    exec_launch sizeof_T consumed
      (reduce_tiles_kernel_launch ReduceTilesKernel_ptr grid rcfg stream d_in
         (allocations !!! 0%nat) num_items even_share
         {| d_counters := allocations !!! 1%nat |} reduction_op) (memory d0) = Some m1)
    by exact Hrun1.
  assert (Hframe' : ∀ a,
            (∀ b, 0 <= b < grid → a ≠ elem_addr sizeof_T (allocations !!! 0%nat) b) →
            scratch (write_output d_out 0 v m1) !! a = scratch (memory d0) !! a).
  { intros a Ha. simpl. apply Hframe. intros b Hb%elem_of_seqZ. apply Ha. lia. }
  assert (Hout : output (write_output d_out 0 v m1) = <[d_out := v]> (output (memory d0)))
    by (simpl; by rewrite Z.add_0_r, Hout1).
  rewrite two_stage_launches_sequence.
  unfold consumed in Hpartial. clear Hall Hcells Hrun1.
  destruct (grid_mapping rcfg) eqn:Hmap.
  - rewrite decide_False by done.
    eexists _, v. split; [|split; [by rewrite <- Hfold|]].
    + rewrite run_kernels_cons. unfold exec_kernel at 1. simpl kernel. simpl args.
      cbv iota beta. rewrite Hmap, Hpartial. cbn [mbind option_bind].
      rewrite run_kernels_cons. unfold exec_kernel at 1. simpl kernel. simpl args.
      cbv iota beta. simpl memory. simpl queues. rewrite Hrun2. reflexivity.
    + simpl. split; [done|]. split; [done|]. split; done.
  - rewrite decide_True by done.
    eexists _, v. split; [|split; [by rewrite <- Hfold|]].
    + rewrite run_kernels_cons. unfold exec_kernel at 1. simpl kernel. simpl args.
      cbv iota beta. cbn [mbind option_bind].
      rewrite run_kernels_cons. unfold exec_kernel at 1. simpl kernel. simpl args.
      cbv iota beta. rewrite Hmap. simpl queues. rewrite lookup_insert_eq.
      cbn [mbind option_bind]. simpl next_tile. rewrite decide_True by done.
      simpl memory. simpl fill_size. rewrite Hpartial. cbn [mbind option_bind].
      rewrite run_kernels_cons. unfold exec_kernel at 1. simpl kernel. simpl args.
      cbv iota beta. simpl memory. simpl queues. rewrite Hrun2. reflexivity.
    + simpl. split; [done|]. split; [done|]. split; [|done].
      intros q Hq. by rewrite !lookup_insert_ne.
Qed.

End DeviceFacts.

Lemma planned_allocations_eq (pf : Platform) (d_temp_storage : ptr) (grid : Z) :
  planned_allocations pf d_temp_storage grid
  = [ d_temp_storage + 0;
      d_temp_storage
      + (0 + align_up (ALIGN_BYTES pf) (size_t_mul (to_size_t grid) (sizeof_T pf))) ].
Proof. reflexivity. Qed.

Lemma two_stage_partial_grid {T InputIterator OutputIterator : Type}
    (rcfg scfg : KernelDispatchConfig) (stream : cudaStream_t)
    (d_in : InputIterator) (d_out : OutputIterator) (num_items : Z)
    (reduction_op : T → T → T) (grid : Z) (es : GridEvenShare)
    (allocations : list ptr) (l : Launch T InputIterator OutputIterator) :
  l ∈ two_stage_launches FillAndResetDrainKernel_ptr ReduceTilesKernel_ptr
        SingleTileKernel_ptr rcfg scfg stream d_in d_out num_items reduction_op
        grid es allocations →
  kernel l = ReduceTilesKernel_ptr → gridDim l = grid.
Proof.
  rewrite two_stage_launches_sequence.
  destruct (decide _); rewrite !elem_of_cons, elem_of_nil;
    intros H Hk; destruct_or!; subst; done.
Qed.

Lemma round_robin_fair (grid total_tiles : Z) :
  1 <= grid <= total_tiles → fair_claims (λ t, t `mod` grid) grid total_tiles.
Proof.
  intros Hg. split.
  - intros t _. apply Z.mod_pos_bound. lia.
  - intros b Hb. exists b. split; [lia|]. apply Z.mod_small. lia.
Qed.

(** The grid of the two-stage branch on a device that holds at least one
    block: at least one group, at most one group per tile. *)
Lemma planned_grid_size_within_tiles (rcfg : KernelDispatchConfig)
    (num_items sm_count sm_occupancy : Z) :
  0 < tile_size_of rcfg → tile_size_of rcfg < num_items →
  num_items + tile_size_of rcfg <= INT_MAX →
  1 <= sm_count → 1 <= sm_occupancy →
  sm_occupancy * sm_count * sm_occupancy <= INT_MAX →
  1 <= planned_grid_size rcfg num_items sm_count sm_occupancy
    <= ceil_div num_items (tile_size_of rcfg).
Proof.
  intros Hts Hn Hmax Hc Ho Hocc. unfold planned_grid_size.
  destruct (grid_mapping rcfg).
  - unfold reduce_tiles_grid_size.
    apply even_share_grid_size_within_tiles; (done || lia).
  - apply dynamic_grid_size_within_tiles; try (done || lia);
      unfold in_int_range, INT_MIN, INT_MAX in *; nia.
Qed.

(** A partial-reduction grid without blocks leaves the combine kernel
    nothing to fold. *)
Lemma run_kernels_no_block {T : Type} (sizeof_T : Z) (policy rcfg scfg : KernelDispatchConfig)
    (claims : Z → Z) (stream : cudaStream_t) (queue : GridQueue) (num_items : Z)
    (d_in : list T) (p : ptr) (d_out : Z) (even_share : GridEvenShare)
    (reduction_op : T → T → T) (d0 : Device T) :
  run_kernels sizeof_T policy claims
    [ prepare_drain_kernel_launch FillAndResetDrainKernel_ptr stream queue num_items;
      reduce_tiles_kernel_launch ReduceTilesKernel_ptr 0 rcfg stream d_in p num_items
        even_share queue reduction_op;
      aggregate_kernel_launch SingleTileKernel_ptr scfg stream p d_out 0 reduction_op ]
    d0 = None.
Proof.
  rewrite run_kernels_cons. unfold exec_kernel at 1. simpl kernel. simpl args.
  cbv iota beta. cbn [mbind option_bind].
  rewrite run_kernels_cons. unfold exec_kernel at 1. simpl kernel. simpl args.
  cbv iota beta. simpl queues. rewrite lookup_insert_eq.
  destruct (grid_mapping policy); reflexivity.
Qed.

Lemma run_launches_no_block {T : Type} (sizeof_T : Z) (rcfg scfg : KernelDispatchConfig)
    (consumed : Z → list Z) (stream : cudaStream_t) (queue : GridQueue) (num_items : Z)
    (d_in : list T) (p : ptr) (d_out : Z) (even_share : GridEvenShare)
    (reduction_op : T → T → T) (m0 : DeviceMemory T) :
  run_launches sizeof_T consumed
    [ prepare_drain_kernel_launch FillAndResetDrainKernel_ptr stream queue num_items;
      reduce_tiles_kernel_launch ReduceTilesKernel_ptr 0 rcfg stream d_in p num_items
        even_share queue reduction_op;
      aggregate_kernel_launch SingleTileKernel_ptr scfg stream p d_out 0 reduction_op ]
    m0 = None.
Proof. reflexivity. Qed.

(** C1, a counterexample to the claim as stated.  [Sum] over 1025 items
    on a device of compute capability 2.0, with a scratch buffer.  The
    occupancy query succeeds and answers 0 (no block of the partial-reduction
    kernel can be resident), so under DYNAMIC mapping the grid size is
    [min(num_tiles, 0) = 0].  The call returns [cudaSuccess] and has
    submitted the reset, a partial-reduction grid of no block and the combine
    kernel over no partial: no kernel has an aggregate to store, and the run
    has no defined result, whatever the order of the claims and whatever the
    device held before. *)
Lemma Dispatch_success_without_result :
  let result :=
    Sum zero_occupancy_platform 4096 1048576 (replicate 1025 1) 0 1025 7 false in
  fst result = cudaSuccess
  ∧ kernel <$> launched (snd result)
    = [FillAndResetDrainKernel_ptr; ReduceTilesKernel_ptr; SingleTileKernel_ptr]
  ∧ gridDim <$> launched (snd result) = [1; 0; 1]
  ∧ (∀ (claims : Z → Z) (d0 : Device Z),
       run_kernels 4 Policy200.ReduceTilesPolicy4B claims (launched (snd result)) d0
       = None)
  ∧ (∀ (consumed : Z → list Z) (m0 : DeviceMemory Z),
       run_launches 4 consumed (launched (snd result)) m0 = None).
Proof.
  cbv zeta.
  assert (Hl : ∃ q p s1 s2 es,
    launched (snd (Sum zero_occupancy_platform 4096 1048576 (replicate 1025 1) 0
                     1025 7 false))
    = [ prepare_drain_kernel_launch FillAndResetDrainKernel_ptr 7 q 1025;
        reduce_tiles_kernel_launch ReduceTilesKernel_ptr 0 s1 7 (replicate 1025 1) p 1025
          es q cub_Sum;
        aggregate_kernel_launch SingleTileKernel_ptr s2 7 p 0 0 cub_Sum ]).
  { eexists _, _, _, _, _. reflexivity. }
  destruct Hl as (q & p & s1 & s2 & es & Hl).
  split; [reflexivity|]. rewrite Hl. split; [done|]. split; [done|]. split.
  - intros claims d0. apply run_kernels_no_block.
  - intros consumed m0. apply run_launches_no_block.
Qed.

(** C1, as amended.  Take an associative and commutative operator, an input of at
    least [num_items >= 1] items, and a call with a scratch buffer that
    returns [cudaSuccess], with the kernels of this file, the
    partial-reduction kernel being the instance at the policy of
    [reduce_tiles_config].  Assume that the device holds at least one block
    (every successful occupancy query reports at least one multiprocessor and
    at least one resident block, and occupancy times the subscription factor
    fits an [int]), that the tiles are not empty and that
    [num_items + tile_size] fits an [int].  The positions a block reduces are
    those its launch arguments give it: its run of the even-share plan, or
    the tiles it claims from the drain queue that the reset kernel filled;
    under DYNAMIC mapping the order of the claims is any in which every group
    of the grid claims a tile.  Then the kernels the call submitted all went
    to one stream and, run in the order of their submission from any state of
    the device, all have a defined result; afterwards the output range holds
    the fold of the first [num_items] items at [d_out] and is as before
    elsewhere; every scratch cell and queue descriptor they changed lies in
    the caller's buffer, the cells before the descriptor.  The grid has at
    least one and at most [num_tiles] groups, so that such an order of claims
    exists.  This holds on the single-stage and on the two-stage path and
    under either mapping.  In particular [Sum] over [1; 2; 3; 4; 5] is
    single-stage on every device and leaves 15. *)
Theorem Dispatch_computes_fold :
  (∀ (T : Type) (pf : Platform) (d_temp_storage : ptr) (bytes : Z)
     (d_in : list T) (d_out : Z) (num_items : Z) (reduction_op : T → T → T)
     (stream : cudaStream_t) (debug : bool) (sm_version : Z) (rk : KernelPtr)
     (rcfg scfg : KernelDispatchConfig) (claims : Z → Z)
     (st : HostState T (list T) Z) (d0 : Device T),
     Assoc (=) reduction_op → Comm (=) reduction_op →
     1 <= num_items <= Z.of_nat (length d_in) →
     0 < tile_size_of rcfg → num_items + tile_size_of rcfg <= INT_MAX →
     0 < sizeof_T pf < 2 ^ 32 → 0 < ALIGN_BYTES pf →
     d_temp_storage ≠ NULL →
     rk = NULL_kernel ∨ rk = ReduceTilesKernel_ptr →
     (∀ sm_count sm_occupancy,
        queries_succeed pf sm_version rk rcfg sm_count sm_occupancy →
        1 <= sm_count ∧ 1 <= sm_occupancy
        ∧ sm_occupancy * sm_count * sm_occupancy <= INT_MAX) →
     Dispatch pf d_temp_storage bytes d_in d_out num_items reduction_op stream
       debug sm_version FillAndResetDrainKernel_ptr rk SingleTileKernel_ptr
       SingleTileKernel_ptr rcfg scfg = (cudaSuccess, st) →
     (grid_mapping rcfg = GRID_MAPPING_DYNAMIC →
      ∀ partial, partial ∈ launched st → kernel partial = ReduceTilesKernel_ptr →
                 fair_claims claims (gridDim partial)
                   (ceil_div num_items (tile_size_of rcfg))) →
     (∃ s, Forall (λ l, stream_of l = s) (launched st))
     ∧ (∃ d v,
          run_kernels (sizeof_T pf) rcfg claims (launched st) d0 = Some d
          ∧ fold1 reduction_op (take (Z.to_nat num_items) d_in) = Some v
          ∧ output (memory d) = <[d_out := v]> (output (memory d0))
          ∧ (∀ a, scratch (memory d) !! a ≠ scratch (memory d0) !! a →
                  d_temp_storage <= a
                  ∧ a + sizeof_T pf <= d_temp_storage + bytes
                  ∧ ∀ q, queues d !! q ≠ queues d0 !! q → a + sizeof_T pf <= q)
          ∧ (∀ q, queues d !! q ≠ queues d0 !! q →
                  d_temp_storage <= q
                  ∧ q + GridQueue_AllocationSize <= d_temp_storage + bytes))
     ∧ (∀ partial, partial ∈ launched st → kernel partial = ReduceTilesKernel_ptr →
          1 <= gridDim partial <= ceil_div num_items (tile_size_of rcfg)
          ∧ fair_claims (λ t, t `mod` gridDim partial) (gridDim partial)
              (ceil_div num_items (tile_size_of rcfg))))
  ∧ (∀ (pf : Platform) (d_temp_storage : ptr) (bytes : Z) (d_out : Z)
       (stream : cudaStream_t) (debug : bool) (policy : KernelDispatchConfig)
       (claims : Z → Z) (st : HostState Z (list Z) Z) (d0 : Device Z),
       d_temp_storage ≠ NULL →
       Sum pf d_temp_storage bytes [1; 2; 3; 4; 5] d_out 5 stream debug
         = (cudaSuccess, st) →
       (kernel <$> launched st = [SingleTileKernel_ptr])
       ∧ ∃ d, run_kernels (sizeof_T pf) policy claims (launched st) d0 = Some d
              ∧ output (memory d) !! d_out = Some 15).
Proof.
  split.
  - intros T pf d_temp_storage bytes d_in d_out num_items reduction_op stream debug
      sm_version rk rcfg scfg claims st d0 Hassoc Hcomm Hn Hts Hmax Hsz Halign Hp Hrk
      Hocc Hcall Hfair.
    destruct (Dispatch_success_inv _ _ _ _ _ _ _ _ _ _ _ _ _ _ _ _ _ Hp Hcall)
      as [[Hc ->]|(Hk & Hlt & c & o & Hq & Hbytes & ->)].
    + split; [exists default_stream; by repeat constructor|]. split.
      * simpl launched. rewrite run_kernels_cons.
        destruct (exec_launch_single_tile (sizeof_T pf) (λ _, []) scfg d_in d_out
                    num_items reduction_op (memory d0) Hn) as (v & Hv & Hrun).
        unfold exec_kernel. simpl kernel. simpl args. cbv iota beta.
        rewrite Hrun. cbn [mbind option_bind].
        eexists _, v. split; [reflexivity|]. split; [done|].
        simpl. rewrite Z.add_0_r. split; [done|]. split; intros ? Hne; by destruct Hne.
      * intros partial ->%list_elem_of_singleton Hkp. discriminate Hkp.
    + destruct Hrk as [->| ->]; [done|].
      destruct (Hocc c o Hq) as (Hc & Ho & Hoc).
      set (grid := planned_grid_size rcfg num_items c o) in *.
      set (es := planned_even_share rcfg num_items c o) in *.
      set (allocations := planned_allocations pf d_temp_storage grid) in *.
      simpl launched in *.
      pose proof (planned_grid_size_within_tiles rcfg num_items c o Hts Hlt Hmax
                    Hc Ho Hoc) as Hgrid.
      fold grid in Hgrid.
      pose proof (ceil_div_bounds num_items (tile_size_of rcfg) Hts) as Hnt.
      assert (Hpartial_in :
        reduce_tiles_kernel_launch ReduceTilesKernel_ptr grid rcfg stream d_in
          (allocations !!! 0%nat) num_items es
          {| d_counters := allocations !!! 1%nat |} reduction_op
        ∈ two_stage_launches FillAndResetDrainKernel_ptr ReduceTilesKernel_ptr
            SingleTileKernel_ptr rcfg scfg stream d_in d_out num_items reduction_op
            grid es allocations).
      { rewrite two_stage_launches_sequence.
        destruct (decide _); rewrite !elem_of_cons; by auto. }
      split; [exists stream; apply two_stage_launches_stream|]. split.
      * assert (Hcov :
          exact_cover
            (match grid_mapping rcfg with
             | GRID_MAPPING_EVEN_SHARE => even_share_positions rcfg num_items es
             | GRID_MAPPING_DYNAMIC =>
                 dynamic_positions rcfg claims num_items
                   {| fill_size := num_items; next_tile := 0 |}
             end) grid num_items).
        { destruct (grid_mapping rcfg) eqn:Hmap.
          - destruct (even_share_grid_size_within_tiles rcfg num_items c o)
              as [Hitems Hes]; [done|lia|done..|].
            fold es in Hitems, Hes.
            assert (grid = grid_size es) as Hg
              by (unfold grid, planned_grid_size; by rewrite Hmap).
            rewrite Hg. apply even_share_exact_cover; [done|done|lia|].
            by rewrite Hitems.
          - apply dynamic_exact_cover; [done|lia|done|].
            by apply (Hfair eq_refl _ Hpartial_in). }
        destruct (run_kernels_two_stage (reduction_op := reduction_op) (sizeof_T pf)
                    rcfg scfg claims stream d_in d_out num_items grid es allocations
                    d0 ltac:(lia) Hn Hcov)
          as (d & v & Hrun & Hv & Hout & Hscratch & Hqueues & _).
        exists d, v. split; [done|]. split; [done|]. split; [done|].
        assert (Hsize : size_t_mul (to_size_t grid) (sizeof_T pf) = grid * sizeof_T pf).
        { unfold size_t_mul, INT_MAX in *. rewrite (to_size_t_id grid) by nia.
          apply to_size_t_id. nia. }
        pose proof (align_up_ge (ALIGN_BYTES pf) (grid * sizeof_T pf) Halign) as Hal0.
        pose proof (align_up_ge (ALIGN_BYTES pf) GridQueue_AllocationSize Halign)
          as Hal1.
        rewrite required_bytes_eq, Hsize in Hbytes.
        assert (Hplan : planned_allocations pf d_temp_storage grid
                        = [ d_temp_storage + 0;
                            d_temp_storage
                            + (0 + align_up (ALIGN_BYTES pf) (grid * sizeof_T pf)) ])
          by (by rewrite planned_allocations_eq, Hsize).
        unfold allocations in Hscratch, Hqueues. rewrite Hplan in Hscratch, Hqueues.
        simpl in Hscratch, Hqueues.
        assert (Hcell : ∀ a, scratch (memory d) !! a ≠ scratch (memory d0) !! a →
                  ∃ b, 0 <= b < grid
                       ∧ a = elem_addr (sizeof_T pf) (d_temp_storage + 0) b).
        { intros a Hne.
          destruct (decide (Exists (λ b, a = elem_addr (sizeof_T pf)
                                             (d_temp_storage + 0) b)
                              (seqZ 0 grid))) as [Hex|Hnex].
          - apply Exists_exists in Hex as (b & Hb%elem_of_seqZ & ->).
            exists b. split; [lia|done].
          - exfalso. apply Hne, Hscratch. intros b Hb Heq. apply Hnex.
            apply Exists_exists. exists b. split; [apply elem_of_seqZ; lia|done]. }
        assert (Hqueue : ∀ q, queues d !! q ≠ queues d0 !! q →
                  q = d_temp_storage
                      + (0 + align_up (ALIGN_BYTES pf) (grid * sizeof_T pf))).
        { intros q Hne.
          destruct (decide (q = d_temp_storage
                                + (0 + align_up (ALIGN_BYTES pf)
                                         (grid * sizeof_T pf)))) as [|Hq']; [done|].
          exfalso. by apply Hne, Hqueues. }
        split.
        -- intros a Hne. destruct (Hcell a Hne) as (b & Hb & ->).
           assert (b * sizeof_T pf + sizeof_T pf <= grid * sizeof_T pf) by nia.
           unfold elem_addr, GridQueue_AllocationSize, sizeof_int in *.
           split; [nia|]. split; [lia|].
           intros q ->%Hqueue. lia.
        -- intros q ->%Hqueue.
           unfold GridQueue_AllocationSize, sizeof_int in *. nia.
      * intros partial Hin Hkp.
        rewrite (two_stage_partial_grid _ _ _ _ _ _ _ _ _ _ _ Hin Hkp).
        split; [done|]. by apply round_robin_fair.
  - intros pf d_temp_storage bytes d_out stream debug policy claims st d0 Hp Hcall.
    unfold Sum in Hcall. rewrite Dispatch_tuned_eq in Hcall.
    destruct (PtxVersion pf) as [e v] eqn:Hptx.
    destruct e; try by simplify_eq.
    pose proof (InitDispatchConfigs_tile_size v (sizeof_T pf)) as Hts.
    destruct (Dispatch_success_inv _ _ _ _ _ _ _ _ _ _ _ _ _ _ _ _ _ Hp Hcall)
      as [[Hc ->]|(_ & Hn & _)]; [|lia].
    split; [done|].
    simpl launched. rewrite run_kernels_cons.
    destruct (exec_launch_single_tile (sizeof_T pf) (λ _, [])
                (snd (InitDispatchConfigs v (sizeof_T pf))) [1; 2; 3; 4; 5] d_out 5
                cub_Sum (memory d0) ltac:(simpl; lia)) as (a & Ha & Hrun).
    unfold exec_kernel. simpl kernel. simpl args. cbv iota beta.
    rewrite Hrun. cbn [mbind option_bind].
    eexists. split; [reflexivity|].
    simpl. rewrite Z.add_0_r, lookup_insert_eq.
    vm_compute in Ha. by simplify_eq.
Qed.

Lemma small_consumed_exact_cover : exact_cover small_consumed 2 5.
Proof.
  split.
  - change ([0; 1; 4; 2; 3] ≡ₚ [0; 1; 2; 3; 4]).
    do 2 apply perm_skip. apply (Permutation_cons_append [2; 3] 4).
  - intros b _. unfold small_consumed. by destruct (decide _).
Qed.

Lemma Dispatch_computes_fold_witness :
  ∃ d v,
    run_kernels 4 small_dynamic_policy (λ t, t)
      (launched (snd (Dispatch example_platform 4096 1024 [1; 2; 3; 4; 5] 0 5 Z.add
                        7 true 350 FillAndResetDrainKernel_ptr ReduceTilesKernel_ptr
                        SingleTileKernel_ptr SingleTileKernel_ptr
                        small_dynamic_policy Policy350.SingleTilePolicy)))
      empty_device = Some d
    ∧ fold1 Z.add (take (Z.to_nat 5) [1; 2; 3; 4; 5]) = Some v
    ∧ output (memory d) = <[0 := v]> (output (memory empty_device)).
Proof.
  destruct (proj1 Dispatch_computes_fold Z example_platform 4096 1024 [1; 2; 3; 4; 5]
              0 5 Z.add 7 true 350 ReduceTilesKernel_ptr small_dynamic_policy
              Policy350.SingleTilePolicy (λ t, t)
              (snd (Dispatch example_platform 4096 1024 [1; 2; 3; 4; 5] 0 5 Z.add
                      7 true 350 FillAndResetDrainKernel_ptr ReduceTilesKernel_ptr
                      SingleTileKernel_ptr SingleTileKernel_ptr
                      small_dynamic_policy Policy350.SingleTilePolicy))
              empty_device Z.add_assoc Z.add_comm)
    as (_ & (d & v & Hrun & Hv & Hout & _) & _).
  - simpl. lia.
  - by vm_compute.
  - by vm_compute.
  - simpl. lia.
  - simpl. lia.
  - discriminate.
  - by right.
  - intros c o (dev & Hdev & Hsm & Hocc). simpl in *. simplify_eq. by vm_compute.
  - reflexivity.
  - intros _ partial Hin Hk.
    assert (gridDim partial = 3) as ->.
    { revert Hk. revert partial Hin.
      apply (Forall_forall (λ l, kernel l = ReduceTilesKernel_ptr → gridDim l = 3)).
      repeat constructor; discriminate. }
    split.
    + intros t Ht. change (ceil_div 5 (tile_size_of small_dynamic_policy)) with 3 in Ht.
      lia.
    + intros b Hb. exists b.
      change (ceil_div 5 (tile_size_of small_dynamic_policy)) with 3. lia.
  - exists d, v. split; [exact Hrun|]. split; [exact Hv|exact Hout].
Defined.

(** A run under EVEN_SHARE mapping that can be followed by hand: five items
    in three tiles of two, on the two groups of the small device.  Group 0
    reduces tile 0 and stores 3 in the first cell of the partials, group 1
    reduces tiles 1 and 2 and stores 12 in the second, and the combine kernel
    leaves 15. *)
Example even_share_run :
  (d ← run_kernels 4 small_even_share_policy (λ t, t)
         (launched (snd (Dispatch small_platform 4096 1024 [1; 2; 3; 4; 5] 0 5 Z.add
                           7 true 350 FillAndResetDrainKernel_ptr ReduceTilesKernel_ptr
                           SingleTileKernel_ptr SingleTileKernel_ptr
                           small_even_share_policy Policy350.SingleTilePolicy)))
         empty_device;
   Some (map_to_list (scratch (memory d)), map_to_list (output (memory d))))
  = Some ([(4100, 12); (4096, 3)], [(0, 15)]).
Proof. by vm_compute. Qed.

(** Under DYNAMIC mapping a group that claims no tile has no aggregate to
    store: when group 0 claims the three tiles of the same call, on the three
    groups the example device is given, the run has no defined result. *)
Example dynamic_run_idle_group :
  run_kernels 4 small_dynamic_policy (λ _, 0)
    (launched (snd (Dispatch example_platform 4096 1024 [1; 2; 3; 4; 5] 0 5 Z.add
                      7 true 350 FillAndResetDrainKernel_ptr ReduceTilesKernel_ptr
                      SingleTileKernel_ptr SingleTileKernel_ptr
                      small_dynamic_policy Policy350.SingleTilePolicy)))
    empty_device
  = None.
Proof. by vm_compute. Qed.

(** ** The partials array *)

Section Footprints.
Context {T : Type}.

Implicit Types (m : DeviceMemory T) (l : Launch T (list T) Z).

(** A block changes no scratch cell outside the cells it is said to write. *)
Lemma exec_block_writes_frame sizeof_T consumed l (b : Z) m m' (a : Z) :
  exec_block sizeof_T consumed l b m = Some m' →
  a ∉ block_scratch_writes sizeof_T l b →
  scratch m' !! a = scratch m !! a.
Proof.
  unfold exec_block, block_scratch_writes, ReduceTilesKernel, SingleTileKernel.
  destruct (kernel l), (args l); try done; intros Hrun Ha.
  - by simplify_eq.
  - destruct (ConsumeTiles _ _ _); simplify_eq/=.
    apply lookup_insert_ne. intros Heq. apply Ha. rewrite Heq. by left.
  - by destruct (ConsumeTiles _ _ _); simplify_eq/=.
  - by destruct (ConsumeTiles _ _ _); simplify_eq/=.
Qed.

(** A block whose result is defined found a value in every scratch cell it
    is said to read. *)
Lemma exec_block_reads_defined sizeof_T consumed l (b : Z) m m' (a : Z) :
  exec_block sizeof_T consumed l b m = Some m' →
  a ∈ block_scratch_reads sizeof_T l b →
  is_Some (scratch m !! a).
Proof.
  unfold exec_block, block_scratch_reads, SingleTileKernel, ConsumeTiles.
  destruct (kernel l), (args l); try (by intros _ ?%elem_of_nil).
  intros Hrun (i & -> & Hi)%list_elem_of_fmap.
  destruct (mapM _ _) as [items|] eqn:Hitems; [|done].
  assert (is_Some (mapM (read_scratch sizeof_T d_in m) (seqZ 0 num_items))) as Hsome
    by (by rewrite Hitems).
  apply mapM_is_Some in Hsome. rewrite Forall_forall in Hsome.
  by apply (Hsome i).
Qed.

(** A kernel that is not one of those writing the output range leaves it as
    it was. *)
Lemma exec_block_output_frame sizeof_T consumed l (b : Z) m m' :
  writes_output l = false →
  exec_block sizeof_T consumed l b m = Some m' →
  output m' = output m.
Proof.
  unfold writes_output, exec_block, ReduceTilesKernel.
  destruct (kernel l), (args l); try done; intros _ Hrun.
  - by simplify_eq.
  - by destruct (ConsumeTiles _ _ _); simplify_eq/=.
Qed.

Lemma exec_launch_output_frame sizeof_T consumed l m m' :
  writes_output l = false →
  exec_launch sizeof_T consumed l m = Some m' →
  output m' = output m.
Proof.
  intros Hl. unfold exec_launch. generalize (blocks_of l). intros bs. revert m.
  induction bs as [|b bs IH]; intros m.
  - unfold exec_blocks. simpl. by intros [= ->].
  - rewrite exec_blocks_cons.
    destruct (exec_block _ _ _ _ _) as [m1|] eqn:Hb; [|done].
    simpl. intros Hrun. rewrite (IH _ Hrun).
    by apply (exec_block_output_frame _ _ _ _ _ _ Hl Hb).
Qed.

End Footprints.

Section Partials.
Context {T : Type}.

Implicit Types (m : DeviceMemory T) (l : Launch T (list T) Z).

(** What a defined run of blocks of the partial-reduction kernel did: every
    block had an aggregate and stored it in its own cell. *)
Lemma exec_blocks_reduce_tiles_inv (sizeof_T : Z) (consumed : Z → list Z)
    (d_in : list T) (p : ptr) (n grid : Z)
    (es : GridEvenShare) (q : GridQueue) (reduction_op : T → T → T)
    (blockDim sh : Z) (stream : cudaStream_t) (bs : list Z) m m' :
  sizeof_T ≠ 0 → NoDup bs →
  exec_blocks sizeof_T consumed
    {| kernel := ReduceTilesKernel_ptr; gridDim := grid; blockDim := blockDim;
       shared_bytes := sh; stream_of := stream;
       args := ReduceTiles_args d_in p n es q reduction_op |} bs m = Some m' →
  (∀ b, b ∈ bs →
     ∃ v, ConsumeTiles reduction_op (read_input d_in) (consumed b) = Some v
          ∧ scratch m' !! elem_addr sizeof_T p b = Some v)
  ∧ (∀ a, (∀ b, b ∈ bs → a ≠ elem_addr sizeof_T p b) →
          scratch m' !! a = scratch m !! a)
  ∧ output m' = output m.
Proof.
  intros Hsz Hnd. revert m.
  induction bs as [|b bs IH]; intros m.
  - unfold exec_blocks. simpl. intros [= ->].
    split; [|done]. intros b Hb. by apply elem_of_nil in Hb.
  - apply NoDup_cons in Hnd as [Hb Hnd].
    rewrite exec_blocks_cons. unfold exec_block at 1. simpl.
    unfold ReduceTilesKernel.
    destruct (ConsumeTiles _ _ (consumed b)) as [v|] eqn:Hv; [|done].
    simpl. intros Hrun. destruct (IH Hnd _ Hrun) as (Hcells & Hframe & Hout).
    split; [|split].
    + intros b' [->|Hb']%elem_of_cons; [|by apply Hcells].
      exists v. split; [done|]. rewrite Hframe.
      * simpl. by rewrite lookup_insert_eq.
      * intros b' Hb' Heq. apply elem_addr_inj in Heq; [|done]. by subst.
    + intros a Ha. rewrite Hframe.
      * simpl. rewrite lookup_insert_ne; [done|].
        intros Heq. apply (Ha b); [by left|done].
      * intros b' Hb'. apply Ha. by right.
    + by rewrite Hout.
Qed.

End Partials.

(** C10.  On the two-stage path, with the kernels of this file, the three
    uses of the partials array agree.  With [grid] the planned
    [reduce_tiles_grid_size]: the first scratch extent asked of the allocator
    is [grid * sizeof(T)] bytes; the partial-reduction kernel is launched with
    [grid] blocks on the sub-region [partials] it is given; block [b], run
    with whatever positions, stores its one aggregate in the cell
    [partials[b]] and changes nothing else; the combine kernel is one block
    that folds the cells [partials[0 .. grid - 1]] and stores the result at
    [d_out].  After the partial-reduction kernel every cell the combine
    kernel reads holds the aggregate of the one block of that index, no other
    block stores into it, and the combine kernel finds a value in each.
    Every such cell lies within the [grid * sizeof(T)] bytes from [partials],
    which lie in the caller's buffer and end before the descriptor of the
    drain queue, itself inside the buffer. *)
Theorem partials_array_agreement {T : Type}
    (pf : Platform) (d_temp_storage : ptr) (bytes : Z)
    (d_in : list T) (d_out : Z) (num_items : Z)
    (reduction_op : T → T → T) (stream : cudaStream_t) (debug : bool)
    (sm_version : Z) (pk sk : KernelPtr) (rcfg scfg : KernelDispatchConfig)
    (sm_count sm_occupancy : Z) :
  let grid := planned_grid_size rcfg num_items sm_count sm_occupancy in
  let sz := sizeof_T pf in
  let partials : ptr := planned_allocations pf d_temp_storage grid !!! 0%nat in
  let queue : ptr := planned_allocations pf d_temp_storage grid !!! 1%nat in
  let result :=
    Dispatch pf d_temp_storage bytes d_in d_out num_items reduction_op stream debug
      sm_version pk ReduceTilesKernel_ptr SingleTileKernel_ptr sk rcfg scfg in
  CUB_RUNTIME_ENABLED pf = true →
  tile_size_of rcfg < num_items →
  queries_succeed pf sm_version ReduceTilesKernel_ptr rcfg sm_count sm_occupancy →
  d_temp_storage ≠ NULL →
  required_bytes pf grid <= bytes →
  (debug = true → syncs_succeed pf stream 3) →
  0 <= grid → 0 < sz → grid * sz < 2 ^ 64 → 0 < ALIGN_BYTES pf →
  ∃ partial combine,
    [partial; combine] `suffix_of` launched (snd result)
    ∧ allocation_sizes_of pf grid !! 0%nat = Some (grid * sz)
    ∧ gridDim partial = grid
    ∧ blocks_of partial = seqZ 0 grid
    ∧ (∀ consumed b m,
         exec_block sz consumed partial b m
         = (v ← ConsumeTiles reduction_op (read_input d_in) (consumed b);
            Some {| scratch := <[elem_addr sz partials b := v]> (scratch m);
                    output := output m |}))
    ∧ blocks_of combine = [0]
    ∧ (∀ consumed m,
         exec_block sz consumed combine 0 m
         = (partial_values ← mapM (λ i, scratch m !! elem_addr sz partials i)
                               (seqZ 0 grid);
            v ← fold1 reduction_op partial_values;
            Some {| scratch := scratch m; output := <[d_out := v]> (output m) |}))
    ∧ (∀ consumed m0 m1,
         exec_launch sz consumed partial m0 = Some m1 →
         (∀ i, 0 <= i < grid →
            ∃ v, ConsumeTiles reduction_op (read_input d_in) (consumed i) = Some v
                 ∧ scratch m1 !! elem_addr sz partials i = Some v
                 ∧ ∀ b, 0 <= b < grid →
                        elem_addr sz partials b = elem_addr sz partials i → b = i)
         ∧ (∀ a, (∀ b, 0 <= b < grid → a ≠ elem_addr sz partials b) →
                 scratch m1 !! a = scratch m0 !! a)
         ∧ output m1 = output m0
         ∧ (1 <= grid → is_Some (exec_launch sz consumed combine m1)))
    ∧ (∀ i, 0 <= i < grid →
         d_temp_storage <= partials
         ∧ partials <= elem_addr sz partials i
         ∧ elem_addr sz partials i + sz <= partials + grid * sz
         ∧ partials + grid * sz <= queue
         ∧ queue + GridQueue_AllocationSize <= d_temp_storage + bytes)
    ∧ (∀ b, b ∈ blocks_of partial →
            block_scratch_writes sz partial b = [elem_addr sz partials b])
    ∧ block_scratch_reads sz combine 0 = elem_addr sz partials <$> seqZ 0 grid
    ∧ (∀ a, a ∈ block_scratch_reads sz combine 0 →
         ∃ b, (b ∈ blocks_of partial ∧ a ∈ block_scratch_writes sz partial b)
              ∧ ∀ b', b' ∈ blocks_of partial →
                      a ∈ block_scratch_writes sz partial b' → b' = b)
    ∧ (∀ b a, b ∈ blocks_of partial → a ∈ block_scratch_writes sz partial b →
              partials <= a ∧ a + sz <= partials + grid * sz)
    ∧ (∀ a, a ∈ block_scratch_reads sz combine 0 →
            partials <= a ∧ a + sz <= partials + grid * sz).
Proof.
  intros grid sz partials queue result Hen Hn Hq Hp Hbytes Hsync Hgrid Hsz Hfit Halign.
  subst sz.
  assert (Hsize : size_t_mul (to_size_t grid) (sizeof_T pf) = grid * (sizeof_T pf)).
  { unfold size_t_mul. rewrite (to_size_t_id grid) by nia. apply to_size_t_id. nia. }
  eexists (reduce_tiles_kernel_launch ReduceTilesKernel_ptr grid rcfg stream d_in
             partials num_items
             (planned_even_share rcfg num_items sm_count sm_occupancy)
             {| d_counters := queue |} reduction_op),
          (aggregate_kernel_launch SingleTileKernel_ptr scfg stream partials d_out
             grid reduction_op).
  assert (Hin : ∀ i, i ∈ seqZ 0 grid →
            partials <= elem_addr (sizeof_T pf) partials i
            ∧ elem_addr (sizeof_T pf) partials i + sizeof_T pf
              <= partials + grid * sizeof_T pf).
  { intros i Hi%elem_of_seqZ. unfold elem_addr. nia. }
  split; [|split; [|split; [|split; [|split; [|split; [|split; [|split; [|split;
    [|split; [|split; [|split; [|split]]]]]]]]]]]].
  - unfold result.
    assert (Hk : ReduceTilesKernel_ptr ≠ NULL_kernel) by discriminate.
    rewrite (Dispatch_two_stage_run _ _ _ _ _ _ _ _ _ _ _ _ _ _ _ _ _ _
               Hen Hk Hn Hq Hp Hbytes).
    unfold run_host. rewrite submit_ok.
    + simpl. rewrite two_stage_launches_sequence.
      destruct (decide _); [by eexists [_]|by exists []].
    + intros Hd i Hi. apply (Hsync Hd). simpl in Hi.
      rewrite two_stage_launches_sequence in Hi.
      destruct (decide _); simpl in Hi; lia.
  - unfold allocation_sizes_of. simpl. by rewrite Hsize.
  - done.
  - done.
  - done.
  - done.
  - intros consumed m. unfold exec_block, SingleTileKernel, ConsumeTiles. simpl.
    unfold read_scratch. destruct (mapM _ _) as [items|]; [|done]. simpl.
    destruct (fold1 _ _) as [v|]; [|done]. simpl. unfold write_output. simpl.
    by rewrite Z.add_0_r.
  - intros consumed m0 m1 Hrun.
    destruct (exec_blocks_reduce_tiles_inv (sizeof_T pf) consumed d_in partials num_items grid
                (planned_even_share rcfg num_items sm_count sm_occupancy)
                {| d_counters := queue |} reduction_op (block_threads rcfg) 0 stream
                (seqZ 0 grid) m0 m1 ltac:(lia) (NoDup_seqZ 0 grid) Hrun)
      as (Hcells & Hframe & Hout).
    split; [|split; [|split]].
    + intros i Hi. destruct (Hcells i) as (v & Hv & Hcell); [apply elem_of_seqZ; lia|].
      exists v. split; [done|]. split; [done|].
      intros b _ Heq. by apply (elem_addr_inj (sizeof_T pf) partials); [lia|].
    + intros a Ha. apply Hframe. intros b Hb%elem_of_seqZ. apply Ha. lia.
    + done.
    + intros Hg1.
      destruct (mapM_is_Some_2 (λ i, scratch m1 !! elem_addr (sizeof_T pf) partials i)
                  (seqZ 0 grid)) as [items Hitems].
      { apply Forall_forall. intros i Hi.
        destruct (Hcells i Hi) as (v & _ & Hc). exists v. exact Hc. }
      unfold exec_launch, blocks_of. simpl gridDim.
      change (seqZ 0 1) with [0]. rewrite exec_blocks_cons.
      unfold exec_block, SingleTileKernel, ConsumeTiles. simpl.
      unfold read_scratch. rewrite Hitems. simpl.
      destruct items as [|x items].
      { apply length_mapM in Hitems. rewrite length_seqZ in Hitems.
        simpl in Hitems. lia. }
      simpl. by eexists.
  - intros i Hi.
    pose proof (align_up_ge (ALIGN_BYTES pf) (grid * (sizeof_T pf)) Halign) as Hal0.
    pose proof (align_up_ge (ALIGN_BYTES pf) GridQueue_AllocationSize Halign) as Hal1.
    rewrite required_bytes_eq, Hsize in Hbytes.
    assert (partials = d_temp_storage + 0) as -> by done.
    assert (queue = d_temp_storage + (0 + align_up (ALIGN_BYTES pf) (grid * (sizeof_T pf))))
      as -> by (unfold queue; by rewrite planned_allocations_eq, Hsize).
    unfold elem_addr, GridQueue_AllocationSize, sizeof_int in *. nia.
  - done.
  - done.
  - intros a (i & -> & Hi)%list_elem_of_fmap. exists i. split.
    + split; [done|]. by left.
    + intros b' _ Hb'%list_elem_of_singleton.
      symmetry. apply (elem_addr_inj (sizeof_T pf) partials); [lia|done].
  - intros b a Hb ->%list_elem_of_singleton. by apply Hin.
  - intros a (i & -> & Hi)%list_elem_of_fmap. by apply Hin.
Qed.

Lemma partials_array_agreement_witness :
  ∃ partial combine,
    [partial; combine]
      `suffix_of` launched (snd (Dispatch small_platform 4096 1024 [1; 2; 3; 4; 5] 0
                                   5 Z.add 7 true 350 FillAndResetDrainKernel_ptr
                                   ReduceTilesKernel_ptr SingleTileKernel_ptr
                                   SingleTileKernel_ptr small_dynamic_policy
                                   Policy350.SingleTilePolicy))
    ∧ gridDim partial = 2
    ∧ block_scratch_reads 4 combine 0 = [4096; 4100].
Proof.
  assert (queries_succeed small_platform 350 ReduceTilesKernel_ptr
            small_dynamic_policy 2 1) as Hq by (by exists 0).
  destruct (partials_array_agreement small_platform 4096 1024 [1; 2; 3; 4; 5] 0 5
              Z.add 7 true 350 FillAndResetDrainKernel_ptr SingleTileKernel_ptr
              small_dynamic_policy Policy350.SingleTilePolicy 2 1
              eq_refl ltac:(by vm_compute) Hq ltac:(discriminate)
              ltac:(by vm_compute) (λ _ _ _, eq_refl)
              ltac:(by vm_compute) ltac:(by vm_compute) ltac:(by vm_compute)
              ltac:(by vm_compute))
    as (partial & combine & Hsuffix & _ & Hgrid & _ & _ & _ & _ & _ & _ & _
        & Hreads & _).
  exists partial, combine. split; [exact Hsuffix|]. split; [exact Hgrid|exact Hreads].
Defined.

(** * The entry points *)

(** ** Tile sizes and mappings of the tuning tables *)

Lemma InitDispatchConfigs_tile_size_max (ptx_version sizeof_T : Z) :
  tile_size_of (fst (InitDispatchConfigs ptx_version sizeof_T)) <= 10240.
Proof.
  unfold InitDispatchConfigs, Policy350.ReduceTilesPolicy, Policy200.ReduceTilesPolicy.
  repeat case_match; by vm_compute.
Qed.

Lemma InitDispatchConfigs_dynamic (ptx_version sizeof_T : Z) :
  grid_mapping (fst (InitDispatchConfigs ptx_version sizeof_T)) = GRID_MAPPING_DYNAMIC
  ↔ (350 <= ptx_version ∧ sizeof_T < 4)
    ∨ (200 <= ptx_version < 300 ∧ 4 <= sizeof_T).
Proof.
  unfold InitDispatchConfigs, Policy350.ReduceTilesPolicy, Policy200.ReduceTilesPolicy.
  repeat match goal with
         | |- context [?a <=? ?b] => destruct (Z.leb_spec a b)
         | |- context [?a <? ?b] => destruct (Z.ltb_spec a b)
         end;
    simpl; (split; [intros ?; first [discriminate | lia] | intros ?; first [reflexivity | exfalso; lia]]).
Qed.

Section EntryPoints.
Context {T InputIterator OutputIterator : Type}.

Variables (pf : Platform) (d_temp_storage : ptr) (bytes : Z).
Variables (d_in : InputIterator) (d_out : OutputIterator) (num_items : Z).
Variables (reduction_op : T -> T -> T) (stream : cudaStream_t) (debug : bool).

(** [Reduce] on a platform that runs kernels and knows its PTX version is
    the internal routine at that version. *)
Lemma Reduce_eq (ptx_version : Z) :
  PtxVersion pf = (cudaSuccess, ptx_version) →
  Reduce pf d_temp_storage bytes d_in d_out num_items reduction_op stream debug
  = Dispatch pf d_temp_storage bytes d_in d_out num_items reduction_op stream
      debug ptx_version FillAndResetDrainKernel_ptr ReduceTilesKernel_ptr
      SingleTileKernel_ptr SingleTileKernel_ptr
      (fst (InitDispatchConfigs ptx_version (sizeof_T pf)))
      (snd (InitDispatchConfigs ptx_version (sizeof_T pf))).
Proof. intros H. unfold Reduce. by rewrite Dispatch_tuned_eq, H. Qed.

End EntryPoints.

(** X1.  [Reduce] asks for the PTX version before anything else.  If that
    query fails, the call returns its status, submits no kernel and leaves
    [temp_storage_bytes] as it was: this holds for a sizing query as well,
    and whether or not the build can launch kernels.  [Sum] behaves the
    same. *)
Theorem Reduce_ptx_version_failure {T InputIterator OutputIterator : Type}
    (pf : Platform) (d_temp_storage : ptr) (bytes : Z)
    (d_in : InputIterator) (d_out : OutputIterator) (num_items : Z)
    (reduction_op : T → T → T) (stream : cudaStream_t) (debug : bool)
    (e : cudaError) :
  fst (PtxVersion pf) = e → e ≠ cudaSuccess →
  Reduce pf d_temp_storage bytes d_in d_out num_items reduction_op stream debug
    = (e, {| temp_storage_bytes := bytes; launched := [] |})
  ∧ Sum pf d_temp_storage bytes d_in d_out num_items stream debug
    = (e, {| temp_storage_bytes := bytes; launched := [] |}).
Proof.
  intros He Hne. unfold Reduce, Sum. rewrite !Dispatch_tuned_eq.
  destruct (PtxVersion pf) as [e' v]. simpl in He. subst e'.
  by destruct e.
Qed.

Lemma Reduce_ptx_version_failure_witness :
  Reduce no_ptx_platform 4096 1024 [1; 2; 3; 4; 5] 0 5 Z.add 7 false
    = (cudaErrorCode 8, {| temp_storage_bytes := 1024; launched := [] |})
  ∧ Sum no_ptx_platform 4096 1024 [1; 2; 3; 4; 5] 0 5 7 false
    = (cudaErrorCode 8, {| temp_storage_bytes := 1024; launched := [] |}).
Proof.
  apply (Reduce_ptx_version_failure no_ptx_platform 4096 1024 [1; 2; 3; 4; 5] 0 5
           Z.add 7 false (cudaErrorCode 8)).
  - reflexivity.
  - discriminate.
Defined.

(** X2.  In a build without [CUB_RUNTIME_ENABLED] every call of [Reduce]
    whose PTX version query succeeds returns [cudaErrorNotSupported]: it
    submits no kernel and writes no size, also when it is a sizing query
    (null scratch pointer), whatever the number of items. *)
Theorem Reduce_not_supported {T InputIterator OutputIterator : Type}
    (pf : Platform) (d_temp_storage : ptr) (bytes : Z)
    (d_in : InputIterator) (d_out : OutputIterator) (num_items : Z)
    (reduction_op : T → T → T) (stream : cudaStream_t) (debug : bool) :
  CUB_RUNTIME_ENABLED pf = false → fst (PtxVersion pf) = cudaSuccess →
  Reduce pf d_temp_storage bytes d_in d_out num_items reduction_op stream debug
    = (cudaErrorNotSupported, {| temp_storage_bytes := bytes; launched := [] |}).
Proof.
  intros Hen Hptx. destruct (PtxVersion pf) as [e v] eqn:Hv. simpl in Hptx. subst e.
  rewrite (Reduce_eq _ _ _ _ _ _ _ _ _ v Hv).
  by apply Dispatch_not_supported.
Qed.

Lemma Reduce_not_supported_witness :
  Reduce runtime_disabled_platform NULL 1024 [1; 2; 3; 4; 5] 0 5 Z.add 7 false
    = (cudaErrorNotSupported, {| temp_storage_bytes := 1024; launched := [] |}).
Proof.
  apply (Reduce_not_supported runtime_disabled_platform NULL 1024 [1; 2; 3; 4; 5] 0 5
           Z.add 7 false); reflexivity.
Defined.

(** X3.  An input of at most 512 items is single-stage on every device and
    for every element size, because no tile of the tuning tables is smaller:
    a sizing query answers 1 without any device query, and a call with a
    scratch buffer submits exactly one kernel, [SingleTileKernel] with one
    block of the block size of the version's single-tile policy, whatever
    the size of the buffer.  [num_items] is not checked: this includes zero
    and negative counts. *)
Theorem Reduce_small_input {T InputIterator OutputIterator : Type}
    (pf : Platform) (d_temp_storage : ptr) (bytes : Z)
    (d_in : InputIterator) (d_out : OutputIterator) (num_items : Z)
    (reduction_op : T → T → T) (stream : cudaStream_t) (debug : bool)
    (ptx_version : Z) :
  CUB_RUNTIME_ENABLED pf = true →
  PtxVersion pf = (cudaSuccess, ptx_version) →
  num_items <= 512 →
  (d_temp_storage = NULL →
   Reduce pf d_temp_storage bytes d_in d_out num_items reduction_op stream debug
     = (cudaSuccess, {| temp_storage_bytes := 1; launched := [] |}))
  ∧ (d_temp_storage ≠ NULL →
     Reduce pf d_temp_storage bytes d_in d_out num_items reduction_op stream debug
       = (if debug then SyncStream pf stream 1 else cudaSuccess,
          {| temp_storage_bytes := bytes;
             launched :=
               [ {| kernel := SingleTileKernel_ptr;
                    gridDim := 1;
                    blockDim :=
                      block_threads (snd (InitDispatchConfigs ptx_version (sizeof_T pf)));
                    shared_bytes := 0;
                    stream_of := default_stream;
                    args := SingleTile_args d_in d_out num_items reduction_op |} ] |})).
Proof.
  intros Hen Hptx Hn.
  pose proof (InitDispatchConfigs_tile_size ptx_version (sizeof_T pf)) as Hts.
  rewrite (Reduce_eq _ _ _ _ _ _ _ _ _ ptx_version Hptx).
  split; intros Hp.
  - apply Dispatch_single_stage_sizing; [done| right; lia |done].
  - rewrite Dispatch_single_stage_result; [done|done| right; lia |done].
Qed.

Lemma Reduce_small_input_witness :
  Reduce example_platform 4096 0 [1; 2; 3] 0 512 Z.add 7 false
    = (cudaSuccess,
       {| temp_storage_bytes := 0;
          launched :=
            [ {| kernel := SingleTileKernel_ptr; gridDim := 1; blockDim := 256;
                 shared_bytes := 0; stream_of := 0;
                 args := SingleTile_args [1; 2; 3] 0 512 Z.add |} ] |}).
Proof.
  apply (proj2 (Reduce_small_input example_platform 4096 0 [1; 2; 3] 0 512 Z.add 7
                  false 350 eq_refl eq_refl ltac:(lia))).
  discriminate.
Defined.

(** X4.  An input of more than 10240 items is two-stage on every device and
    for every element size, because no tile of the tuning tables is larger.
    With the device queries answered, a scratch buffer of the planned size
    and no failing synchronisation, [Reduce] returns [cudaSuccess], leaves
    [temp_storage_bytes] as it was, and submits
    [ReduceTilesKernel; SingleTileKernel], preceded by the reset of the drain
    queue exactly on the versions whose policy maps dynamically: from 350 on
    for elements of less than four bytes, and from 200 to below 300 for
    elements of four bytes and more. *)
Theorem Reduce_large_input {T InputIterator OutputIterator : Type}
    (pf : Platform) (d_temp_storage : ptr) (bytes : Z)
    (d_in : InputIterator) (d_out : OutputIterator) (num_items : Z)
    (reduction_op : T → T → T) (stream : cudaStream_t) (debug : bool)
    (ptx_version sm_count sm_occupancy : Z) :
  let rcfg := fst (InitDispatchConfigs ptx_version (sizeof_T pf)) in
  let result :=
    Reduce pf d_temp_storage bytes d_in d_out num_items reduction_op stream debug in
  CUB_RUNTIME_ENABLED pf = true →
  PtxVersion pf = (cudaSuccess, ptx_version) →
  10240 < num_items →
  d_temp_storage ≠ NULL →
  queries_succeed pf ptx_version ReduceTilesKernel_ptr rcfg sm_count sm_occupancy →
  required_bytes pf (planned_grid_size rcfg num_items sm_count sm_occupancy) <= bytes →
  (debug = true → syncs_succeed pf stream 3) →
  fst result = cudaSuccess
  ∧ temp_storage_bytes (snd result) = bytes
  ∧ kernel <$> launched (snd result)
    = if bool_decide ((350 <= ptx_version ∧ sizeof_T pf < 4)
                      ∨ (200 <= ptx_version < 300 ∧ 4 <= sizeof_T pf))
      then [FillAndResetDrainKernel_ptr; ReduceTilesKernel_ptr; SingleTileKernel_ptr]
      else [ReduceTilesKernel_ptr; SingleTileKernel_ptr].
Proof.
  intros rcfg result Hen Hptx Hn Hp Hq Hbytes Hsync.
  pose proof (InitDispatchConfigs_tile_size_max ptx_version (sizeof_T pf)) as Hts.
  pose proof (InitDispatchConfigs_dynamic ptx_version (sizeof_T pf)) as Hdyn.
  fold rcfg in Hts, Hdyn.
  assert (Hk : ReduceTilesKernel_ptr ≠ NULL_kernel) by discriminate.
  assert (Hlt : tile_size_of rcfg < num_items) by lia.
  unfold result. rewrite (Reduce_eq _ _ _ _ _ _ _ _ _ ptx_version Hptx).
  fold rcfg.
  rewrite (Dispatch_two_stage_run _ _ _ _ _ _ _ _ _ _ _ _ _ _ _ _ _ _
             Hen Hk Hlt Hq Hp Hbytes).
  unfold run_host. rewrite submit_ok.
  - simpl. rewrite two_stage_launches_sequence.
    split; [done|]. split; [done|].
    destruct (decide (grid_mapping rcfg = GRID_MAPPING_DYNAMIC)) as [Hd|Hd].
    + by rewrite bool_decide_eq_true_2 by by apply Hdyn.
    + rewrite bool_decide_eq_false_2; [done|]. intros H. by apply Hd, Hdyn.
  - intros Hd i Hi. apply (Hsync Hd). simpl in Hi.
    rewrite two_stage_launches_sequence in Hi.
    destruct (decide _); simpl in Hi; lia.
Qed.

Lemma Reduce_large_input_witness :
  fst (Reduce example_platform 4096 1048576 tt tt 10000000 Z.add 7 true) = cudaSuccess
  ∧ temp_storage_bytes
      (snd (Reduce example_platform 4096 1048576 tt tt 10000000 Z.add 7 true))
    = 1048576
  ∧ kernel <$> launched
      (snd (Reduce example_platform 4096 1048576 tt tt 10000000 Z.add 7 true))
    = [ReduceTilesKernel_ptr; SingleTileKernel_ptr].
Proof.
  assert (queries_succeed example_platform 350 ReduceTilesKernel_ptr
            (fst (InitDispatchConfigs 350 (sizeof_T example_platform))) 14 2) as Hq
    by (by exists 0).
  assert (required_bytes example_platform
            (planned_grid_size
               (fst (InitDispatchConfigs 350 (sizeof_T example_platform)))
               10000000 14 2) <= 1048576) as Hbytes
    by (by vm_compute).
  exact (Reduce_large_input example_platform 4096 1048576 tt tt 10000000 Z.add 7 true
           350 14 2 eq_refl eq_refl ltac:(lia) ltac:(discriminate) Hq Hbytes
           (λ _ _ _, eq_refl)).
Defined.

(** ** The value the entry points compute *)

Section Results.
Context {T : Type}.

(** The result of running what a successful call with a scratch buffer
    submitted: the output range holds the fold at [d_out] and is otherwise as
    it was. *)
Lemma Dispatch_run_result (pf : Platform) (d_temp_storage : ptr) (bytes : Z)
    (d_in : list T) (d_out : Z) (num_items : Z) (reduction_op : T → T → T)
    (stream : cudaStream_t) (debug : bool) (sm_version : Z)
    (rcfg scfg : KernelDispatchConfig) (consumed : Z → list Z)
    (st : HostState T (list T) Z) (m0 : DeviceMemory T) :
  Assoc (=) reduction_op → Comm (=) reduction_op →
  1 <= num_items <= Z.of_nat (length d_in) →
  0 < sizeof_T pf →
  d_temp_storage ≠ NULL →
  Dispatch pf d_temp_storage bytes d_in d_out num_items reduction_op stream
    debug sm_version FillAndResetDrainKernel_ptr ReduceTilesKernel_ptr
    SingleTileKernel_ptr SingleTileKernel_ptr rcfg scfg = (cudaSuccess, st) →
  (∀ partial, partial ∈ launched st → kernel partial = ReduceTilesKernel_ptr →
              exact_cover consumed (gridDim partial) num_items) →
  ∃ m v,
    run_launches (sizeof_T pf) consumed (launched st) m0 = Some m
    ∧ fold1 reduction_op (take (Z.to_nat num_items) d_in) = Some v
    ∧ output m = <[d_out := v]> (output m0).
Proof.
  intros Hassoc Hcomm Hn Hsz Hp Hcall Hcover.
  destruct (Dispatch_success_inv _ _ _ _ _ _ _ _ _ _ _ _ _ _ _ _ _ Hp Hcall)
    as [[Hc ->]|(Hk & Hts & c & o & Hq & Hbytes & ->)].
  - simpl launched. rewrite run_launches_cons.
    destruct (exec_launch_single_tile (sizeof_T pf) consumed scfg d_in d_out
                num_items reduction_op m0 Hn) as (v & Hv & ->).
    simpl. eexists _, v. split; [reflexivity|]. split; [done|].
    simpl. by rewrite Z.add_0_r.
  - set (grid := planned_grid_size rcfg num_items c o) in *.
    set (es := planned_even_share rcfg num_items c o) in *.
    set (allocations := planned_allocations pf d_temp_storage grid) in *.
    simpl launched in *. rewrite two_stage_launches_sequence in *.
    assert (Hcov : exact_cover consumed grid num_items).
    { apply (Hcover (reduce_tiles_kernel_launch ReduceTilesKernel_ptr grid rcfg
                       stream d_in (allocations !!! 0%nat) num_items es
                       {| d_counters := allocations !!! 1%nat |} reduction_op));
        [|done].
      destruct (decide _); rewrite !elem_of_cons; by auto. }
    clear Hcover.
    assert (Hgrid : 1 <= grid) by (apply (exact_cover_grid_pos _ _ _ Hcov); lia).
    destruct d_in as [|x0 rest] eqn:Hd; [simpl in Hn; lia|]. rewrite <- Hd in *.
    destruct (exact_cover_aggregates (reduction_op := reduction_op) consumed d_in
                grid num_items x0 ltac:(lia) Hcov) as [Hall Hfold].
    set (aggregate :=
           λ b, default x0 (fold1 reduction_op (item_at x0 d_in <$> consumed b)))
      in *.
    destruct (exec_blocks_reduce_tiles (sizeof_T pf) consumed d_in
                (allocations !!! 0%nat) num_items grid es
                {| d_counters := allocations !!! 1%nat |} reduction_op
                (block_threads rcfg) 0 stream aggregate (seqZ 0 grid) m0
                ltac:(lia) (NoDup_seqZ 0 grid) Hall)
      as (m1 & Hrun1 & Hout1 & Hcells & _).
    destruct (exec_launch_aggregate (sizeof_T pf) consumed scfg stream
                (allocations !!! 0%nat) d_out grid reduction_op aggregate m1 Hgrid)
      as (v & Hv & Hrun2).
    { intros b Hb. apply Hcells. apply elem_of_seqZ. lia. }
    exists (write_output d_out 0 v m1), v.
    split; [|split].
    + assert (Hpartial :
        exec_launch (sizeof_T pf) consumed
          (reduce_tiles_kernel_launch ReduceTilesKernel_ptr grid rcfg stream d_in
             (allocations !!! 0%nat) num_items es
             {| d_counters := allocations !!! 1%nat |} reduction_op) m0 = Some m1)
        by exact Hrun1.
      destruct (decide _).
      * rewrite run_launches_cons, exec_launch_prepare_drain.
        cbn [mbind option_bind].
        rewrite run_launches_cons, Hpartial. cbn [mbind option_bind].
        by rewrite run_launches_cons, Hrun2.
      * rewrite run_launches_cons, Hpartial. cbn [mbind option_bind].
        by rewrite run_launches_cons, Hrun2.
    + by rewrite <- Hfold.
    + simpl. by rewrite Z.add_0_r, Hout1.
Qed.

End Results.

(** [cub::Sum] over [int] items is the sum of the items reduced to 32 bits
    in two's complement. *)
Lemma foldl_cub_Sum (items : list Z) (a : Z) :
  in_int_range a → foldl cub_Sum a items = int_wrap (a + sum_Z items).
Proof.
  revert a. induction items as [|y items IH]; intros a Ha.
  - simpl. by rewrite Z.add_0_r, int_wrap_id.
  - simpl. rewrite IH by apply int_wrap_range.
    unfold cub_Sum, int_add. rewrite int_wrap_add_l. f_equal. lia.
Qed.

Lemma fold1_cub_Sum (items : list Z) :
  items ≠ [] → Forall in_int_range items →
  fold1 cub_Sum items = Some (int_wrap (sum_Z items)).
Proof.
  destruct items as [|x items]; [done|]. intros _ [Hx _]%Forall_cons.
  simpl. f_equal. by apply foldl_cub_Sum.
Qed.

(** X5.  [Reduce], the public entry point, with an associative and
    commutative operator over [num_items >= 1] items: if a call with a
    scratch buffer returns [cudaSuccess], then the kernels it submitted, run
    in the order of their submission from any device memory, all have a
    defined result, and afterwards the output range holds the fold of the
    first [num_items] items at [d_out] and is unchanged everywhere else.
    This holds for every PTX version and element size, on both paths.
    [ConsumeTiles] is taken to fold the positions a block is handed, and on
    the two-stage path the blocks are together handed every position exactly
    once ([exact_cover]). *)
Theorem Reduce_computes_fold {T : Type}
    (pf : Platform) (d_temp_storage : ptr) (bytes : Z)
    (d_in : list T) (d_out : Z) (num_items : Z) (reduction_op : T → T → T)
    (stream : cudaStream_t) (debug : bool) (consumed : Z → list Z)
    (st : HostState T (list T) Z) (m0 : DeviceMemory T) :
  Assoc (=) reduction_op → Comm (=) reduction_op →
  1 <= num_items <= Z.of_nat (length d_in) →
  0 < sizeof_T pf →
  d_temp_storage ≠ NULL →
  Reduce pf d_temp_storage bytes d_in d_out num_items reduction_op stream debug
    = (cudaSuccess, st) →
  (∀ partial, partial ∈ launched st → kernel partial = ReduceTilesKernel_ptr →
              exact_cover consumed (gridDim partial) num_items) →
  ∃ m v,
    run_launches (sizeof_T pf) consumed (launched st) m0 = Some m
    ∧ fold1 reduction_op (take (Z.to_nat num_items) d_in) = Some v
    ∧ output m = <[d_out := v]> (output m0).
Proof.
  intros Hassoc Hcomm Hn Hsz Hp Hcall Hcover.
  unfold Reduce in Hcall. rewrite Dispatch_tuned_eq in Hcall.
  destruct (PtxVersion pf) as [e v]. destruct e; try by simplify_eq.
  by eapply Dispatch_run_result.
Qed.

Lemma Reduce_computes_fold_witness :
  ∃ m v,
    run_launches 4 small_consumed
      (launched (snd (Reduce example_platform 4096 0 [3; 1; 4; 1; 5] 2 5 Z.max 7 true)))
      empty_memory = Some m
    ∧ fold1 Z.max (take (Z.to_nat 5) [3; 1; 4; 1; 5]) = Some v
    ∧ output m = <[2 := v]> (output empty_memory).
Proof.
  apply (Reduce_computes_fold example_platform 4096 0 [3; 1; 4; 1; 5] 2 5 Z.max 7 true
           small_consumed _ empty_memory Z.max_assoc Z.max_comm).
  - simpl. lia.
  - simpl. lia.
  - discriminate.
  - reflexivity.
  - intros partial Hin Hk. exfalso. revert Hk. revert partial Hin.
    apply (Forall_forall (λ l, kernel l ≠ ReduceTilesKernel_ptr)).
    repeat constructor; discriminate.
Defined.

(** X6.  [Sum] over [int] items: if a call with a scratch buffer over
    [num_items >= 1] items returns [cudaSuccess], the kernels it submitted
    leave at [d_out] the sum of the first [num_items] items reduced to 32
    bits in two's complement, that is the exact sum whenever it fits in an
    [int], and the wrapped sum when it does not. *)
Theorem Sum_computes_wrapped_sum
    (pf : Platform) (d_temp_storage : ptr) (bytes : Z)
    (d_in : list Z) (d_out : Z) (num_items : Z)
    (stream : cudaStream_t) (debug : bool) (consumed : Z → list Z)
    (st : HostState Z (list Z) Z) (m0 : DeviceMemory Z) :
  Forall in_int_range d_in →
  1 <= num_items <= Z.of_nat (length d_in) →
  0 < sizeof_T pf →
  d_temp_storage ≠ NULL →
  Sum pf d_temp_storage bytes d_in d_out num_items stream debug = (cudaSuccess, st) →
  (∀ partial, partial ∈ launched st → kernel partial = ReduceTilesKernel_ptr →
              exact_cover consumed (gridDim partial) num_items) →
  ∃ m,
    run_launches (sizeof_T pf) consumed (launched st) m0 = Some m
    ∧ output m !! d_out = Some (int_wrap (sum_Z (take (Z.to_nat num_items) d_in)))
    ∧ (in_int_range (sum_Z (take (Z.to_nat num_items) d_in)) →
       output m !! d_out = Some (sum_Z (take (Z.to_nat num_items) d_in))).
Proof.
  intros Hint Hn Hsz Hp Hcall Hcover.
  unfold Sum in Hcall. rewrite Dispatch_tuned_eq in Hcall.
  destruct (PtxVersion pf) as [e v]. destruct e; try by simplify_eq.
  destruct (Dispatch_run_result pf d_temp_storage bytes d_in d_out num_items cub_Sum
              stream debug v _ _ consumed st m0 int_add_Assoc int_add_Comm
              Hn Hsz Hp Hcall Hcover) as (m & a & Hrun & Hfold & Hout).
  rewrite fold1_cub_Sum in Hfold.
  - exists m. split; [done|]. simplify_eq.
    assert (output m !! d_out
            = Some (int_wrap (sum_Z (take (Z.to_nat num_items) d_in)))) as Hres
      by (by rewrite Hout, lookup_insert_eq).
    split; [done|]. intros Hfit. by rewrite Hres, int_wrap_id.
  - destruct d_in as [|x rest]; [simpl in Hn; lia|].
    destruct (Z.to_nat num_items) eqn:Hz; [lia|done].
  - by apply Forall_take.
Qed.

Lemma Sum_computes_wrapped_sum_witness :
  ∃ m,
    run_launches 4 small_consumed
      (launched (snd (Sum example_platform 4096 0 [2147483647; 1; 5] 2 2 7 false)))
      empty_memory = Some m
    ∧ output m !! 2 = Some (int_wrap (sum_Z (take (Z.to_nat 2) [2147483647; 1; 5])))
    ∧ (in_int_range (sum_Z (take (Z.to_nat 2) [2147483647; 1; 5])) →
       output m !! 2 = Some (sum_Z (take (Z.to_nat 2) [2147483647; 1; 5]))).
Proof.
  apply (Sum_computes_wrapped_sum example_platform 4096 0 [2147483647; 1; 5] 2 2 7
           false small_consumed _ empty_memory).
  - repeat constructor; by vm_compute.
  - simpl. lia.
  - simpl. lia.
  - discriminate.
  - reflexivity.
  - intros partial Hin Hk. exfalso. revert Hk. revert partial Hin.
    apply (Forall_forall (λ l, kernel l ≠ ReduceTilesKernel_ptr)).
    repeat constructor; discriminate.
Defined.

(** ** Blocks of one grid *)

Section Blocks.
Context {T : Type}.

Implicit Types (m : DeviceMemory T) (l : Launch T (list T) Z).

Lemma exec_blocks_cons2 sizeof_T consumed l (b1 b2 : Z) (bs : list Z) m :
  exec_blocks sizeof_T consumed l (b1 :: b2 :: bs) m
  = (exec_block sizeof_T consumed l b1 m ≫= exec_block sizeof_T consumed l b2)
      ≫= exec_blocks sizeof_T consumed l bs.
Proof.
  rewrite exec_blocks_cons.
  destruct (exec_block _ _ _ b1 _) as [m1|]; [|done].
  simpl. apply exec_blocks_cons.
Qed.

(** Two blocks of a grid store their aggregates in different cells, and a
    block reads no cell in which a block of the same grid stores one: they
    can run in either order. *)
Lemma exec_block_swap sizeof_T consumed l (b1 b2 : Z) m :
  sizeof_T ≠ 0 →
  exec_block sizeof_T consumed l b1 m ≫= exec_block sizeof_T consumed l b2
  = exec_block sizeof_T consumed l b2 m ≫= exec_block sizeof_T consumed l b1.
Proof.
  intros Hsz. destruct (decide (b1 = b2)) as [->|Hne]; [done|].
  unfold exec_block, ReduceTilesKernel, SingleTileKernel.
  destruct (kernel l), (args l); try done.
  - destruct (ConsumeTiles _ _ (consumed b1)) as [a1|],
             (ConsumeTiles _ _ (consumed b2)) as [a2|]; try done.
    simpl. unfold write_scratch. simpl. do 2 f_equal.
    apply insert_insert_ne. intros Heq.
    by apply elem_addr_inj in Heq.
  - simpl. destruct (ConsumeTiles _ _ _) as [a|] eqn:Ha; [|done].
    simpl. change (read_scratch sizeof_T d_in (write_output d_out b1 a m))
      with (read_scratch sizeof_T d_in m).
    change (read_scratch sizeof_T d_in (write_output d_out b2 a m))
      with (read_scratch sizeof_T d_in m).
    rewrite Ha. simpl. unfold write_output. simpl. do 2 f_equal.
    apply insert_insert_ne. lia.
  - destruct (ConsumeTiles _ _ _) as [a|]; [|done].
    simpl. unfold write_output. simpl. do 2 f_equal.
    apply insert_insert_ne. lia.
Qed.

(** A grid of one block of the single-tile kernel stores one value at the
    output position and leaves the scratch region as it was. *)
Lemma exec_launch_one_block sizeof_T consumed l m m' :
  gridDim l = 1 →
  exec_launch sizeof_T consumed l m = Some m' →
  exec_block sizeof_T consumed l 0 m = Some m'.
Proof.
  intros Hg. unfold exec_launch, blocks_of. rewrite Hg.
  change (seqZ 0 1) with [0]. rewrite exec_blocks_cons.
  by destruct (exec_block _ _ _ _ _).
Qed.

Lemma exec_block_single_tile sizeof_T consumed l (b : Z) m m' :
  writes_output l = true →
  exec_block sizeof_T consumed l b m = Some m' →
  scratch m' = scratch m
  ∧ ∃ d_out v,
      ((∃ p n op, args l = AggregateTile_args p d_out n op)
       ∨ (∃ d_in n op, args l = SingleTile_args d_in d_out n op))
      ∧ output m' = <[d_out + b := v]> (output m).
Proof.
  unfold writes_output, exec_block, SingleTileKernel.
  destruct (kernel l), (args l) as [| |p d_out n op|d_in d_out n op];
    try done; intros _ Hrun.
  - destruct (ConsumeTiles _ _ _) as [v|]; simplify_eq/=.
    split; [done|]. exists d_out, v. split; [|done]. left. by exists p, n, op.
  - destruct (ConsumeTiles _ _ _) as [v|]; simplify_eq/=.
    split; [done|]. exists d_out, v. split; [|done]. right. by exists d_in, n, op.
Qed.

(** A property of the device memory that every launch of a sequence
    preserves holds from the start to the end of the run. *)
Lemma run_launches_preserves sizeof_T consumed
    (R : DeviceMemory T → DeviceMemory T → Prop) (ls : list (Launch T (list T) Z))
    m m' :
  (∀ m1, R m1 m1) → (∀ m1 m2 m3, R m1 m2 → R m2 m3 → R m1 m3) →
  Forall (λ l, ∀ m1 m2, exec_launch sizeof_T consumed l m1 = Some m2 → R m1 m2) ls →
  run_launches sizeof_T consumed ls m = Some m' → R m m'.
Proof.
  intros Hrefl Htrans Hall. revert m.
  induction Hall as [|l ls Hl _ IH]; intros m.
  - unfold run_launches. simpl. intros [= ->]. apply Hrefl.
  - rewrite run_launches_cons.
    destruct (exec_launch _ _ l m) as [m1|] eqn:Hrun; [|done].
    simpl. intros Hrest. apply (Htrans _ m1); [by apply Hl|by apply IH].
Qed.

End Blocks.

(** X7.  The blocks of a grid do not interfere through the aggregates they
    store.  For each of the kernels of this file, once the input positions
    each block consumes are fixed ([consumed]; under DYNAMIC mapping they
    result from the drain queue), running the blocks of a launch one after
    the other in any order gives the same partials and the same output as
    running them in the order of their indices, or is undefined for both:
    block [b] stores its aggregate in the cell of index [b] of its
    destination ([d_out[blockIdx.x]]), and no block reads such a cell of its
    own grid. *)
Theorem exec_blocks_order_independent {T : Type}
    (sizeof_T : Z) (consumed : Z → list Z) (l : Launch T (list T) Z)
    (bs : list Z) (m : DeviceMemory T) :
  sizeof_T ≠ 0 →
  bs ≡ₚ blocks_of l →
  exec_blocks sizeof_T consumed l bs m = exec_launch sizeof_T consumed l m.
Proof.
  intros Hsz Hperm. unfold exec_launch. revert m.
  induction Hperm as [|b bs bs' _ IH|b1 b2 bs|bs1 bs2 bs3 _ IH1 _ IH2]; intros m.
  - done.
  - rewrite !exec_blocks_cons.
    destruct (exec_block _ _ _ _ _) as [m1|]; [|done]. simpl. apply IH.
  - rewrite !exec_blocks_cons2. by rewrite (exec_block_swap _ _ _ b2 b1).
  - by rewrite IH1.
Qed.

Lemma exec_blocks_order_independent_witness :
  exec_blocks 4 small_consumed
    (reduce_tiles_kernel_launch ReduceTilesKernel_ptr 2 small_dynamic_policy 7
       [1; 2; 3; 4; 5] 4096 5 (GridEvenShare_init 5 2 2) {| d_counters := 4352 |} Z.add)
    [1; 0] empty_memory
  = exec_launch 4 small_consumed
      (reduce_tiles_kernel_launch ReduceTilesKernel_ptr 2 small_dynamic_policy 7
         [1; 2; 3; 4; 5] 4096 5 (GridEvenShare_init 5 2 2) {| d_counters := 4352 |} Z.add)
      empty_memory.
Proof.
  apply exec_blocks_order_independent.
  - lia.
  - apply (perm_swap 0 1 []).
Defined.

(** ** What a call leaves untouched *)

Section Submitted.
Context {T InputIterator OutputIterator : Type}.

Variables (pf : Platform) (d_temp_storage : ptr) (bytes : Z).
Variables (d_in : InputIterator) (d_out : OutputIterator) (num_items : Z).
Variables (reduction_op : T -> T -> T) (stream : cudaStream_t) (debug : bool).
Variables (sm_version : Z) (pk rk ak sk : KernelPtr).
Variables (rcfg scfg : KernelDispatchConfig).

Abbreviation this_call :=
  (Dispatch pf d_temp_storage bytes d_in d_out num_items reduction_op stream debug
     sm_version pk rk ak sk rcfg scfg).

Lemma run_host_snd {S} (body : Host S unit) (s : S) :
  snd (run_host body s) = snd (body s).
Proof. unfold run_host. by destruct (body s) as [[e|[]] s']. Qed.

(** Whatever its status, a single-stage call submitted nothing or its one
    kernel. *)
Lemma Dispatch_single_stage_prefix :
  rk = NULL_kernel ∨ num_items <= tile_size_of rcfg →
  launched (snd this_call)
    `prefix_of` [single_kernel_launch sk scfg d_in d_out num_items reduction_op].
Proof.
  intros Hc.
  destruct (CUB_RUNTIME_ENABLED pf) eqn:Hen;
    [|rewrite Dispatch_not_supported by done; apply prefix_nil].
  destruct (decide (d_temp_storage = NULL)) as [Hp|Hp];
    [rewrite Dispatch_sizing_no_launch by done; apply prefix_nil|].
  by rewrite Dispatch_single_stage_result.
Qed.

(** Whatever its status, a two-stage call whose queries were answered
    submitted an initial part of the planned launches. *)
Lemma Dispatch_two_stage_prefix (sm_count sm_occupancy : Z) :
  rk ≠ NULL_kernel → tile_size_of rcfg < num_items →
  queries_succeed pf sm_version rk rcfg sm_count sm_occupancy →
  launched (snd this_call)
    `prefix_of`
      two_stage_launches pk rk ak rcfg scfg stream d_in d_out num_items reduction_op
        (planned_grid_size rcfg num_items sm_count sm_occupancy)
        (planned_even_share rcfg num_items sm_count sm_occupancy)
        (planned_allocations pf d_temp_storage
           (planned_grid_size rcfg num_items sm_count sm_occupancy)).
Proof.
  intros Hk Hn Hq.
  destruct (CUB_RUNTIME_ENABLED pf) eqn:Hen;
    [|rewrite Dispatch_not_supported by done; apply prefix_nil].
  destruct (decide (d_temp_storage = NULL)) as [Hp|Hp];
    [rewrite Dispatch_sizing_no_launch by done; apply prefix_nil|].
  destruct (Z.lt_ge_cases bytes
              (required_bytes pf (planned_grid_size rcfg num_items sm_count
                                    sm_occupancy))) as [Hlt|Hge].
  { rewrite (Dispatch_two_stage_too_small _ _ _ _ _ _ _ _ _ _ _ _ _ _ _ _ _ _
               Hen Hk Hn Hq Hp Hlt). apply prefix_nil. }
  rewrite (Dispatch_two_stage_run _ _ _ _ _ _ _ _ _ _ _ _ _ _ _ _ _ _
             Hen Hk Hn Hq Hp Hge).
  rewrite run_host_snd.
  destruct (submit_prefix pf debug stream
              (two_stage_launches pk rk ak rcfg scfg stream d_in d_out num_items
                 reduction_op
                 (planned_grid_size rcfg num_items sm_count sm_occupancy)
                 (planned_even_share rcfg num_items sm_count sm_occupancy)
                 (planned_allocations pf d_temp_storage
                    (planned_grid_size rcfg num_items sm_count sm_occupancy)))
              {| temp_storage_bytes := bytes; launched := [] |}) as (k & _ & ->).
  simpl. apply prefix_take.
Qed.

(** Every call takes one of the two branches, or ends at a failing query
    with nothing submitted. *)
Lemma Dispatch_launched_cases :
  launched (snd this_call)
    `prefix_of` [single_kernel_launch sk scfg d_in d_out num_items reduction_op]
  ∨ ∃ sm_count sm_occupancy,
      launched (snd this_call)
        `prefix_of`
          two_stage_launches pk rk ak rcfg scfg stream d_in d_out num_items
            reduction_op
            (planned_grid_size rcfg num_items sm_count sm_occupancy)
            (planned_even_share rcfg num_items sm_count sm_occupancy)
            (planned_allocations pf d_temp_storage
               (planned_grid_size rcfg num_items sm_count sm_occupancy)).
Proof.
  destruct (decide (rk = NULL_kernel ∨ num_items <= tile_size_of rcfg)) as [Hc|Hc].
  { left. by apply Dispatch_single_stage_prefix. }
  assert (rk ≠ NULL_kernel ∧ tile_size_of rcfg < num_items) as [Hk Hn].
  { split; [tauto|]. destruct (Z.lt_ge_cases (tile_size_of rcfg) num_items); [done|].
    exfalso. apply Hc. right. lia. }
  destruct (queries_cases pf sm_version rk rcfg) as [(c & o & Hq)|(e & He & Hq)].
  - right. exists c, o. by apply Dispatch_two_stage_prefix.
  - left. destruct (CUB_RUNTIME_ENABLED pf) eqn:Hen;
      [|rewrite Dispatch_not_supported by done; apply prefix_nil].
    rewrite (Dispatch_query_failure _ _ _ _ _ _ _ _ _ _ _ _ _ _ _ _ _
               Hen Hk Hn He Hq).
    apply prefix_nil.
Qed.

End Submitted.

Section Frames.
Context {T : Type}.

Variables (d_out : Z).

(** Each of the four launches changes the output range at [d_out] only. *)
Lemma launches_output_frame (sizeof_T : Z) (consumed : Z → list Z)
    (ls full : list (Launch T (list T) Z)) (m0 m : DeviceMemory T) :
  ls `prefix_of` full →
  Forall (λ l, writes_output l = false
               ∨ (gridDim l = 1
                  ∧ ((∃ p n op, args l = AggregateTile_args p d_out n op)
                     ∨ (∃ d n op, args l = SingleTile_args d d_out n op)))) full →
  run_launches sizeof_T consumed ls m0 = Some m →
  ∀ k, k ≠ d_out → output m !! k = output m0 !! k.
Proof.
  intros [rest ->] [Hall _]%Forall_app.
  apply (run_launches_preserves sizeof_T consumed
           (λ m1 m2, ∀ k, k ≠ d_out → output m2 !! k = output m1 !! k)).
  - done.
  - intros m1 m2 m3 H12 H23 k Hk. by rewrite H23, H12.
  - eapply Forall_impl; [exact Hall|]. intros l Hl m1 m2 Hrun k Hk.
    destruct Hl as [Hw|(Hg & Hargs)].
    + by rewrite (exec_launch_output_frame _ _ _ _ _ Hw Hrun).
    + apply exec_launch_one_block in Hrun; [|done].
      apply exec_block_single_tile in Hrun as (_ & d & v & Hd & ->).
      * rewrite lookup_insert_ne; [done|].
        destruct Hargs as [(? & ? & ? & Hargs)|(? & ? & ? & Hargs)],
                 Hd as [(? & ? & ? & Hd)|(? & ? & ? & Hd)];
          rewrite Hargs in Hd; simplify_eq; lia.
      * unfold writes_output.
        by destruct Hargs as [(? & ? & ? & ->)|(? & ? & ? & ->)].
Qed.

End Frames.

(** X8.  A call writes the output range at [d_out] and nowhere else.
    Whatever the arguments, the kernel pointers and the status of the call
    (success, a failed query, a buffer that is too small, a failed
    synchronisation), if the kernels it submitted run to a defined result,
    every position of the output range other than [d_out] holds what it held
    before. *)
Theorem Dispatch_writes_only_d_out {T : Type}
    (pf : Platform) (d_temp_storage : ptr) (bytes : Z)
    (d_in : list T) (d_out : Z) (num_items : Z) (reduction_op : T → T → T)
    (stream : cudaStream_t) (debug : bool) (sm_version : Z)
    (pk rk ak sk : KernelPtr) (rcfg scfg : KernelDispatchConfig)
    (sizeof_T : Z) (consumed : Z → list Z) (m0 m : DeviceMemory T) :
  run_launches sizeof_T consumed
    (launched (snd (Dispatch pf d_temp_storage bytes d_in d_out num_items
                      reduction_op stream debug sm_version pk rk ak sk rcfg scfg)))
    m0 = Some m →
  ∀ k, k ≠ d_out → output m !! k = output m0 !! k.
Proof.
  intros Hrun.
  destruct (Dispatch_launched_cases pf d_temp_storage bytes d_in d_out num_items
              reduction_op stream debug sm_version pk rk ak sk rcfg scfg)
    as [Hpre|(c & o & Hpre)].
  - apply (launches_output_frame d_out sizeof_T consumed _ _ m0 m Hpre); [|done].
    apply Forall_singleton. right. split; [done|].
    right. by exists d_in, num_items, reduction_op.
  - apply (launches_output_frame d_out sizeof_T consumed _ _ m0 m Hpre); [|done].
    rewrite two_stage_launches_sequence.
    destruct (decide _); repeat apply Forall_cons_2; try apply Forall_nil_2;
      try (by left); right; (split; [done|]); left; by eexists _, _, _.
Qed.

Lemma Dispatch_writes_only_d_out_witness :
  output (write_output 8 0 15 {| scratch := ∅; output := {[ 9 := 77 ]} |}) !! 9
  = output ({| scratch := ∅; output := {[ 9 := 77 ]} |} : DeviceMemory Z) !! 9.
Proof.
  apply (Dispatch_writes_only_d_out example_platform 4096 0 [1; 2; 3; 4; 5] 8 5 Z.add 7
           false 350 FillAndResetDrainKernel_ptr ReduceTilesKernel_ptr
           SingleTileKernel_ptr SingleTileKernel_ptr
           (Policy350.ReduceTilesPolicy 4) Policy350.SingleTilePolicy
           4 small_consumed).
  - reflexivity.
  - lia.
Defined.

(** X9.  The single-stage branch does not use the scratch buffer.  Whatever
    the status of the call and whatever kernel pointers it is given, if
    [reduce_tiles_kernel] is null or [num_items <= tile_size], the kernel the
    call submitted leaves every cell of the scratch region as it was: the
    one kernel of this branch is handed the input and the output position
    only.  This is why a sizing query of this branch can answer 1. *)
Theorem Dispatch_single_stage_scratch_untouched {T : Type}
    (pf : Platform) (d_temp_storage : ptr) (bytes : Z)
    (d_in : list T) (d_out : Z) (num_items : Z) (reduction_op : T → T → T)
    (stream : cudaStream_t) (debug : bool) (sm_version : Z)
    (pk rk ak sk : KernelPtr) (rcfg scfg : KernelDispatchConfig)
    (sizeof_T : Z) (consumed : Z → list Z) (m0 m : DeviceMemory T) :
  rk = NULL_kernel ∨ num_items <= tile_size_of rcfg →
  run_launches sizeof_T consumed
    (launched (snd (Dispatch pf d_temp_storage bytes d_in d_out num_items
                      reduction_op stream debug sm_version pk rk ak sk rcfg scfg)))
    m0 = Some m →
  scratch m = scratch m0.
Proof.
  intros Hc.
  destruct (Dispatch_single_stage_prefix pf d_temp_storage bytes d_in d_out
              num_items reduction_op stream debug sm_version pk rk ak sk rcfg scfg
              Hc) as [rest Hfull].
  apply (run_launches_preserves sizeof_T consumed
           (λ m1 m2, scratch m2 = scratch m1)); [done|congruence|].
  assert (Hall : Forall (λ l : Launch T (list T) Z,
                           gridDim l = 1 ∧ writes_output l = true)
                   [single_kernel_launch sk scfg d_in d_out num_items reduction_op])
    by (by apply Forall_singleton).
  rewrite Hfull in Hall. apply Forall_app in Hall as [Hall _].
  eapply Forall_impl; [exact Hall|]. intros l [Hg Hw] m1 m2 Hl.
  apply exec_launch_one_block in Hl; [|done].
  by apply exec_block_single_tile in Hl as [? _].
Qed.

Lemma Dispatch_single_stage_scratch_untouched_witness :
  scratch (write_output 8 0 15 {| scratch := {[ 4096 := 77 ]}; output := ∅ |})
  = scratch ({| scratch := {[ 4096 := 77 ]}; output := ∅ |} : DeviceMemory Z).
Proof.
  apply (Dispatch_single_stage_scratch_untouched example_platform 4096 0
           [1; 2; 3; 4; 5] 8 5 Z.add 7 false 350 FillAndResetDrainKernel_ptr
           ReduceTilesKernel_ptr SingleTileKernel_ptr SingleTileKernel_ptr
           (Policy350.ReduceTilesPolicy 4) Policy350.SingleTilePolicy
           4 small_consumed).
  - right. by vm_compute.
  - reflexivity.
Defined.

(** X10.  A call never submits more than three kernels: at most one on the
    single-stage branch, at most two on the two-stage branch unless the
    mapping is DYNAMIC.  This holds for every call, whatever its status. *)
Theorem Dispatch_launch_count {T InputIterator OutputIterator : Type}
    (pf : Platform) (d_temp_storage : ptr) (bytes : Z)
    (d_in : InputIterator) (d_out : OutputIterator) (num_items : Z)
    (reduction_op : T → T → T) (stream : cudaStream_t) (debug : bool)
    (sm_version : Z) (pk rk ak sk : KernelPtr) (rcfg scfg : KernelDispatchConfig) :
  let submitted :=
    launched (snd (Dispatch pf d_temp_storage bytes d_in d_out num_items
                     reduction_op stream debug sm_version pk rk ak sk rcfg scfg)) in
  (length submitted <= 3)%nat
  ∧ (rk = NULL_kernel ∨ num_items <= tile_size_of rcfg → (length submitted <= 1)%nat)
  ∧ (grid_mapping rcfg ≠ GRID_MAPPING_DYNAMIC → (length submitted <= 2)%nat)
  ∧ (d_temp_storage = NULL → submitted = []).
Proof.
  intros submitted. unfold submitted.
  pose proof (Dispatch_launched_cases pf d_temp_storage bytes d_in d_out num_items
                reduction_op stream debug sm_version pk rk ak sk rcfg scfg)
    as Hcases.
  split; [|split; [|split]].
  - destruct Hcases as [Hpre|(c & o & Hpre)]; apply prefix_length in Hpre.
    + simpl in Hpre. lia.
    + rewrite two_stage_launches_sequence in Hpre.
      destruct (decide _); simpl in Hpre; lia.
  - intros Hc.
    apply (prefix_length _ [single_kernel_launch sk scfg d_in d_out num_items
                              reduction_op]).
    by apply Dispatch_single_stage_prefix.
  - intros Hmap.
    destruct Hcases as [Hpre|(c & o & Hpre)]; apply prefix_length in Hpre.
    + simpl in Hpre. lia.
    + rewrite two_stage_launches_sequence in Hpre.
      rewrite decide_False in Hpre by done. simpl in Hpre. lia.
  - apply Dispatch_sizing_no_launch.
Qed.

(** ** Synchronisations *)

Section Synchronisations.
Context {T InputIterator OutputIterator : Type}.

Variables (pf : Platform) (sync sync' : cudaStream_t → nat → cudaError).
Variables (stream : cudaStream_t) (debug : bool).

(** Submitting a sequence of launches asks [SyncStream] about the stream of
    the call only, once after each launch. *)
Lemma submit_sync_ext (ls : list (Launch T InputIterator OutputIterator))
    (s : HostState T InputIterator OutputIterator) :
  (debug = true →
   ∀ k : nat, (length (launched s) < k <= length (launched s) + length ls)%nat →
              sync stream k = sync' stream k) →
  submit (with_SyncStream pf sync) debug stream ls s
  = submit (with_SyncStream pf sync') debug stream ls s.
Proof.
  revert s. induction ls as [|l ls IH]; intros s H; [done|].
  rewrite !submit_cons. cbv zeta.
  assert (sync_if (with_SyncStream pf sync) debug stream
            {| temp_storage_bytes := temp_storage_bytes s;
               launched := launched s ++ [l] |}
          = sync_if (with_SyncStream pf sync') debug stream
              {| temp_storage_bytes := temp_storage_bytes s;
                 launched := launched s ++ [l] |}) as ->.
  { unfold sync_if. destruct debug; [|done]. simpl.
    rewrite H; [done|done|]. rewrite length_app. simpl. lia. }
  destruct (sync_if _ _ _ _) as [[e|[]] s2] eqn:Hs; [done|].
  pose proof (sync_if_state (with_SyncStream pf sync') debug stream
                {| temp_storage_bytes := temp_storage_bytes s;
                   launched := launched s ++ [l] |}) as Hst.
  rewrite Hs in Hst. simpl in Hst. subst s2.
  apply IH. intros Hd k Hk. apply H; [done|].
  simpl in Hk. rewrite length_app in Hk. simpl in *. lia.
Qed.

Lemma Dispatch_sync_ext (d_temp_storage : ptr) (bytes : Z)
    (d_in : InputIterator) (d_out : OutputIterator) (num_items : Z)
    (reduction_op : T → T → T) (sm_version : Z) (pk rk ak sk : KernelPtr)
    (rcfg scfg : KernelDispatchConfig) :
  (debug = true → ∀ k : nat, (1 <= k <= 3)%nat → sync stream k = sync' stream k) →
  Dispatch (with_SyncStream pf sync) d_temp_storage bytes d_in d_out num_items
    reduction_op stream debug sm_version pk rk ak sk rcfg scfg
  = Dispatch (with_SyncStream pf sync') d_temp_storage bytes d_in d_out num_items
      reduction_op stream debug sm_version pk rk ak sk rcfg scfg.
Proof.
  intros H.
  destruct (CUB_RUNTIME_ENABLED pf) eqn:Hen.
  2: { rewrite (Dispatch_not_supported (with_SyncStream pf sync)) by exact Hen.
       by rewrite (Dispatch_not_supported (with_SyncStream pf sync')). }
  destruct (decide (rk = NULL_kernel ∨ num_items <= tile_size_of rcfg)) as [Hc|Hc].
  { destruct (decide (d_temp_storage = NULL)) as [Hp|Hp].
    - rewrite (Dispatch_single_stage_sizing (with_SyncStream pf sync)
                 _ _ _ _ _ _ _ _ _ _ _ _ _ _ _ Hen Hc Hp).
      by rewrite (Dispatch_single_stage_sizing (with_SyncStream pf sync')
                    _ _ _ _ _ _ _ _ _ _ _ _ _ _ _ Hen Hc Hp).
    - rewrite (Dispatch_single_stage_run (with_SyncStream pf sync)
                 _ _ _ _ _ _ _ _ _ _ _ _ _ _ _ Hen Hc Hp).
      rewrite (Dispatch_single_stage_run (with_SyncStream pf sync')
                 _ _ _ _ _ _ _ _ _ _ _ _ _ _ _ Hen Hc Hp).
      unfold run_host. rewrite submit_sync_ext; [done|].
      intros Hd k Hk. apply (H Hd). simpl in Hk. lia. }
  assert (rk ≠ NULL_kernel ∧ tile_size_of rcfg < num_items) as [Hk Hn].
  { split; [tauto|]. destruct (Z.lt_ge_cases (tile_size_of rcfg) num_items); [done|].
    exfalso. apply Hc. right. lia. }
  destruct (queries_cases pf sm_version rk rcfg) as [(c & o & Hq)|(e & He & Hq)].
  2: { rewrite (Dispatch_query_failure (with_SyncStream pf sync)
                  _ _ _ _ _ _ _ _ _ _ _ _ _ _ _ _ Hen Hk Hn He Hq).
       by rewrite (Dispatch_query_failure (with_SyncStream pf sync')
                     _ _ _ _ _ _ _ _ _ _ _ _ _ _ _ _ Hen Hk Hn He Hq). }
  rewrite (Dispatch_two_stage (with_SyncStream pf sync)
             _ _ _ _ _ _ _ _ _ _ _ _ _ _ _ _ _ Hen Hk Hn Hq).
  rewrite (Dispatch_two_stage (with_SyncStream pf sync')
             _ _ _ _ _ _ _ _ _ _ _ _ _ _ _ _ _ Hen Hk Hn Hq).
  unfold run_host. rewrite !host_bind_eval.
  assert (alias_temporaries (with_SyncStream pf sync') d_temp_storage
            (allocation_sizes_of (with_SyncStream pf sync')
               (planned_grid_size rcfg num_items c o))
            ({| temp_storage_bytes := bytes; launched := [] |}
             : HostState T InputIterator OutputIterator)
          = alias_temporaries (with_SyncStream pf sync) d_temp_storage
              (allocation_sizes_of (with_SyncStream pf sync)
                 (planned_grid_size rcfg num_items c o))
              {| temp_storage_bytes := bytes; launched := [] |}) as ->
    by reflexivity.
  destruct (alias_temporaries _ _ _ _) as [[e|allocations] t] eqn:Ha; [done|].
  destruct (decide _); [done|].
  assert (launched t = []) as Hnil.
  { unfold alias_temporaries in Ha.
    destruct (AliasTemporaries _ _ _ _) as [[e' b'] al].
    unfold or_break in Ha. by destruct e'; simplify_eq. }
  rewrite submit_sync_ext; [done|].
  intros Hd k Hlen. apply (H Hd). rewrite Hnil in Hlen. simpl in Hlen.
  rewrite two_stage_launches_sequence in Hlen.
  destruct (decide _); simpl in Hlen; lia.
Qed.

End Synchronisations.

(** X11.  The only synchronisations of a call are those that follow its own
    launches, on the stream the call was given.  The outcome of [Dispatch]
    and of [Reduce] (status, reported size, kernels submitted) depends on
    [SyncStream] only through its answers for that stream after the first,
    the second and the third launch, and with [debug_synchronous] off it
    does not depend on [SyncStream] at all: a returned [cudaSuccess] then
    says that the kernels were submitted, not that they have run. *)
Theorem Dispatch_synchronisations {T InputIterator OutputIterator : Type}
    (pf : Platform) (sync sync' : cudaStream_t → nat → cudaError)
    (d_temp_storage : ptr) (bytes : Z)
    (d_in : InputIterator) (d_out : OutputIterator) (num_items : Z)
    (reduction_op : T → T → T) (stream : cudaStream_t) (debug : bool)
    (sm_version : Z) (pk rk ak sk : KernelPtr) (rcfg scfg : KernelDispatchConfig) :
  (debug = true → ∀ k : nat, (1 <= k <= 3)%nat → sync stream k = sync' stream k) →
  Dispatch (with_SyncStream pf sync) d_temp_storage bytes d_in d_out num_items
    reduction_op stream debug sm_version pk rk ak sk rcfg scfg
  = Dispatch (with_SyncStream pf sync') d_temp_storage bytes d_in d_out num_items
      reduction_op stream debug sm_version pk rk ak sk rcfg scfg
  ∧ Reduce (with_SyncStream pf sync) d_temp_storage bytes d_in d_out num_items
      reduction_op stream debug
    = Reduce (with_SyncStream pf sync') d_temp_storage bytes d_in d_out num_items
        reduction_op stream debug.
Proof.
  intros H. split; [by apply Dispatch_sync_ext|].
  unfold Reduce. rewrite !Dispatch_tuned_eq.
  change (PtxVersion (with_SyncStream pf sync)) with (PtxVersion pf).
  change (PtxVersion (with_SyncStream pf sync')) with (PtxVersion pf).
  destruct (PtxVersion pf) as [e v]. destruct e; try done.
  by apply Dispatch_sync_ext.
Qed.

Lemma Dispatch_synchronisations_witness :
  Dispatch
    (with_SyncStream example_platform
       (λ s _, if decide (s = 7) then cudaSuccess else cudaErrorCode 4))
    4096 1048576 tt tt 10000000 Z.add 7 true 350 FillAndResetDrainKernel_ptr
    ReduceTilesKernel_ptr SingleTileKernel_ptr SingleTileKernel_ptr
    (Policy350.ReduceTilesPolicy 4) Policy350.SingleTilePolicy
  = Dispatch (with_SyncStream example_platform (λ _ _, cudaSuccess))
      4096 1048576 tt tt 10000000 Z.add 7 true 350 FillAndResetDrainKernel_ptr
      ReduceTilesKernel_ptr SingleTileKernel_ptr SingleTileKernel_ptr
      (Policy350.ReduceTilesPolicy 4) Policy350.SingleTilePolicy.
Proof.
  refine (proj1 (Dispatch_synchronisations example_platform
                   (λ s _, if decide (s = 7) then cudaSuccess else cudaErrorCode 4)
                   (λ _ _, cudaSuccess) 4096 1048576 tt tt 10000000 Z.add 7 true 350
                   FillAndResetDrainKernel_ptr ReduceTilesKernel_ptr
                   SingleTileKernel_ptr SingleTileKernel_ptr
                   (Policy350.ReduceTilesPolicy 4) Policy350.SingleTilePolicy _)).
  intros _ k _. reflexivity.
Defined.

(** ** The end of the [int] range *)

Lemma int_wrap_above (z : Z) :
  INT_MAX < z <= INT_MAX + 2 ^ 32 → int_wrap z = z - 2 ^ 32.
Proof.
  unfold INT_MAX, int_wrap. intros H.
  replace (z + 2 ^ 31) with (z + 2 ^ 31 - 2 ^ 32 + 1 * 2 ^ 32) by lia.
  rewrite Z_mod_plus_full, Z.mod_small by lia. lia.
Qed.

(** X12.  The number of tiles is computed in [int] as
    [(num_items + tile_size - 1) / tile_size].  Under DYNAMIC mapping, once
    [num_items + tile_size - 1] exceeds [INT_MAX] the sum wraps around, the
    number of tiles comes out negative and so does the grid size of the
    partial-reduction kernel (for a tile of at most [2 ^ 30] items and an
    occupancy that is not negative): the largest inputs an [int] can count
    are not reduced.  ([int] arithmetic wraps in two's complement here, as on
    the device; the language leaves the overflow undefined.) *)
Theorem dynamic_grid_size_overflow (num_items tile_size reduce_tiles_occupancy : Z)
    (even_share : GridEvenShare) :
  1 <= tile_size <= 2 ^ 30 →
  num_items <= INT_MAX →
  INT_MAX < num_items + tile_size - 1 →
  0 <= reduce_tiles_occupancy →
  reduce_tiles_grid_size GRID_MAPPING_DYNAMIC num_items tile_size
    reduce_tiles_occupancy even_share < 0.
Proof.
  unfold INT_MAX. intros Hts Hn Hover Hocc.
  unfold reduce_tiles_grid_size, int_div, int_sub, int_add.
  rewrite (int_wrap_above (num_items + tile_size)) by (unfold INT_MAX; lia).
  rewrite (int_wrap_id (num_items + tile_size - 2 ^ 32 - 1))
    by (unfold in_int_range, INT_MIN, INT_MAX; lia).
  set (y := - (num_items + tile_size - 2 ^ 32 - 1)).
  replace (num_items + tile_size - 2 ^ 32 - 1) with (- y) by (unfold y; lia).
  assert (Hy : tile_size <= y <= 2 ^ 31) by (unfold y; lia).
  rewrite Z.quot_opp_l, Z.quot_div_nonneg by lia.
  assert (Hq : 1 <= y `div` tile_size <= 2 ^ 31).
  { split.
    - apply Z.div_le_lower_bound; lia.
    - apply Z.div_le_upper_bound; nia. }
  rewrite int_wrap_id by (unfold in_int_range, INT_MIN, INT_MAX; lia).
  destruct (Z.ltb_spec (- (y `div` tile_size)) reduce_tiles_occupancy); lia.
Qed.

Lemma dynamic_grid_size_overflow_witness :
  reduce_tiles_grid_size GRID_MAPPING_DYNAMIC 2147483647
    (tile_size_of (Policy350.ReduceTilesPolicy 1)) 28 (GridEvenShare_init 0 0 0) < 0.
Proof.
  apply dynamic_grid_size_overflow; by vm_compute.
Defined.

(** ** Launch configurations *)

Lemma InitDispatchConfigs_block_threads (ptx_version sizeof_T : Z) :
  (32 <= block_threads (fst (InitDispatchConfigs ptx_version sizeof_T)) <= 512
   ∧ block_threads (fst (InitDispatchConfigs ptx_version sizeof_T)) `mod` 32 = 0)
  ∧ (32 <= block_threads (snd (InitDispatchConfigs ptx_version sizeof_T)) <= 256
     ∧ block_threads (snd (InitDispatchConfigs ptx_version sizeof_T)) `mod` 32 = 0).
Proof.
  unfold InitDispatchConfigs, Policy350.ReduceTilesPolicy, Policy200.ReduceTilesPolicy.
  repeat case_match; by vm_compute.
Qed.

(** X13.  The launch configurations of [Reduce].  Whatever the arguments,
    the device and the status of the call, every kernel [Reduce] submitted is
    either the reset of the drain queue, launched as one block of one thread,
    or a reduction kernel whose block size is a whole number of warps of 32
    threads, at least one warp and at most 512 threads (at most 256 for the
    single-tile kernel); no launch asks for dynamic shared memory, and only
    the partial-reduction kernel is launched with a grid other than one
    block. *)
Theorem Reduce_launch_configurations {T InputIterator OutputIterator : Type}
    (pf : Platform) (d_temp_storage : ptr) (bytes : Z)
    (d_in : InputIterator) (d_out : OutputIterator) (num_items : Z)
    (reduction_op : T → T → T) (stream : cudaStream_t) (debug : bool) :
  Forall (λ l,
            shared_bytes l = 0
            ∧ ((kernel l = FillAndResetDrainKernel_ptr
                ∧ gridDim l = 1 ∧ blockDim l = 1)
               ∨ (kernel l = ReduceTilesKernel_ptr
                  ∧ 32 <= blockDim l <= 512 ∧ blockDim l `mod` 32 = 0)
               ∨ (kernel l = SingleTileKernel_ptr ∧ gridDim l = 1
                  ∧ 32 <= blockDim l <= 256 ∧ blockDim l `mod` 32 = 0)))
    (launched (snd (Reduce pf d_temp_storage bytes d_in d_out num_items
                      reduction_op stream debug))).
Proof.
  unfold Reduce. rewrite Dispatch_tuned_eq.
  destruct (PtxVersion pf) as [e v]. destruct e; try apply Forall_nil_2.
  destruct (InitDispatchConfigs_block_threads v (sizeof_T pf))
    as [[Hr Hrm] [Hs Hsm]].
  destruct (Dispatch_launched_cases pf d_temp_storage bytes d_in d_out num_items
              reduction_op stream debug v FillAndResetDrainKernel_ptr
              ReduceTilesKernel_ptr SingleTileKernel_ptr SingleTileKernel_ptr
              (fst (InitDispatchConfigs v (sizeof_T pf)))
              (snd (InitDispatchConfigs v (sizeof_T pf))))
    as [[rest Hfull]|(c & o & [rest Hfull])];
    match type of Hfull with
    | ?full = _ =>
        cut (Forall (λ l : Launch T InputIterator OutputIterator,
                       shared_bytes l = 0
                       ∧ ((kernel l = FillAndResetDrainKernel_ptr
                           ∧ gridDim l = 1 ∧ blockDim l = 1)
                          ∨ (kernel l = ReduceTilesKernel_ptr
                             ∧ 32 <= blockDim l <= 512 ∧ blockDim l `mod` 32 = 0)
                          ∨ (kernel l = SingleTileKernel_ptr ∧ gridDim l = 1
                             ∧ 32 <= blockDim l <= 256 ∧ blockDim l `mod` 32 = 0)))
               full);
        [rewrite Hfull; by intros [? _]%Forall_app|]
    end.
  - apply Forall_singleton. split; [done|]. right. right. by simpl.
  - rewrite two_stage_launches_sequence.
    destruct (decide _); repeat apply Forall_cons_2; try apply Forall_nil_2;
      (split; [done|]); simpl;
      first [by left | by right; left | by right; right].
Qed.
